(** * StuddyBuddy: the admin moderation service

    A shallow embedding of [com.studybuddy.service.AdminService] (both
    revisions that the repository carries) and the properties of its
    guarded user transitions: suspend, ban, soft delete, restore,
    permanent delete, role change and login enable/disable, each with
    its audit trail entry. *)

From stdpp Require Import base option list gmap strings fin_maps.
From Stdlib Require Import ZArith Lia.

Local Open Scope Z_scope.
Local Open Scope string_scope.

(** ** Values *)

(** [java.lang.Long] identifiers and [java.time.LocalDateTime] instants.
    An instant is a count of seconds on the local time line, which has no
    daylight-saving gaps, so that a day is always 86400 of them. *)
Abbreviation Long := Z.
Abbreviation LocalDateTime := Z.

Definition secondsPerDay : Z := 86400.

Definition minusDays (t : LocalDateTime) (days : Z) : LocalDateTime :=
  t - days * secondsPerDay.

Definition plusDays (t : LocalDateTime) (days : Z) : LocalDateTime :=
  t + days * secondsPerDay.

(** [a.isAfter(b)]: strictly later. *)
Definition isAfter (a b : LocalDateTime) : bool := bool_decide (b < a).

(** Modelled from the spec: the enum [com.studybuddy.model.Role] is not
    among the sources; its values are the three roles of the data model. *)
Inductive Role : Set := USER | EXPERT | ADMIN.

#[global] Instance Role_eq_dec : EqDecision Role.
Proof. solve_decision. Defined.

Definition Role_name (r : Role) : string :=
  match r with
  | USER => "USER"
  | EXPERT => "EXPERT"
  | ADMIN => "ADMIN"
  end.

(** ** The user entity *)

(** Modelled from the spec: the class [com.studybuddy.model.User] is not
    among the sources; its moderation columns are the ones of the data
    model (identity, role, [isActive], the suspension, ban and deletion
    flags and timestamps).  A nullable column is an [option]. *)
Record UserColumns : Set := mkColumns {
  col_username : string;
  col_email : string;
  col_role : Role;
  col_isActive : bool;
  col_suspendedUntil : option LocalDateTime;
  col_suspensionReason : option string;
  col_bannedAt : option LocalDateTime;
  col_banReason : option string;
  col_isDeleted : bool;
  col_deletedAt : option LocalDateTime
}.

(** A loaded entity: the primary key together with the column values. *)
Record User : Set := mkUser {
  getId : Long;
  columns : UserColumns
}.

#[global] Instance UserColumns_eq_dec : EqDecision UserColumns.
Proof. solve_decision. Defined.

#[global] Instance User_eq_dec : EqDecision User.
Proof. solve_decision. Defined.

(** Getters. *)
Definition getUsername (u : User) : string := col_username (columns u).
Definition getEmail (u : User) : string := col_email (columns u).
Definition getRole (u : User) : Role := col_role (columns u).
Definition getIsActive (u : User) : bool := col_isActive (columns u).
Definition getSuspendedUntil (u : User) : option LocalDateTime :=
  col_suspendedUntil (columns u).
Definition getSuspensionReason (u : User) : option string :=
  col_suspensionReason (columns u).
Definition getBannedAt (u : User) : option LocalDateTime := col_bannedAt (columns u).
Definition getBanReason (u : User) : option string := col_banReason (columns u).
Definition getIsDeleted (u : User) : bool := col_isDeleted (columns u).
Definition getDeletedAt (u : User) : option LocalDateTime := col_deletedAt (columns u).

(** Setters: each replaces one column and keeps the key and the others. *)
Definition withColumns (f : UserColumns -> UserColumns) (u : User) : User :=
  mkUser (getId u) (f (columns u)).

Definition setRole (r : Role) : User -> User :=
  withColumns (fun c =>
    mkColumns (col_username c) (col_email c) r (col_isActive c)
      (col_suspendedUntil c) (col_suspensionReason c)
      (col_bannedAt c) (col_banReason c) (col_isDeleted c) (col_deletedAt c)).

Definition setIsActive (b : bool) : User -> User :=
  withColumns (fun c =>
    mkColumns (col_username c) (col_email c) (col_role c) b
      (col_suspendedUntil c) (col_suspensionReason c)
      (col_bannedAt c) (col_banReason c) (col_isDeleted c) (col_deletedAt c)).

Definition setSuspendedUntil (t : option LocalDateTime) : User -> User :=
  withColumns (fun c =>
    mkColumns (col_username c) (col_email c) (col_role c) (col_isActive c)
      t (col_suspensionReason c)
      (col_bannedAt c) (col_banReason c) (col_isDeleted c) (col_deletedAt c)).

Definition setSuspensionReason (r : option string) : User -> User :=
  withColumns (fun c =>
    mkColumns (col_username c) (col_email c) (col_role c) (col_isActive c)
      (col_suspendedUntil c) r
      (col_bannedAt c) (col_banReason c) (col_isDeleted c) (col_deletedAt c)).

Definition setBannedAt (t : option LocalDateTime) : User -> User :=
  withColumns (fun c =>
    mkColumns (col_username c) (col_email c) (col_role c) (col_isActive c)
      (col_suspendedUntil c) (col_suspensionReason c)
      t (col_banReason c) (col_isDeleted c) (col_deletedAt c)).

Definition setBanReason (r : option string) : User -> User :=
  withColumns (fun c =>
    mkColumns (col_username c) (col_email c) (col_role c) (col_isActive c)
      (col_suspendedUntil c) (col_suspensionReason c)
      (col_bannedAt c) r (col_isDeleted c) (col_deletedAt c)).

Definition setIsDeleted (b : bool) : User -> User :=
  withColumns (fun c =>
    mkColumns (col_username c) (col_email c) (col_role c) (col_isActive c)
      (col_suspendedUntil c) (col_suspensionReason c)
      (col_bannedAt c) (col_banReason c) b (col_deletedAt c)).

Definition setDeletedAt (t : option LocalDateTime) : User -> User :=
  withColumns (fun c =>
    mkColumns (col_username c) (col_email c) (col_role c) (col_isActive c)
      (col_suspendedUntil c) (col_suspensionReason c)
      (col_bannedAt c) (col_banReason c) (col_isDeleted c) t).

(** Modelled from the spec: [User.isBanned()] and [User.isSuspended()] are
    methods of the absent entity class.  A user is banned iff [bannedAt] is
    set, and suspended iff [suspendedUntil] is set and in the future; the
    clock reading is the argument [now]. *)
Definition isBanned (u : User) : bool :=
  bool_decide (getBannedAt u <> None).

Definition isSuspended (now : LocalDateTime) (u : User) : bool :=
  match getSuspendedUntil u with
  | Some t => isAfter t now
  | None => false
  end.

(** ** The audit entity *)

(** A value put into the metadata map.  The texts that
    [LocalDateTime.toString()] and the JSON mapper produce are not
    modelled: an entry keeps the value that is rendered. *)
Inductive MetaValue : Set :=
  | MetaText (s : string)
  | MetaInstant (t : LocalDateTime).

(** Modelled from the spec: the class [com.studybuddy.model.AdminAuditLog]
    is not among the sources.  The record has the columns that [logAction]
    sets: admin id, action type, target type and id, reason, metadata. *)
Record AdminAuditLog : Type := mkAuditLog {
  adminUserId : Long;
  actionType : string;
  targetType : string;
  targetId : Long;
  reason : string;
  metadata : option (gmap string MetaValue)
}.

(** ** Stores, the ambient session and exceptions *)

(** The two tables the service writes.  The user table maps a primary key
    to its row; the audit table is append-only. *)
Record Store : Type := mkStore {
  users : gmap Z UserColumns;
  auditLogs : list AdminAuditLog
}.

(** What a call reads from its surroundings: the name of the authenticated
    caller in the security context and the reading of the clock. *)
Record Env : Set := mkEnv {
  authName : string;
  clockNow : LocalDateTime
}.

(** The two exception classes the service throws.  The controller answers
    an [IllegalArgumentException] with 400 and any other
    [RuntimeException] with 404. *)
Inductive Exception : Set :=
  | IllegalArgumentException (message : string)
  | RuntimeException (message : string).

#[global] Instance Exception_eq_dec : EqDecision Exception.
Proof. solve_decision. Defined.

Inductive Result (A : Type) : Type :=
  | Ok (a : A)
  | Thrown (e : Exception).
Arguments Ok {A} a.
Arguments Thrown {A} e.

(** A computation of the service: it reads the session, reads and writes
    the stores, and returns or throws.  The store reached when an exception
    is thrown is kept, so that the rollback is the transaction's work. *)
Definition Tx (A : Type) : Type := Env -> Store -> Result A * Store.

#[global] Instance Tx_ret : MRet Tx := fun A a _ s => (Ok a, s).

#[global] Instance Tx_bind : MBind Tx := fun A B f m env s =>
  match m env s with
  | (Ok a, s') => f a env s'
  | (Thrown e, s') => (Thrown e, s')
  end.

Definition throw {A : Type} (e : Exception) : Tx A := fun _ s => (Thrown e, s).

Definition query {A : Type} (f : Store -> A) : Tx A := fun _ s => (Ok (f s), s).

Definition update (f : Store -> Store) : Tx unit := fun _ s => (Ok tt, f s).

(** [SecurityContextHolder.getContext().getAuthentication().getName()]. *)
Definition getAuthenticationName : Tx string := fun env s => (Ok (authName env), s).

(** [LocalDateTime.now()]. *)
Definition LocalDateTime_now : Tx LocalDateTime := fun env s => (Ok (clockNow env), s).

(** [Optional.orElseThrow]. *)
Definition orElseThrow {A : Type} (e : Exception) (o : option A) : Tx A :=
  match o with
  | Some a => mret a
  | None => throw e
  end.

(** [@Transactional]: both exception classes are unchecked, so a thrown
    exception rolls the stores back to what they were at the call. *)
Definition Transactional {A : Type} (body : Tx A) : Tx A := fun env s =>
  match body env s with
  | (Ok a, s') => (Ok a, s')
  | (Thrown e, _) => (Thrown e, s)
  end.

(** ** The repositories *)

(** Modelled from the spec: the Spring Data repositories are interfaces
    whose implementation is generated; they are the user store
    ([findById], [findByUsername], [save], [delete], [findAll]) and the
    append-only audit sink of the external interfaces. *)
Module UserRepository.

Definition entity (kc : Z * UserColumns) : User := mkUser kc.1 kc.2.

Definition findAll (s : Store) : list User :=
  entity <$> map_to_list (users s).

Definition findById (k : Long) (s : Store) : option User :=
  mkUser k <$> users s !! k.

Definition findByUsername (name : string) (s : Store) : option User :=
  head (filter (fun u => getUsername u = name) (findAll s)).

Definition save (u : User) (s : Store) : Store :=
  mkStore (<[getId u := columns u]> (users s)) (auditLogs s).

Definition delete (u : User) (s : Store) : Store :=
  mkStore (base.delete (getId u) (users s)) (auditLogs s).

End UserRepository.

Module AdminAuditLogRepository.

Definition save (log : AdminAuditLog) (s : Store) : Store :=
  mkStore (users s) (auditLogs s ++ [log]).

End AdminAuditLogRepository.

(** ** The service, later revision *)

Module AdminService.

(** Get current admin user from security context. *)
Definition getCurrentAdmin : Tx User :=
  name ← getAuthenticationName;
  found ← query (UserRepository.findByUsername name);
  orElseThrow (RuntimeException "Admin user not found") found.

(** Check if user is trying to modify themselves (prevent self-lockout). *)
Definition checkSelfModification (targetUserId : Long) (action : string) : Tx unit :=
  currentAdmin ← getCurrentAdmin;
  if bool_decide (getId currentAdmin = targetUserId)
  then throw (IllegalArgumentException ("Cannot " +:+ action +:+ " your own account"))
  else mret tt.

(** The functional admins: role ADMIN, not deleted and not banned. *)
Definition adminCount (all : list User) : nat :=
  length (filter (fun u => getRole u = ADMIN
                           /\ getIsDeleted u <> true
                           /\ getBannedAt u = None) all).

(** Check if trying to modify last admin account. *)
Definition checkLastAdmin (targetUserId : Long) : Tx unit :=
  found ← query (UserRepository.findById targetUserId);
  targetUser ← orElseThrow (RuntimeException "User not found") found;
  if bool_decide (getRole targetUser = ADMIN) then
    all ← query UserRepository.findAll;
    if bool_decide (adminCount all <= 1)%nat
    then throw (IllegalArgumentException "Cannot modify the last admin account")
    else mret tt
  else mret tt.

(** Create audit log entry.  The metadata column is set only for a map
    that is neither null nor empty. *)
Definition logAction (actionType targetType : string) (targetId : Long)
    (reason : string) (metadata : option (gmap string MetaValue)) : Tx unit :=
  admin ← getCurrentAdmin;
  let log :=
    mkAuditLog (getId admin) actionType targetType targetId reason
      (match metadata with
       | Some m => if bool_decide (m = ∅) then None else Some m
       | None => None
       end) in
  update (AdminAuditLogRepository.save log).

(** [userRepository.save(user)], which returns the saved entity. *)
Definition saveUser (user : User) : Tx User :=
  _ ← update (UserRepository.save user);
  mret user.

(** Suspend a user. *)
Definition suspendUser (userId : Long) (suspendedUntil : LocalDateTime)
    (reason : string) : Tx User :=
  Transactional (
    _ ← checkSelfModification userId "suspend";
    found ← query (UserRepository.findById userId);
    user ← orElseThrow (RuntimeException "User not found") found;
    let user := setSuspendedUntil (Some suspendedUntil) user in
    let user := setSuspensionReason (Some reason) user in
    savedUser ← saveUser user;
    let metadata := <["suspendedUntil" := MetaInstant suspendedUntil]> ∅ in
    _ ← logAction "SUSPEND" "USER" userId reason (Some metadata);
    mret savedUser).

(** Ban a user. *)
Definition banUser (userId : Long) (reason : string) : Tx User :=
  Transactional (
    _ ← checkSelfModification userId "ban";
    _ ← checkLastAdmin userId;
    found ← query (UserRepository.findById userId);
    user ← orElseThrow (RuntimeException "User not found") found;
    now ← LocalDateTime_now;
    let user := setBannedAt (Some now) user in
    let user := setBanReason (Some reason) user in
    let user := setIsActive false user in
    savedUser ← saveUser user;
    _ ← logAction "BAN" "USER" userId reason None;
    mret savedUser).

(** Remove suspension from a user.  Only removes suspension flags, does
    not modify isActive. *)
Definition unsuspendUser (userId : Long) (reason : string) : Tx User :=
  Transactional (
    found ← query (UserRepository.findById userId);
    user ← orElseThrow (RuntimeException "User not found") found;
    let user := setSuspendedUntil None user in
    let user := setSuspensionReason None user in
    savedUser ← saveUser user;
    _ ← logAction "UNSUSPEND" "USER" userId reason None;
    mret savedUser).

(** Unban a user.  Only removes ban flags, does not modify isActive. *)
Definition unbanUser (userId : Long) (reason : string) : Tx User :=
  Transactional (
    found ← query (UserRepository.findById userId);
    user ← orElseThrow (RuntimeException "User not found") found;
    let user := setBannedAt None user in
    let user := setBanReason None user in
    savedUser ← saveUser user;
    _ ← logAction "UNBAN" "USER" userId reason None;
    mret savedUser).

(** Soft delete a user. *)
Definition softDeleteUser (userId : Long) (reason : string) : Tx User :=
  Transactional (
    _ ← checkSelfModification userId "delete";
    _ ← checkLastAdmin userId;
    found ← query (UserRepository.findById userId);
    user ← orElseThrow (RuntimeException "User not found") found;
    now ← LocalDateTime_now;
    let user := setIsDeleted true user in
    let user := setDeletedAt (Some now) user in
    let user := setIsActive false user in
    savedUser ← saveUser user;
    _ ← logAction "SOFT_DELETE" "USER" userId reason None;
    mret savedUser).

(** Restore a soft-deleted user. *)
Definition restoreUser (userId : Long) (reason : string) : Tx User :=
  Transactional (
    found ← query (UserRepository.findById userId);
    user ← orElseThrow (RuntimeException "User not found") found;
    if negb (getIsDeleted user)
    then throw (IllegalArgumentException "User is not deleted")
    else
      let user := setIsDeleted false user in
      let user := setDeletedAt None user in
      now ← LocalDateTime_now;
      let user := if negb (isBanned user) && negb (isSuspended now user)
                  then setIsActive true user else user in
      savedUser ← saveUser user;
      _ ← logAction "RESTORE" "USER" userId reason None;
      mret savedUser).

(** Permanently delete a user (only if already soft deleted). *)
Definition permanentDeleteUser (userId : Long) (reason : string) : Tx unit :=
  Transactional (
    _ ← checkSelfModification userId "permanently delete";
    _ ← checkLastAdmin userId;
    found ← query (UserRepository.findById userId);
    user ← orElseThrow (RuntimeException "User not found") found;
    if negb (getIsDeleted user)
    then throw (IllegalArgumentException
                  "User must be soft deleted before permanent deletion")
    else
      now ← LocalDateTime_now;
      let thirtyDaysAgo := minusDays now 30 in
      if match getDeletedAt user with
         | Some deletedAt => isAfter deletedAt thirtyDaysAgo
         | None => false
         end
      then throw (IllegalArgumentException
                    "Cannot permanently delete user until 30 days after soft deletion")
      else
        _ ← logAction "PERMANENT_DELETE" "USER" userId reason None;
        update (UserRepository.delete user)).

(** Update user role with safety checks. *)
Definition updateUserRole (userId : Long) (newRole : Role) (reason : string) : Tx User :=
  Transactional (
    found ← query (UserRepository.findById userId);
    user ← orElseThrow (RuntimeException "User not found") found;
    currentAdmin ← getCurrentAdmin;
    if bool_decide (getId currentAdmin = userId)
       && bool_decide (getRole user = ADMIN)
       && bool_decide (newRole <> ADMIN)
    then throw (IllegalArgumentException "Cannot remove your own admin role")
    else
      _ ← (if bool_decide (getRole user = ADMIN) && bool_decide (newRole <> ADMIN)
           then checkLastAdmin userId else mret tt);
      let oldRole := getRole user in
      let user := setRole newRole user in
      savedUser ← saveUser user;
      let metadata :=
        <["newRole" := MetaText (Role_name newRole)]>
          (<["oldRole" := MetaText (Role_name oldRole)]> ∅) in
      _ ← logAction "ROLE_CHANGE" "USER" userId reason (Some metadata);
      mret savedUser).

(** Disable login without suspension/ban. *)
Definition disableLogin (userId : Long) (reason : string) : Tx User :=
  Transactional (
    _ ← checkSelfModification userId "disable login for";
    found ← query (UserRepository.findById userId);
    user ← orElseThrow (RuntimeException "User not found") found;
    let user := setIsActive false user in
    savedUser ← saveUser user;
    _ ← logAction "DISABLE_LOGIN" "USER" userId reason None;
    mret savedUser).

(** Enable login.  Only sets isActive to true. *)
Definition enableLogin (userId : Long) (reason : string) : Tx User :=
  Transactional (
    found ← query (UserRepository.findById userId);
    user ← orElseThrow (RuntimeException "User not found") found;
    if isBanned user
    then throw (IllegalArgumentException
                  "Cannot enable login for banned user. Unban first.")
    else
      now ← LocalDateTime_now;
      if isSuspended now user
      then throw (IllegalArgumentException
                    "Cannot enable login for suspended user. Unsuspend first.")
      else
        let user := setIsActive true user in
        savedUser ← saveUser user;
        _ ← logAction "ENABLE_LOGIN" "USER" userId reason None;
        mret savedUser).

End AdminService.

(** ** The service, earlier revision *)

(** The earlier revision of the same class.  Its [getCurrentAdmin],
    [checkSelfModification] and [logAction] read as in the later one (the
    metadata text apart, which is not modelled), so they are shared.  Its
    last-admin count does not look at bans, [banUser] does not run the
    last-admin check, [suspendUser] disables login, and lifting a
    suspension or a ban enables login again.  The remaining six methods
    read as in the later revision and are not repeated. *)
Module EarlierAdminService.

Definition getCurrentAdmin : Tx User := AdminService.getCurrentAdmin.

Definition checkSelfModification : Long -> string -> Tx unit :=
  AdminService.checkSelfModification.

Definition logAction :
    string -> string -> Long -> string -> option (gmap string MetaValue) -> Tx unit :=
  AdminService.logAction.

Definition saveUser : User -> Tx User := AdminService.saveUser.

Definition adminCount (all : list User) : nat :=
  length (filter (fun u => getRole u = ADMIN /\ getIsDeleted u <> true) all).

(** Check if trying to modify last admin account. *)
Definition checkLastAdmin (targetUserId : Long) : Tx unit :=
  found ← query (UserRepository.findById targetUserId);
  targetUser ← orElseThrow (RuntimeException "User not found") found;
  if bool_decide (getRole targetUser = ADMIN) then
    all ← query UserRepository.findAll;
    if bool_decide (adminCount all <= 1)%nat
    then throw (IllegalArgumentException "Cannot modify the last admin account")
    else mret tt
  else mret tt.

(** Suspend a user. *)
Definition suspendUser (userId : Long) (suspendedUntil : LocalDateTime)
    (reason : string) : Tx User :=
  Transactional (
    _ ← checkSelfModification userId "suspend";
    found ← query (UserRepository.findById userId);
    user ← orElseThrow (RuntimeException "User not found") found;
    let user := setSuspendedUntil (Some suspendedUntil) user in
    let user := setSuspensionReason (Some reason) user in
    let user := setIsActive false user in
    savedUser ← saveUser user;
    let metadata := <["suspendedUntil" := MetaInstant suspendedUntil]> ∅ in
    _ ← logAction "SUSPEND" "USER" userId reason (Some metadata);
    mret savedUser).

(** Ban a user. *)
Definition banUser (userId : Long) (reason : string) : Tx User :=
  Transactional (
    _ ← checkSelfModification userId "ban";
    found ← query (UserRepository.findById userId);
    user ← orElseThrow (RuntimeException "User not found") found;
    now ← LocalDateTime_now;
    let user := setBannedAt (Some now) user in
    let user := setBanReason (Some reason) user in
    let user := setIsActive false user in
    savedUser ← saveUser user;
    _ ← logAction "BAN" "USER" userId reason None;
    mret savedUser).

(** Remove suspension from a user. *)
Definition unsuspendUser (userId : Long) (reason : string) : Tx User :=
  Transactional (
    found ← query (UserRepository.findById userId);
    user ← orElseThrow (RuntimeException "User not found") found;
    let user := setSuspendedUntil None user in
    let user := setSuspensionReason None user in
    let user := if negb (isBanned user) then setIsActive true user else user in
    savedUser ← saveUser user;
    _ ← logAction "UNSUSPEND" "USER" userId reason None;
    mret savedUser).

(** Unban a user. *)
Definition unbanUser (userId : Long) (reason : string) : Tx User :=
  Transactional (
    found ← query (UserRepository.findById userId);
    user ← orElseThrow (RuntimeException "User not found") found;
    let user := setBannedAt None user in
    let user := setBanReason None user in
    now ← LocalDateTime_now;
    let user := if negb (isSuspended now user) then setIsActive true user else user in
    savedUser ← saveUser user;
    _ ← logAction "UNBAN" "USER" userId reason None;
    mret savedUser).

End EarlierAdminService.

(** ** Error kinds *)

(** The kinds of failure that the boundary distinguishes, as the
    exceptions the service throws for them. *)
Definition NotFound : Exception := RuntimeException "User not found".

Definition SelfModification (action : string) : Exception :=
  IllegalArgumentException ("Cannot " +:+ action +:+ " your own account").

Definition SelfDemotion : Exception :=
  IllegalArgumentException "Cannot remove your own admin role".

Definition LastAdmin : Exception :=
  IllegalArgumentException "Cannot modify the last admin account".

Definition InvalidState_notDeleted : Exception :=
  IllegalArgumentException "User is not deleted".

Definition InvalidState_notSoftDeleted : Exception :=
  IllegalArgumentException "User must be soft deleted before permanent deletion".

Definition TooSoon : Exception :=
  IllegalArgumentException
    "Cannot permanently delete user until 30 days after soft deletion".

Definition StillBanned : Exception :=
  IllegalArgumentException "Cannot enable login for banned user. Unban first.".

Definition StillSuspended : Exception :=
  IllegalArgumentException "Cannot enable login for suspended user. Unsuspend first.".

(** ** Moderation operations as data *)

(** One constructor per public moderation method of the later revision,
    carrying the arguments of the call. *)
Inductive Operation : Set :=
  | SuspendUser (userId : Long) (suspendedUntil : LocalDateTime) (reason : string)
  | BanUser (userId : Long) (reason : string)
  | UnsuspendUser (userId : Long) (reason : string)
  | UnbanUser (userId : Long) (reason : string)
  | SoftDeleteUser (userId : Long) (reason : string)
  | RestoreUser (userId : Long) (reason : string)
  | PermanentDeleteUser (userId : Long) (reason : string)
  | UpdateUserRole (userId : Long) (newRole : Role) (reason : string)
  | DisableLogin (userId : Long) (reason : string)
  | EnableLogin (userId : Long) (reason : string).

Definition targetOf (op : Operation) : Long :=
  match op with
  | SuspendUser k _ _ | BanUser k _ | UnsuspendUser k _ | UnbanUser k _
  | SoftDeleteUser k _ | RestoreUser k _ | PermanentDeleteUser k _
  | UpdateUserRole k _ _ | DisableLogin k _ | EnableLogin k _ => k
  end.

(** The action type that the audit trail expects for an operation. *)
Definition actionTypeOf (op : Operation) : string :=
  match op with
  | SuspendUser _ _ _ => "SUSPEND"
  | BanUser _ _ => "BAN"
  | UnsuspendUser _ _ => "UNSUSPEND"
  | UnbanUser _ _ => "UNBAN"
  | SoftDeleteUser _ _ => "SOFT_DELETE"
  | RestoreUser _ _ => "RESTORE"
  | PermanentDeleteUser _ _ => "PERMANENT_DELETE"
  | UpdateUserRole _ _ _ => "ROLE_CHANGE"
  | DisableLogin _ _ => "DISABLE_LOGIN"
  | EnableLogin _ _ => "ENABLE_LOGIN"
  end.

(** Whether a computation returned, whatever it returned. *)
Definition outcome {A : Type} (m : Tx A) : Tx unit := fun env s =>
  match m env s with
  | (Ok _, s') => (Ok tt, s')
  | (Thrown e, s') => (Thrown e, s')
  end.

Definition perform (op : Operation) : Tx unit :=
  match op with
  | SuspendUser k t r => outcome (AdminService.suspendUser k t r)
  | BanUser k r => outcome (AdminService.banUser k r)
  | UnsuspendUser k r => outcome (AdminService.unsuspendUser k r)
  | UnbanUser k r => outcome (AdminService.unbanUser k r)
  | SoftDeleteUser k r => outcome (AdminService.softDeleteUser k r)
  | RestoreUser k r => outcome (AdminService.restoreUser k r)
  | PermanentDeleteUser k r => AdminService.permanentDeleteUser k r
  | UpdateUserRole k role r => outcome (AdminService.updateUserRole k role r)
  | DisableLogin k r => outcome (AdminService.disableLogin k r)
  | EnableLogin k r => outcome (AdminService.enableLogin k r)
  end.

(** ** Audit trail bookkeeping *)

(** The entry that [logAction] writes for a user action, given the caller
    it found. *)
Definition auditEntry (admin : User) (action : string) (target : Long)
    (why : string) (md : option (gmap string MetaValue)) : AdminAuditLog :=
  mkAuditLog (getId admin) action "USER" target why
    (match md with
     | Some m => if bool_decide (m = ∅) then None else Some m
     | None => None
     end).

(** A computation that never writes the audit table, returning or not. *)
Definition appendsNothing {A : Type} (m : Tx A) : Prop :=
  forall env s, auditLogs (m env s).2 = auditLogs s.

(** A computation that, when it returns, has appended exactly one entry,
    for the given target and action, and when it throws has appended none. *)
Definition appendsOne {A : Type} (target : Long) (action : string) (m : Tx A) : Prop :=
  forall env s,
    match m env s with
    | (Ok _, s') =>
        exists e, auditLogs s' = (auditLogs s ++ [e])%list
                  /\ targetId e = target /\ actionType e = action
    | (Thrown _, s') => auditLogs s' = auditLogs s
    end.

(** ** Sample data *)

Definition sampleNow : LocalDateTime := 100 * secondsPerDay.

Definition sampleEnv : Env := mkEnv "root" sampleNow.

Definition plainColumns (name : string) (r : Role) : UserColumns :=
  mkColumns name (name +:+ "@example.org") r true None None None None false None.

Definition disabledColumns (name : string) (r : Role) : UserColumns :=
  mkColumns name (name +:+ "@example.org") r false None None None None false None.

Definition bannedColumns (name : string) (r : Role) (at_ : LocalDateTime) : UserColumns :=
  mkColumns name (name +:+ "@example.org") r false None None
    (Some at_) (Some "abuse") false None.

Definition deletedColumns (name : string) (r : Role)
    (at_ : option LocalDateTime) : UserColumns :=
  mkColumns name (name +:+ "@example.org") r false None None None None true at_.

(** One admin (id 1, the caller) and one student (id 42). *)
Definition soleAdminStore : Store :=
  mkStore (<[42 := plainColumns "dana" USER]> (<[1 := plainColumns "root" ADMIN]> ∅)) [].

(** The caller (id 1) is the only functional admin; admin 7 is banned. *)
Definition bannedAdminStore : Store :=
  mkStore (<[7 := bannedColumns "eve" ADMIN sampleNow]>
             (<[1 := plainColumns "root" ADMIN]> ∅)) [].

(** Two admins, a student, a student whose login is disabled, and three
    soft-deleted accounts: deleted 31 days ago, 29 days ago, and one
    whose deletion time is missing. *)
Definition moderationStore : Store :=
  mkStore
    (<[52 := deletedColumns "odd" USER None]>
    (<[51 := deletedColumns "recent" USER (Some (minusDays sampleNow 29))]>
    (<[50 := deletedColumns "old" USER (Some (minusDays sampleNow 31))]>
    (<[43 := disabledColumns "omar" USER]>
    (<[42 := plainColumns "dana" USER]>
    (<[2 := plainColumns "ruth" ADMIN]>
    (<[1 := plainColumns "root" ADMIN]> ∅))))))) [].

(** The accounts of the sample stores, as loaded entities. *)
Definition root : User := mkUser 1 (plainColumns "root" ADMIN).
Definition ruth : User := mkUser 2 (plainColumns "ruth" ADMIN).
Definition eve : User := mkUser 7 (bannedColumns "eve" ADMIN sampleNow).
Definition dana : User := mkUser 42 (plainColumns "dana" USER).
Definition omar : User := mkUser 43 (disabledColumns "omar" USER).
Definition oldAccount : User :=
  mkUser 50 (deletedColumns "old" USER (Some (minusDays sampleNow 31))).
Definition recentAccount : User :=
  mkUser 51 (deletedColumns "recent" USER (Some (minusDays sampleNow 29))).
Definition oddAccount : User := mkUser 52 (deletedColumns "odd" USER None).

(** The stores that the sole admin reaches by banning the student and
    then disabling the student's login, and the student's record then. *)
Definition bannedStore : Store :=
  (AdminService.banUser 42 "abuse" sampleEnv soleAdminStore).2.

Definition bannedDisabledStore : Store :=
  (AdminService.disableLogin 42 "hold" sampleEnv bannedStore).2.

Definition bannedDana : User :=
  setIsActive false (setBanReason (Some "abuse") (setBannedAt (Some sampleNow) dana)).

(** The store that the sole admin reaches by suspending the student for
    seven days, and the student's record then. *)
Definition suspendedStore : Store :=
  (AdminService.suspendUser 42 (plusDays sampleNow 7) "spam" sampleEnv soleAdminStore).2.

Definition suspendedDana : User :=
  setSuspensionReason (Some "spam") (setSuspendedUntil (Some (plusDays sampleNow 7)) dana).

(** The store that the sole admin reaches by suspending the banned student
    for seven days, and the student's record then: banned and suspended. *)
Definition bannedSuspendedStore : Store :=
  (AdminService.suspendUser 42 (plusDays sampleNow 7) "spam" sampleEnv bannedStore).2.

Definition bannedSuspendedDana : User :=
  setSuspensionReason (Some "spam")
    (setSuspendedUntil (Some (plusDays sampleNow 7)) bannedDana).

(** The caller (id 1) is the only functional admin; the former admin 9 is
    soft-deleted and its deletion time is missing. *)
Definition formerAdminStore : Store :=
  mkStore (<[9 := deletedColumns "zed" ADMIN None]>
             (<[1 := plainColumns "root" ADMIN]> ∅)) [].

Definition zed : User := mkUser 9 (deletedColumns "zed" ADMIN None).

(** ** Proof support *)

Ltac tx_unfold :=
  cbv beta iota zeta delta
    [mbind mret Tx_bind Tx_ret query update throw orElseThrow
     getAuthenticationName LocalDateTime_now Transactional outcome].

(** ** Outcomes of the user methods *)

(** The condition that the last-admin count of the later revision tests
    on a user. *)
Definition functionalAdmin (u : User) : Prop :=
  getRole u = ADMIN /\ getIsDeleted u <> true /\ getBannedAt u = None.

(** The error of a call whose authenticated name is not a stored user. *)
Definition AdminNotFound : Exception := RuntimeException "Admin user not found".

(** The last-admin check lets a target through. *)
Definition passesLastAdmin (u : User) (s : Store) : Prop :=
  getRole u = ADMIN ->
  (1 < AdminService.adminCount (UserRepository.findAll s))%nat.

(** The store [s'] is [s] with the entity [u'] saved and then one audit
    entry written for it by the caller found after the save. *)
Definition savedAndLogged (env : Env) (s : Store) (k : Long) (action why : string)
    (md : option (gmap string MetaValue)) (u' : User) (s' : Store) : Prop :=
  exists a',
    UserRepository.findByUsername (authName env) (UserRepository.save u' s) = Some a'
    /\ s' = AdminAuditLogRepository.save (auditEntry a' action k why md)
              (UserRepository.save u' s).

(** The guards of an operation, read off its method: the caller [a] is
    stored, the target [u] is stored, and the method's own tests pass. *)
Definition permitted (op : Operation) (env : Env) (s : Store) : Prop :=
  exists a u,
    UserRepository.findByUsername (authName env) s = Some a
    /\ UserRepository.findById (targetOf op) s = Some u
    /\ match op with
       | SuspendUser k _ _ | DisableLogin k _ => getId a <> k
       | BanUser k _ | SoftDeleteUser k _ => getId a <> k /\ passesLastAdmin u s
       | PermanentDeleteUser k _ =>
           getId a <> k /\ passesLastAdmin u s /\ getIsDeleted u = true
           /\ (forall deletedAt, getDeletedAt u = Some deletedAt ->
                                 deletedAt <= minusDays (clockNow env) 30)
       | UnsuspendUser _ _ | UnbanUser _ _ => True
       | RestoreUser _ _ => getIsDeleted u = true
       | EnableLogin _ _ =>
           getBannedAt u = None /\ isSuspended (clockNow env) u = false
       | UpdateUserRole k newRole _ =>
           getRole u = ADMIN -> newRole <> ADMIN ->
           getId a <> k /\ passesLastAdmin u s
       end.

#[global] Instance functionalAdmin_dec (u : User) : Decision (functionalAdmin u).
Proof. unfold functionalAdmin. apply _. Defined.

(** The reason passed to an operation. *)
Definition reasonOf (op : Operation) : string :=
  match op with
  | SuspendUser _ _ r | UpdateUserRole _ _ r => r
  | BanUser _ r | UnsuspendUser _ r | UnbanUser _ r | SoftDeleteUser _ r
  | RestoreUser _ r | PermanentDeleteUser _ r | DisableLogin _ r
  | EnableLogin _ r => r
  end.

(** The metadata that an operation on the stored user [u] logs. *)
Definition metadataOf (op : Operation) (u : User) : option (gmap string MetaValue) :=
  match op with
  | SuspendUser _ t _ => Some (<["suspendedUntil" := MetaInstant t]> ∅)
  | UpdateUserRole _ newRole _ =>
      Some (<["newRole" := MetaText (Role_name newRole)]>
              (<["oldRole" := MetaText (Role_name (getRole u))]> ∅))
  | _ => None
  end.

(** The record that an operation stores for the stored target [u], read
    off the setters of its method; a permanent delete stores none. *)
Definition resultOf (op : Operation) (env : Env) (u : User) : option User :=
  match op with
  | SuspendUser _ t r =>
      Some (setSuspensionReason (Some r) (setSuspendedUntil (Some t) u))
  | BanUser _ r =>
      Some (setIsActive false
              (setBanReason (Some r) (setBannedAt (Some (clockNow env)) u)))
  | UnsuspendUser _ _ => Some (setSuspensionReason None (setSuspendedUntil None u))
  | UnbanUser _ _ => Some (setBanReason None (setBannedAt None u))
  | SoftDeleteUser _ _ =>
      Some (setIsActive false
              (setDeletedAt (Some (clockNow env)) (setIsDeleted true u)))
  | RestoreUser _ _ =>
      Some (if negb (isBanned u) && negb (isSuspended (clockNow env) u)
            then setIsActive true (setDeletedAt None (setIsDeleted false u))
            else setDeletedAt None (setIsDeleted false u))
  | PermanentDeleteUser _ _ => None
  | UpdateUserRole _ newRole _ => Some (setRole newRole u)
  | DisableLogin _ _ => Some (setIsActive false u)
  | EnableLogin _ _ => Some (setIsActive true u)
  end.

(** The user table after the operation on the stored target [u]. *)
Definition usersAfter (op : Operation) (env : Env) (u : User)
    (m : gmap Z UserColumns) : gmap Z UserColumns :=
  match resultOf op env u with
  | Some u' => <[targetOf op := columns u']> m
  | None => delete (targetOf op) m
  end.

(** The methods that look the caller up before anything else. *)
Definition checksCallerFirst (op : Operation) : bool :=
  match op with
  | SuspendUser _ _ _ | BanUser _ _ | SoftDeleteUser _ _
  | PermanentDeleteUser _ _ | DisableLogin _ _ => true
  | _ => false
  end.

(** The methods that save the target without any test on it and look the
    caller up only to write the audit entry. *)
Definition savesBeforeCallerLookup (op : Operation) : bool :=
  match op with
  | UnsuspendUser _ _ | UnbanUser _ _ => true
  | _ => false
  end.

(** ** Courses and study groups *)

(** The classes [Course] and [StudyGroup] and their repositories are not
    among the sources.  The records have the columns that the course and
    group methods of the service read and write: the archive flag and
    time of a course (the flag is a nullable [Boolean]), and the nullable
    active flag of a group.  The association behind [course.getGroups()]
    is kept in one place, as the course a group row refers to: a loaded
    course carries the groups whose rows refer to it. *)
Record StudyGroupColumns : Set := mkStudyGroupColumns {
  col_groupCourse : option Long;
  col_groupIsActive : option bool
}.

Record StudyGroup : Set := mkStudyGroup {
  getGroupId : Long;
  groupColumns : StudyGroupColumns
}.

Definition getGroupCourse (g : StudyGroup) : option Long :=
  col_groupCourse (groupColumns g).
Definition getGroupIsActive (g : StudyGroup) : option bool :=
  col_groupIsActive (groupColumns g).

Record CourseColumns : Set := mkCourseColumns {
  col_isArchived : option bool;
  col_archivedAt : option LocalDateTime
}.

(** A loaded course: its key, its row and its groups. *)
Record Course : Set := mkCourse {
  getCourseId : Long;
  courseColumns : CourseColumns;
  getGroups : list StudyGroup
}.

Definition getIsArchived (c : Course) : option bool := col_isArchived (courseColumns c).
Definition getArchivedAt (c : Course) : option LocalDateTime :=
  col_archivedAt (courseColumns c).

Definition setIsArchived (b : option bool) (c : Course) : Course :=
  mkCourse (getCourseId c) (mkCourseColumns b (getArchivedAt c)) (getGroups c).

Definition setArchivedAt (t : option LocalDateTime) (c : Course) : Course :=
  mkCourse (getCourseId c) (mkCourseColumns (getIsArchived c) t) (getGroups c).

(** The tables of the whole service: the user and audit tables, the
    course table and the group table. *)
Record World : Type := mkWorld {
  base : Store;
  courses : gmap Z CourseColumns;
  studyGroups : gmap Z StudyGroupColumns
}.

(** Computations over the whole service state. *)
Definition WTx (A : Type) : Type := Env -> World -> Result A * World.

#[global] Instance WTx_ret : MRet WTx := fun A a _ w => (Ok a, w).

#[global] Instance WTx_bind : MBind WTx := fun A B f m env w =>
  match m env w with
  | (Ok a, w') => f a env w'
  | (Thrown e, w') => (Thrown e, w')
  end.

Definition wthrow {A : Type} (e : Exception) : WTx A := fun _ w => (Thrown e, w).

Definition wquery {A : Type} (f : World -> A) : WTx A := fun _ w => (Ok (f w), w).

Definition wupdate (f : World -> World) : WTx unit := fun _ w => (Ok tt, f w).

Definition wnow : WTx LocalDateTime := fun env w => (Ok (clockNow env), w).

Definition worElseThrow {A : Type} (e : Exception) (o : option A) : WTx A :=
  match o with
  | Some a => mret a
  | None => wthrow e
  end.

(** A computation on the user and audit tables, run inside the whole
    state. *)
Definition liftTx {A : Type} (m : Tx A) : WTx A := fun env w =>
  match m env (base w) with
  | (r, s') => (r, mkWorld s' (courses w) (studyGroups w))
  end.

(** [@Transactional] on the whole state. *)
Definition WTransactional {A : Type} (body : WTx A) : WTx A := fun env w =>
  match body env w with
  | (Ok a, w') => (Ok a, w')
  | (Thrown e, _) => (Thrown e, w)
  end.

(** What the persistence layer does when a course or a group is deleted
    is not in the sources: whether the delete goes through, and which
    other course and group rows go with it or stand in its way, depends on
    the mapping of the two classes.  It is taken as given: a delete reads
    the course and group tables and either throws or yields the two tables
    as they are afterwards.  It has no access to the user and audit
    tables. *)
Definition Tables : Type := gmap Z CourseColumns * gmap Z StudyGroupColumns.

Record Persistence : Type := mkPersistence {
  deleteCourseRows : Course -> Tables -> Result Tables;
  deleteGroupRows : StudyGroup -> Tables -> Result Tables
}.

Definition tables (w : World) : Tables := (courses w, studyGroups w).

(** A delete of the persistence layer, run on the whole state. *)
Definition wdelete (rows : Tables -> Result Tables) : WTx unit := fun _ w =>
  match rows (tables w) with
  | Ok (cs, gs) => (Ok tt, mkWorld (base w) cs gs)
  | Thrown e => (Thrown e, w)
  end.

Module StudyGroupRepository.

Definition entity (kc : Z * StudyGroupColumns) : StudyGroup :=
  mkStudyGroup kc.1 kc.2.

Definition findAll (w : World) : list StudyGroup :=
  entity <$> map_to_list (studyGroups w).

Definition findById (k : Long) (w : World) : option StudyGroup :=
  mkStudyGroup k <$> studyGroups w !! k.

(** The groups whose rows refer to the course [k]. *)
Definition findByCourse (k : Long) (w : World) : list StudyGroup :=
  filter (fun g => getGroupCourse g = Some k) (findAll w).

Definition delete (P : Persistence) (g : StudyGroup) : WTx unit :=
  wdelete (deleteGroupRows P g).

End StudyGroupRepository.

Module CourseRepository.

Definition findById (k : Long) (w : World) : option Course :=
  (fun row => mkCourse k row (StudyGroupRepository.findByCourse k w))
    <$> courses w !! k.

Definition save (c : Course) (w : World) : World :=
  mkWorld (base w) (<[getCourseId c := courseColumns c]> (courses w)) (studyGroups w).

Definition delete (P : Persistence) (c : Course) : WTx unit :=
  wdelete (deleteCourseRows P c).

End CourseRepository.

(** The course and group methods of the later revision that carry no
    text columns into the audit metadata. *)
Module AdminServiceCourses.

Definition logAction (actionType targetType : string) (targetId : Long)
    (reason : string) (metadata : option (gmap string MetaValue)) : WTx unit :=
  liftTx (AdminService.logAction actionType targetType targetId reason metadata).

(** [courseRepository.save(course)], which returns the saved entity. *)
Definition saveCourse (course : Course) : WTx Course :=
  _ ← wupdate (CourseRepository.save course);
  mret course.

(** Archive a course. *)
Definition archiveCourse (courseId : Long) (reason : string) : WTx Course :=
  WTransactional (
    found ← wquery (CourseRepository.findById courseId);
    course ← worElseThrow (RuntimeException "Course not found") found;
    if match getIsArchived course with
       | Some b => b
       | None => false
       end
    then wthrow (IllegalArgumentException "Course is already archived")
    else
      now ← wnow;
      let course := setIsArchived (Some true) course in
      let course := setArchivedAt (Some now) course in
      savedCourse ← saveCourse course;
      _ ← logAction "COURSE_ARCHIVE" "COURSE" courseId reason None;
      mret savedCourse).

(** Unarchive a course. *)
Definition unarchiveCourse (courseId : Long) (reason : string) : WTx Course :=
  WTransactional (
    found ← wquery (CourseRepository.findById courseId);
    course ← worElseThrow (RuntimeException "Course not found") found;
    if match getIsArchived course with
       | Some b => negb b
       | None => true
       end
    then wthrow (IllegalArgumentException "Course is not archived")
    else
      let course := setIsArchived (Some false) course in
      let course := setArchivedAt None course in
      savedCourse ← saveCourse course;
      _ ← logAction "COURSE_UNARCHIVE" "COURSE" courseId reason None;
      mret savedCourse).

(** The groups of a course whose active flag is set and true. *)
Definition activeGroups (gs : list StudyGroup) : nat :=
  length (filter (fun g => getGroupIsActive g = Some true) gs).

(** Permanently delete a course. *)
Definition deleteCourse (P : Persistence) (courseId : Long) (reason : string) :
    WTx unit :=
  WTransactional (
    found ← wquery (CourseRepository.findById courseId);
    course ← worElseThrow (RuntimeException "Course not found") found;
    if negb (bool_decide (getGroups course = []))
       && bool_decide (0 < activeGroups (getGroups course))%nat
    then wthrow (IllegalArgumentException
                   "Cannot delete course with active study groups. Archive the course instead.")
    else
      _ ← logAction "COURSE_DELETE" "COURSE" courseId reason None;
      CourseRepository.delete P course).

(** Delete a study group. *)
Definition deleteGroup (P : Persistence) (groupId : Long) (reason : string) :
    WTx unit :=
  WTransactional (
    found ← wquery (StudyGroupRepository.findById groupId);
    group ← worElseThrow (RuntimeException "Group not found") found;
    _ ← logAction "GROUP_DELETE" "GROUP" groupId reason None;
    StudyGroupRepository.delete P group).

End AdminServiceCourses.

(** Errors of the course and group methods. *)
Definition CourseNotFound : Exception := RuntimeException "Course not found".

Definition GroupNotFound : Exception := RuntimeException "Group not found".

Definition AlreadyArchived : Exception :=
  IllegalArgumentException "Course is already archived".

Definition NotArchived : Exception :=
  IllegalArgumentException "Course is not archived".

Definition HasActiveGroups : Exception :=
  IllegalArgumentException
    "Cannot delete course with active study groups. Archive the course instead.".

(** The audit entry of a course or group method, given the caller. *)
Definition auditEntryFor (admin : User) (action targetType : string) (target : Long)
    (why : string) : AdminAuditLog :=
  mkAuditLog (getId admin) action targetType target why None.

(** A computation on the whole state that, when it returns, has appended
    exactly the entry of the given action on the given target, and that
    in no case touches the user table. *)
Definition logsOnWorld {A : Type} (action targetType : string) (target : Long)
    (why : string) (m : WTx A) : Prop :=
  forall env w,
    users (base (m env w).2) = users (base w)
    /\ match m env w with
       | (Ok _, w') =>
           exists a, UserRepository.findByUsername (authName env) (base w) = Some a
                     /\ auditLogs (base w')
                        = (auditLogs (base w)
                           ++ [auditEntryFor a action targetType target why])%list
       | (Thrown _, w') => w' = w
       end.

(** Sample courses: course 10 with an active group, and course 20, whose
    groups are inactive or unflagged and whose archive flag is null. *)
Definition sampleWorld : World :=
  mkWorld soleAdminStore
    (<[20 := mkCourseColumns None None]>
    (<[10 := mkCourseColumns (Some false) None]> ∅))
    (<[201 := mkStudyGroupColumns (Some 20) None]>
    (<[200 := mkStudyGroupColumns (Some 20) (Some false)]>
    (<[100 := mkStudyGroupColumns (Some 10) (Some true)]> ∅))).

(** Course 20 as [CourseRepository.findById] loads it. *)
Definition sampleCourse : Course :=
  mkCourse 20 (mkCourseColumns None None)
    [mkStudyGroup 201 (mkStudyGroupColumns (Some 20) None);
     mkStudyGroup 200 (mkStudyGroupColumns (Some 20) (Some false))].

(** A sample persistence layer: a delete removes the row and, for a
    course, the rows of the groups that refer to it. *)
Definition cascadingDelete : Persistence :=
  mkPersistence
    (fun c t =>
       Ok (delete (getCourseId c) t.1,
           filter (fun kc => col_groupCourse kc.2 <> Some (getCourseId c)) t.2))
    (fun g t => Ok (t.1, delete (getGroupId g) t.2)).
(** ** The controller *)

(** What an endpoint answers: 200 with a message, 400 with the message of
    the exception, or 404 with no body.  The 200 answer of the suspend
    endpoint renders the date of the suspension's end into its message;
    the rendering is not modelled and the answer keeps the instant. *)
Inductive ResponseEntity : Set :=
  | ok (message : string)
  | okSuspendedUntil (suspendedUntil : LocalDateTime)
  | badRequest (message : string)
  | notFound.

Definition is200 (r : ResponseEntity) : bool :=
  match r with
  | ok _ | okSuspendedUntil _ => true
  | _ => false
  end.

(** An endpoint: it reads the session and answers, writing the stores
    through the service. *)
Definition Endpoint : Type := Env -> Store -> ResponseEntity * Store.

(** [try { ... return ok } catch (IllegalArgumentException e) { return
    badRequest(e.getMessage()) } catch (RuntimeException e) { return
    notFound }]. *)
Definition tryCatch {A : Type} (m : Tx A) (answer : ResponseEntity) : Endpoint :=
  fun env s =>
    match m env s with
    | (Ok _, s') => (answer, s')
    | (Thrown (IllegalArgumentException message), s') => (badRequest message, s')
    | (Thrown (RuntimeException _), s') => (notFound, s')
    end.

(** [try { ... return ok } catch (RuntimeException e) { return notFound }]:
    an [IllegalArgumentException] is a [RuntimeException]. *)
Definition tryCatchRuntime {A : Type} (m : Tx A) (answer : ResponseEntity) : Endpoint :=
  fun env s =>
    match m env s with
    | (Ok _, s') => (answer, s')
    | (Thrown _, s') => (notFound, s')
    end.

Module AdminController.

Section Calendar.

(** [LocalDateTime.plusYears] moves the date by calendar years; it is
    taken as given. *)
Variable plusYears : LocalDateTime -> Z -> LocalDateTime.

(** [POST /users/{id}/suspend]; [days] is a nullable [Integer]. *)
Definition suspendUser (id : Long) (days : option Z) (reason : string) : Endpoint :=
  fun env s =>
    let suspendedUntil :=
      match days with
      | None => plusYears (clockNow env) 100
      | Some d =>
          if bool_decide (d <= 0) then plusYears (clockNow env) 100
          else plusDays (clockNow env) d
      end in
    tryCatch (AdminService.suspendUser id suspendedUntil reason)
      (okSuspendedUntil suspendedUntil) env s.

End Calendar.

(** [PUT /users/{id}/status]. *)
Definition updateUserStatus (id : Long) (active : bool) (reason : string) : Endpoint :=
  if active
  then tryCatch (AdminService.enableLogin id reason) (ok "User status updated to active")
  else tryCatch (AdminService.disableLogin id reason)
         (ok "User status updated to inactive").

(** [POST /users/{id}/ban]. *)
Definition banUser (id : Long) (reason : string) : Endpoint :=
  tryCatch (AdminService.banUser id reason) (ok "User banned successfully").

(** [POST /users/{id}/unsuspend]. *)
Definition unsuspendUser (id : Long) (reason : string) : Endpoint :=
  tryCatch (AdminService.unsuspendUser id reason)
    (ok "User suspension removed successfully").

(** [POST /users/{id}/unban]. *)
Definition unbanUser (id : Long) (reason : string) : Endpoint :=
  tryCatchRuntime (AdminService.unbanUser id reason) (ok "User unbanned successfully").

(** [POST /users/{id}/soft-delete]. *)
Definition softDeleteUser (id : Long) (reason : string) : Endpoint :=
  tryCatch (AdminService.softDeleteUser id reason) (ok "User soft deleted successfully").

(** [POST /users/{id}/restore]. *)
Definition restoreUser (id : Long) (reason : string) : Endpoint :=
  tryCatch (AdminService.restoreUser id reason) (ok "User restored successfully").

(** [DELETE /users/{id}]. *)
Definition permanentDeleteUser (id : Long) (reason : string) : Endpoint :=
  tryCatch (AdminService.permanentDeleteUser id reason)
    (ok "User permanently deleted successfully").

End AdminController.

(** The requests of the moderation endpoints that carry no role text. *)
Inductive Request : Set :=
  | PutStatus (id : Long) (active : bool) (reason : string)
  | PostSuspend (id : Long) (days : option Z) (reason : string)
  | PostBan (id : Long) (reason : string)
  | PostUnsuspend (id : Long) (reason : string)
  | PostUnban (id : Long) (reason : string)
  | PostSoftDelete (id : Long) (reason : string)
  | PostRestore (id : Long) (reason : string)
  | DeleteUser (id : Long) (reason : string).

Definition pathId (req : Request) : Long :=
  match req with
  | PutStatus k _ _ | PostSuspend k _ _ | PostBan k _ | PostUnsuspend k _
  | PostUnban k _ | PostSoftDelete k _ | PostRestore k _ | DeleteUser k _ => k
  end.

(** The request mapping of the controller. *)
Definition dispatch (plusYears : LocalDateTime -> Z -> LocalDateTime)
    (req : Request) : Endpoint :=
  match req with
  | PutStatus k active r => AdminController.updateUserStatus k active r
  | PostSuspend k days r => AdminController.suspendUser plusYears k days r
  | PostBan k r => AdminController.banUser k r
  | PostUnsuspend k r => AdminController.unsuspendUser k r
  | PostUnban k r => AdminController.unbanUser k r
  | PostSoftDelete k r => AdminController.softDeleteUser k r
  | PostRestore k r => AdminController.restoreUser k r
  | DeleteUser k r => AdminController.permanentDeleteUser k r
  end.

(** The service operation that a request runs. *)
Definition operationOf (plusYears : LocalDateTime -> Z -> LocalDateTime)
    (now : LocalDateTime) (req : Request) : Operation :=
  match req with
  | PutStatus k true r => EnableLogin k r
  | PutStatus k false r => DisableLogin k r
  | PostSuspend k days r =>
      SuspendUser k
        (match days with
         | None => plusYears now 100
         | Some d => if bool_decide (d <= 0) then plusYears now 100 else plusDays now d
         end) r
  | PostBan k r => BanUser k r
  | PostUnsuspend k r => UnsuspendUser k r
  | PostUnban k r => UnbanUser k r
  | PostSoftDelete k r => SoftDeleteUser k r
  | PostRestore k r => RestoreUser k r
  | DeleteUser k r => PermanentDeleteUser k r
  end.

(** A calendar for the samples: a year as 365 days and a quarter. *)
Definition samplePlusYears (t : LocalDateTime) (years : Z) : LocalDateTime :=
  t + years * 31557600.


(** The unban endpoint has no handler of its own for
    [IllegalArgumentException]. *)
Definition catchesOnlyRuntime (req : Request) : bool :=
  match req with
  | PostUnban _ _ => true
  | _ => false
  end.

(** ** The repository *)

Section Repository.

Implicit Types (s : Store) (u a : User) (k : Z) (name : string).

Lemma entity_eta u : mkUser (getId u) (columns u) = u.
Proof. by destruct u. Qed.

Lemma findById_Some k s u :
  UserRepository.findById k s = Some u <->
  getId u = k /\ users s !! k = Some (columns u).
Proof.
  unfold UserRepository.findById. destruct u as [i c]; simpl.
  destruct (users s !! k) as [c'|]; simpl; split.
  - intros [= <- <-]. done.
  - intros [-> [= ->]]. done.
  - done.
  - intros [_ [=]].
Qed.

Lemma findById_getId k s u : UserRepository.findById k s = Some u -> getId u = k.
Proof. intros H. by apply findById_Some in H as [? _]. Qed.

Lemma findById_save k u s :
  UserRepository.findById k (UserRepository.save u s) =
  if decide (getId u = k) then Some u else UserRepository.findById k s.
Proof.
  unfold UserRepository.findById, UserRepository.save; simpl.
  case_decide as E.
  - subst k. rewrite lookup_insert_eq. simpl. by rewrite entity_eta.
  - by rewrite lookup_insert_ne.
Qed.

Lemma findById_save_eq u s :
  UserRepository.findById (getId u) (UserRepository.save u s) = Some u.
Proof. rewrite findById_save. by rewrite decide_True. Qed.

Lemma findById_delete k u s :
  UserRepository.findById k (UserRepository.delete u s) =
  if decide (getId u = k) then None else UserRepository.findById k s.
Proof.
  unfold UserRepository.findById, UserRepository.delete; simpl.
  case_decide as E.
  - subst k. by rewrite lookup_delete_eq.
  - by rewrite lookup_delete_ne.
Qed.

Lemma findById_audit k s log :
  UserRepository.findById k (AdminAuditLogRepository.save log s) =
  UserRepository.findById k s.
Proof. done. Qed.

Lemma elem_of_findAll u s :
  u ∈ UserRepository.findAll s <-> users s !! getId u = Some (columns u).
Proof.
  unfold UserRepository.findAll. rewrite list_elem_of_fmap. split.
  - intros [[k c] [-> H]]. by apply elem_of_map_to_list in H.
  - intros H. exists (getId u, columns u). split.
    + by destruct u.
    + by apply elem_of_map_to_list.
Qed.

Lemma findByUsername_Some name s a :
  UserRepository.findByUsername name s = Some a ->
  users s !! getId a = Some (columns a) /\ getUsername a = name.
Proof.
  unfold UserRepository.findByUsername. intros H.
  apply head_Some_elem_of, list_elem_of_filter in H as [Hn Hin].
  by apply elem_of_findAll in Hin.
Qed.

Lemma findByUsername_is_Some name s a :
  users s !! getId a = Some (columns a) -> getUsername a = name ->
  is_Some (UserRepository.findByUsername name s).
Proof.
  intros Hin Hn. unfold UserRepository.findByUsername.
  apply head_is_Some. intros E.
  assert (a ∈ filter (fun u => getUsername u = name) (UserRepository.findAll s)) as Ha.
  { apply list_elem_of_filter. split; [done|]. by apply elem_of_findAll. }
  rewrite E in Ha. by apply not_elem_of_nil in Ha.
Qed.

(** Saving a user under the name it was loaded with keeps every caller
    that could be found by name findable. *)
Lemma findByUsername_save name s a u u' :
  UserRepository.findByUsername name s = Some a ->
  UserRepository.findById (getId u') s = Some u ->
  getUsername u' = getUsername u ->
  is_Some (UserRepository.findByUsername name (UserRepository.save u' s)).
Proof.
  intros Ha Hu Hn. apply findByUsername_Some in Ha as [Hin Hname].
  apply findById_Some in Hu as [Hid Hcols].
  destruct (decide (getId a = getId u')) as [E|E].
  - apply (findByUsername_is_Some _ _ u').
    + simpl. by rewrite lookup_insert_eq.
    + rewrite Hn, <- Hname. unfold getUsername.
      rewrite E, Hcols in Hin. by injection Hin as ->.
  - apply (findByUsername_is_Some _ _ a); [|done].
    simpl. by rewrite lookup_insert_ne.
Qed.

End Repository.

(** ** The private helpers of the service *)

Section Helpers.

Implicit Types (s : Store) (u a : User) (k : Z) (env : Env).

Lemma getCurrentAdmin_eq env s :
  AdminService.getCurrentAdmin env s =
  match UserRepository.findByUsername (authName env) s with
  | Some a => (Ok a, s)
  | None => (Thrown (RuntimeException "Admin user not found"), s)
  end.
Proof.
  unfold AdminService.getCurrentAdmin. tx_unfold.
  by destruct (UserRepository.findByUsername _ _).
Qed.

Lemma checkSelfModification_eq env s k action :
  AdminService.checkSelfModification k action env s =
  match UserRepository.findByUsername (authName env) s with
  | Some a =>
      if bool_decide (getId a = k)
      then (Thrown (SelfModification action), s) else (Ok tt, s)
  | None => (Thrown (RuntimeException "Admin user not found"), s)
  end.
Proof.
  unfold AdminService.checkSelfModification. tx_unfold.
  rewrite getCurrentAdmin_eq.
  destruct (UserRepository.findByUsername _ _); [|done]. by case_bool_decide.
Qed.

Lemma checkLastAdmin_eq env s k :
  AdminService.checkLastAdmin k env s =
  match UserRepository.findById k s with
  | Some u =>
      if bool_decide (getRole u = ADMIN)
         && bool_decide (AdminService.adminCount (UserRepository.findAll s) <= 1)%nat
      then (Thrown LastAdmin, s) else (Ok tt, s)
  | None => (Thrown NotFound, s)
  end.
Proof.
  unfold AdminService.checkLastAdmin. tx_unfold.
  destruct (UserRepository.findById k s); [|done].
  case_bool_decide; [|done]. by case_bool_decide.
Qed.

Lemma logAction_eq env s action k why md :
  AdminService.logAction action "USER" k why md env s =
  match UserRepository.findByUsername (authName env) s with
  | Some a => (Ok tt, AdminAuditLogRepository.save (auditEntry a action k why md) s)
  | None => (Thrown (RuntimeException "Admin user not found"), s)
  end.
Proof.
  unfold AdminService.logAction. tx_unfold. rewrite getCurrentAdmin_eq.
  by destruct (UserRepository.findByUsername _ _).
Qed.

Lemma saveUser_eq env s u :
  AdminService.saveUser u env s = (Ok u, UserRepository.save u s).
Proof. done. Qed.

(** A caller that is stored is stored under its own key. *)
Lemma findByUsername_findById name s a :
  UserRepository.findByUsername name s = Some a ->
  UserRepository.findById (getId a) s = Some a.
Proof.
  intros H. apply findByUsername_Some in H as [H _].
  by apply findById_Some.
Qed.

(** What a method does after its checks: save the changed entity, log,
    and return it.  It succeeds for a caller that exists when the entity
    keeps the key and the name it was loaded with. *)
Lemma save_then_log env s a u u' k action why md :
  UserRepository.findByUsername (authName env) s = Some a ->
  UserRepository.findById k s = Some u ->
  getId u' = getId u ->
  getUsername u' = getUsername u ->
  exists s',
    (AdminService.saveUser u' ≫= fun savedUser =>
     AdminService.logAction action "USER" k why md ≫= fun _ =>
     mret savedUser) env s = (Ok u', s')
    /\ UserRepository.findById k s' = Some u'.
Proof.
  intros Ha Hu Hid Hn.
  pose proof (findById_getId _ _ _ Hu) as Hk. rewrite <- Hid in Hk.
  rewrite <- Hk in Hu.
  destruct (findByUsername_save _ _ _ _ _ Ha Hu Hn) as [a' Ha'].
  eexists. split.
  - tx_unfold. rewrite saveUser_eq, logAction_eq, Ha'. done.
  - rewrite findById_audit, <- Hk. apply findById_save_eq.
Qed.

End Helpers.

Create Rewrite HintDb tx.

#[global] Hint Rewrite getCurrentAdmin_eq checkSelfModification_eq
  checkLastAdmin_eq logAction_eq saveUser_eq : tx.

(** ** Transactions *)

Section Transactions.

Implicit Types (s : Store) (u a : User) (k : Z) (env : Env).

Lemma Transactional_ok {A : Type} (body : Tx A) env s x s' :
  body env s = (Ok x, s') -> Transactional body env s = (Ok x, s').
Proof. unfold Transactional. by intros ->. Qed.

Lemma Transactional_thrown {A : Type} (body : Tx A) env s e s' :
  body env s = (Thrown e, s') -> Transactional body env s = (Thrown e, s).
Proof. unfold Transactional. by intros ->. Qed.

Lemma Transactional_inv_ok {A : Type} (body : Tx A) env s x s' :
  Transactional body env s = (Ok x, s') -> body env s = (Ok x, s').
Proof.
  unfold Transactional. destruct (body env s) as [[y|e] s'']; by intros [= <- <-].
Qed.

(** A call that throws leaves both tables as they were. *)
Lemma Transactional_rollback {A : Type} (body : Tx A) env s e s' :
  Transactional body env s = (Thrown e, s') -> s' = s.
Proof.
  unfold Transactional. destruct (body env s) as [[y|e'] s'']; by intros [= <- <-].
Qed.

End Transactions.

(** ** What a successful call tells about the store it leaves *)

Section Inversion.

Implicit Types (s : Store) (u a : User) (k : Z) (env : Env).

Lemma suspendUser_inv env s k t why u1 s1 :
  AdminService.suspendUser k t why env s = (Ok u1, s1) ->
  exists u, UserRepository.findById k s = Some u
    /\ u1 = setSuspensionReason (Some why) (setSuspendedUntil (Some t) u)
    /\ UserRepository.findById k s1 = Some u1.
Proof.
  intros H. apply Transactional_inv_ok in H. revert H. tx_unfold.
  repeat (autorewrite with tx; case_match; try done). intros. simplify_eq.
  eexists. split; [done|]. split; [done|].
  rewrite findById_audit, findById_save. apply decide_True.
  simpl. by eapply findById_getId.
Qed.

Lemma banUser_inv env s k why u1 s1 :
  AdminService.banUser k why env s = (Ok u1, s1) ->
  exists u, UserRepository.findById k s = Some u
    /\ u1 = setIsActive false
              (setBanReason (Some why) (setBannedAt (Some (clockNow env)) u))
    /\ UserRepository.findById k s1 = Some u1.
Proof.
  intros H. apply Transactional_inv_ok in H. revert H. tx_unfold.
  repeat (autorewrite with tx; case_match; try done). intros. simplify_eq.
  eexists. split; [done|]. split; [done|].
  rewrite findById_audit, findById_save. apply decide_True.
  simpl. by eapply findById_getId.
Qed.

Lemma softDeleteUser_inv env s k why u1 s1 :
  AdminService.softDeleteUser k why env s = (Ok u1, s1) ->
  exists u, UserRepository.findById k s = Some u
    /\ u1 = setIsActive false
              (setDeletedAt (Some (clockNow env)) (setIsDeleted true u))
    /\ UserRepository.findById k s1 = Some u1.
Proof.
  intros H. apply Transactional_inv_ok in H. revert H. tx_unfold.
  repeat (autorewrite with tx; case_match; try done). intros. simplify_eq.
  eexists. split; [done|]. split; [done|].
  rewrite findById_audit, findById_save. apply decide_True.
  simpl. by eapply findById_getId.
Qed.

Lemma disableLogin_inv env s k why u1 s1 :
  AdminService.disableLogin k why env s = (Ok u1, s1) ->
  exists u, UserRepository.findById k s = Some u
    /\ u1 = setIsActive false u
    /\ UserRepository.findById k s1 = Some u1.
Proof.
  intros H. apply Transactional_inv_ok in H. revert H. tx_unfold.
  repeat (autorewrite with tx; case_match; try done). intros. simplify_eq.
  eexists. split; [done|]. split; [done|].
  rewrite findById_audit, findById_save. apply decide_True.
  simpl. by eapply findById_getId.
Qed.

End Inversion.

(** ** Guards against self-lockout and against losing the last admin *)

Section Guards.

Implicit Types (s : Store) (u a : User) (k : Z) (env : Env).

(** C2.  For an existing user other than the acting admin, [suspendUser]
    returns and stores the user with [suspendedUntil] and
    [suspensionReason] set to the given values; every other column, and
    [isActive] in particular, is what it was. *)
Theorem suspendUser_frame env s k t why a u :
  UserRepository.findByUsername (authName env) s = Some a ->
  getId a <> k ->
  UserRepository.findById k s = Some u ->
  exists u' s',
    AdminService.suspendUser k t why env s = (Ok u', s')
    /\ UserRepository.findById k s' = Some u'
    /\ getSuspendedUntil u' = Some t
    /\ getSuspensionReason u' = Some why
    /\ getIsActive u' = getIsActive u
    /\ getId u' = getId u
    /\ getUsername u' = getUsername u
    /\ getEmail u' = getEmail u
    /\ getRole u' = getRole u
    /\ getBannedAt u' = getBannedAt u
    /\ getBanReason u' = getBanReason u
    /\ getIsDeleted u' = getIsDeleted u
    /\ getDeletedAt u' = getDeletedAt u.
Proof.
  intros Ha Hne Hu.
  set (u' := setSuspensionReason (Some why) (setSuspendedUntil (Some t) u)).
  destruct (save_then_log env s a u u' k "SUSPEND" why
     (Some (<["suspendedUntil" := MetaInstant t]> ∅)) Ha Hu) as [s' [E F]];
    [done..|].
  exists u', s'. split; [|by repeat split].
  apply Transactional_ok. rewrite <- E. tx_unfold.
  rewrite checkSelfModification_eq, Ha, bool_decide_false, Hu by done.
  done.
Qed.

Lemma suspendUser_frame_witness :
  UserRepository.findByUsername (authName sampleEnv) soleAdminStore = Some root
  /\ getId root <> 42
  /\ UserRepository.findById 42 soleAdminStore = Some dana
  /\ exists u' s',
       AdminService.suspendUser 42 (plusDays sampleNow 7) "spam" sampleEnv soleAdminStore
         = (Ok u', s')
       /\ UserRepository.findById 42 s' = Some u'
       /\ getSuspendedUntil u' = Some (plusDays sampleNow 7)
       /\ getSuspensionReason u' = Some "spam"
       /\ getIsActive u' = getIsActive dana.
Proof.
  assert (UserRepository.findByUsername (authName sampleEnv) soleAdminStore = Some root)
    as Ha by reflexivity.
  assert (getId root <> 42) as Hne by (simpl; lia).
  assert (UserRepository.findById 42 soleAdminStore = Some dana) as Hu by reflexivity.
  split; [exact Ha|]. split; [exact Hne|]. split; [exact Hu|].
  destruct (suspendUser_frame sampleEnv soleAdminStore 42 (plusDays sampleNow 7)
              "spam" root dana Ha Hne Hu)
    as (u' & s' & E & F & G1 & G2 & G3 & _).
  exists u', s'. repeat split; assumption.
Defined.

(** C6.  An admin who targets their own account is refused: suspend, ban,
    soft delete, permanent delete and disable-login throw the
    self-modification error, and a role change that would take away the
    caller's own ADMIN role throws the self-demotion error.  The store that
    each call leaves is the store it was given, so the caller's record is
    unchanged. *)
Theorem self_modification_rejected env s a :
  UserRepository.findByUsername (authName env) s = Some a ->
  (forall t why, AdminService.suspendUser (getId a) t why env s
                   = (Thrown (SelfModification "suspend"), s))
  /\ (forall why, AdminService.banUser (getId a) why env s
                    = (Thrown (SelfModification "ban"), s))
  /\ (forall why, AdminService.softDeleteUser (getId a) why env s
                    = (Thrown (SelfModification "delete"), s))
  /\ (forall why, AdminService.permanentDeleteUser (getId a) why env s
                    = (Thrown (SelfModification "permanently delete"), s))
  /\ (forall why, AdminService.disableLogin (getId a) why env s
                    = (Thrown (SelfModification "disable login for"), s))
  /\ (forall newRole why,
        getRole a = ADMIN -> newRole <> ADMIN ->
        AdminService.updateUserRole (getId a) newRole why env s
          = (Thrown SelfDemotion, s))
  /\ UserRepository.findById (getId a) s = Some a.
Proof.
  intros Ha. pose proof (findByUsername_findById _ _ _ Ha) as Hself.
  repeat split; intros; try exact Hself;
    eapply Transactional_thrown; tx_unfold;
    rewrite ?checkSelfModification_eq, ?Hself, ?getCurrentAdmin_eq, ?Ha,
      ?bool_decide_true by done; reflexivity.
Qed.

Lemma self_modification_rejected_witness :
  UserRepository.findByUsername (authName sampleEnv) soleAdminStore = Some root
  /\ AdminService.banUser 1 "oops" sampleEnv soleAdminStore
       = (Thrown (SelfModification "ban"), soleAdminStore)
  /\ AdminService.disableLogin 1 "oops" sampleEnv soleAdminStore
       = (Thrown (SelfModification "disable login for"), soleAdminStore)
  /\ AdminService.updateUserRole 1 USER "demote" sampleEnv soleAdminStore
       = (Thrown SelfDemotion, soleAdminStore)
  /\ UserRepository.findById 1 soleAdminStore = Some root.
Proof.
  assert (UserRepository.findByUsername (authName sampleEnv) soleAdminStore = Some root)
    as Ha by reflexivity.
  destruct (self_modification_rejected sampleEnv soleAdminStore root Ha)
    as (_ & Hban & _ & _ & Hdis & Hrole & Hsame).
  split; [exact Ha|]. split; [exact (Hban "oops")|]. split; [exact (Hdis "oops")|].
  split; [|exact Hsame].
  apply (Hrole USER "demote"); [reflexivity | discriminate].
Defined.




End Guards.

(** ** Lifting restrictions *)

Section Lifting.

Implicit Types (s : Store) (u a : User) (k : Z) (env : Env).

Lemma unsuspendUser_run env s k why a u :
  UserRepository.findByUsername (authName env) s = Some a ->
  UserRepository.findById k s = Some u ->
  exists s',
    AdminService.unsuspendUser k why env s
      = (Ok (setSuspensionReason None (setSuspendedUntil None u)), s')
    /\ UserRepository.findById k s'
       = Some (setSuspensionReason None (setSuspendedUntil None u)).
Proof.
  intros Ha Hu.
  destruct (save_then_log env s a u
              (setSuspensionReason None (setSuspendedUntil None u))
              k "UNSUSPEND" why None Ha Hu) as [s' [E F]]; [done..|].
  exists s'. split; [|done].
  apply Transactional_ok. rewrite <- E. tx_unfold. by rewrite Hu.
Qed.

Lemma unbanUser_run env s k why a u :
  UserRepository.findByUsername (authName env) s = Some a ->
  UserRepository.findById k s = Some u ->
  exists s',
    AdminService.unbanUser k why env s
      = (Ok (setBanReason None (setBannedAt None u)), s')
    /\ UserRepository.findById k s' = Some (setBanReason None (setBannedAt None u)).
Proof.
  intros Ha Hu.
  destruct (save_then_log env s a u (setBanReason None (setBannedAt None u))
              k "UNBAN" why None Ha Hu) as [s' [E F]]; [done..|].
  exists s'. split; [|done].
  apply Transactional_ok. rewrite <- E. tx_unfold. by rewrite Hu.
Qed.

Lemma earlier_unsuspendUser_run env s k why a u :
  UserRepository.findByUsername (authName env) s = Some a ->
  UserRepository.findById k s = Some u ->
  exists u' s',
    EarlierAdminService.unsuspendUser k why env s = (Ok u', s')
    /\ UserRepository.findById k s' = Some u'
    /\ u' = (if isBanned u
             then setSuspensionReason None (setSuspendedUntil None u)
             else setIsActive true
                    (setSuspensionReason None (setSuspendedUntil None u))).
Proof.
  intros Ha Hu.
  set (u0 := setSuspensionReason None (setSuspendedUntil None u)).
  set (u' := if isBanned u then u0 else setIsActive true u0).
  destruct (save_then_log env s a u u' k "UNSUSPEND" why None Ha Hu)
    as [s' [E F]]; [by unfold u'; destruct (isBanned u)..|].
  exists u', s'. split; [|done].
  apply Transactional_ok. rewrite <- E. tx_unfold. rewrite Hu.
  change (isBanned (setSuspensionReason None (setSuspendedUntil None u)))
    with (isBanned u).
  unfold u', u0. by destruct (isBanned u).
Qed.

Lemma earlier_unbanUser_run env s k why a u :
  UserRepository.findByUsername (authName env) s = Some a ->
  UserRepository.findById k s = Some u ->
  exists u' s',
    EarlierAdminService.unbanUser k why env s = (Ok u', s')
    /\ UserRepository.findById k s' = Some u'
    /\ u' = (if isSuspended (clockNow env) u
             then setBanReason None (setBannedAt None u)
             else setIsActive true (setBanReason None (setBannedAt None u))).
Proof.
  intros Ha Hu.
  set (u0 := setBanReason None (setBannedAt None u)).
  set (u' := if isSuspended (clockNow env) u then u0 else setIsActive true u0).
  destruct (save_then_log env s a u u' k "UNBAN" why None Ha Hu)
    as [s' [E F]]; [by unfold u'; destruct (isSuspended _ u)..|].
  exists u', s'. split; [|done].
  apply Transactional_ok. rewrite <- E. tx_unfold. rewrite Hu.
  change (isSuspended (clockNow env) (setBanReason None (setBannedAt None u)))
    with (isSuspended (clockNow env) u).
  unfold u', u0. by destruct (isSuspended _ u).
Qed.

(** C3.  For an existing user and a caller that exists, [unbanUser]
    returns and stores the user with [bannedAt] and [banReason] null and
    [isActive] as it was.  In particular, when the store was reached by
    [banUser] and then [disableLogin] on that user, the user was banned and
    inactive before the call and is still inactive after it. *)
Theorem unbanUser_keeps_isActive env s k why a u :
  UserRepository.findByUsername (authName env) s = Some a ->
  UserRepository.findById k s = Some u ->
  exists u' s',
    AdminService.unbanUser k why env s = (Ok u', s')
    /\ UserRepository.findById k s' = Some u'
    /\ getBannedAt u' = None
    /\ getBanReason u' = None
    /\ getIsActive u' = getIsActive u
    /\ (forall env1 env2 s0 s1 why1 why2 u1 u2,
          AdminService.banUser k why1 env1 s0 = (Ok u1, s1) ->
          AdminService.disableLogin k why2 env2 s1 = (Ok u2, s) ->
          getBannedAt u = Some (clockNow env1)
          /\ getIsActive u = false
          /\ getIsActive u' = false).
Proof.
  intros Ha Hu.
  destruct (unbanUser_run env s k why a u Ha Hu) as [s' [E F]].
  eexists _, s'. split; [exact E|]. split; [exact F|].
  do 3 (split; [done|]).
  intros env1 env2 s0 s1 why1 why2 u1 u2 Hban Hdis.
  apply banUser_inv in Hban as (u0 & _ & -> & Hu1).
  apply disableLogin_inv in Hdis as (u1' & Hu1' & -> & Hu2).
  rewrite Hu1 in Hu1'. rewrite Hu in Hu2. by simplify_eq.
Qed.

Lemma unbanUser_keeps_isActive_witness :
  UserRepository.findByUsername (authName sampleEnv) bannedDisabledStore = Some root
  /\ UserRepository.findById 42 bannedDisabledStore = Some bannedDana
  /\ AdminService.banUser 42 "abuse" sampleEnv soleAdminStore
       = (Ok bannedDana, bannedStore)
  /\ AdminService.disableLogin 42 "hold" sampleEnv bannedStore
       = (Ok bannedDana, bannedDisabledStore)
  /\ exists u' s',
       AdminService.unbanUser 42 "appeal" sampleEnv bannedDisabledStore = (Ok u', s')
       /\ UserRepository.findById 42 s' = Some u'
       /\ getBannedAt u' = None
       /\ getBanReason u' = None
       /\ getIsActive u' = false.
Proof.
  assert (UserRepository.findByUsername (authName sampleEnv) bannedDisabledStore
          = Some root) as Ha by (vm_compute; reflexivity).
  assert (UserRepository.findById 42 bannedDisabledStore = Some bannedDana)
    as Hu by (vm_compute; reflexivity).
  assert (AdminService.banUser 42 "abuse" sampleEnv soleAdminStore
          = (Ok bannedDana, bannedStore)) as Hban by (vm_compute; reflexivity).
  assert (AdminService.disableLogin 42 "hold" sampleEnv bannedStore
          = (Ok bannedDana, bannedDisabledStore)) as Hdis by (vm_compute; reflexivity).
  do 4 (split; [assumption|]).
  destruct (unbanUser_keeps_isActive sampleEnv bannedDisabledStore 42 "appeal"
              root bannedDana Ha Hu)
    as (u' & s' & E & F & G1 & G2 & _ & Hround).
  destruct (Hround _ _ _ _ _ _ _ _ Hban Hdis) as (_ & _ & G3).
  exists u', s'. repeat split; assumption.
Defined.

End Lifting.

(** ** The two revisions *)

Section Revisions.

Implicit Types (s : Store) (u a : User) (k : Z) (env : Env).

(** C4.  The two revisions differ.  On a stored user who is not banned and
    whose login is disabled, [unsuspendUser] of the earlier revision returns
    and stores the user with [isActive] true and that of the later revision
    returns and stores the user with [isActive] false.  In general, for an
    existing user and a caller that exists, the earlier revision enables
    login when it lifts a suspension (unless the user is banned) or a ban
    (unless the user is still suspended), and the later revision keeps
    [isActive] as it was; in each case the user returned is the user the
    store holds afterwards. *)
Theorem revisions_disagree_on_isActive :
  (exists env s k why u u1 s1 u2 s2,
     UserRepository.findById k s = Some u
     /\ getBannedAt u = None
     /\ getIsActive u = false
     /\ EarlierAdminService.unsuspendUser k why env s = (Ok u1, s1)
     /\ UserRepository.findById k s1 = Some u1
     /\ getIsActive u1 = true
     /\ AdminService.unsuspendUser k why env s = (Ok u2, s2)
     /\ UserRepository.findById k s2 = Some u2
     /\ getIsActive u2 = false)
  /\ (forall env s k why a u,
        UserRepository.findByUsername (authName env) s = Some a ->
        UserRepository.findById k s = Some u ->
        (exists u' s',
           EarlierAdminService.unsuspendUser k why env s = (Ok u', s')
           /\ UserRepository.findById k s' = Some u'
           /\ getIsActive u' = if isBanned u then getIsActive u else true)
        /\ (exists u' s',
              EarlierAdminService.unbanUser k why env s = (Ok u', s')
              /\ UserRepository.findById k s' = Some u'
              /\ getIsActive u' =
                 if isSuspended (clockNow env) u then getIsActive u else true)
        /\ (exists u' s',
              AdminService.unsuspendUser k why env s = (Ok u', s')
              /\ UserRepository.findById k s' = Some u'
              /\ getIsActive u' = getIsActive u)
        /\ (exists u' s',
              AdminService.unbanUser k why env s = (Ok u', s')
              /\ UserRepository.findById k s' = Some u'
              /\ getIsActive u' = getIsActive u)).
Proof.
  split.
  - exists sampleEnv, moderationStore, 43, "lift", omar.
    eexists _, _, _, _.
    split; [reflexivity|]. split; [reflexivity|]. split; [reflexivity|].
    split; [vm_compute; reflexivity|].
    split; [vm_compute; reflexivity|]. split; [reflexivity|].
    split; [vm_compute; reflexivity|].
    split; [vm_compute; reflexivity|]. reflexivity.
  - intros env s k why a u Ha Hu. split; [|split; [|split]].
    + destruct (earlier_unsuspendUser_run env s k why a u Ha Hu)
        as (u' & s' & E & F & G).
      exists u', s'. split; [exact E|]. split; [exact F|].
      rewrite G. by destruct (isBanned u).
    + destruct (earlier_unbanUser_run env s k why a u Ha Hu)
        as (u' & s' & E & F & G).
      exists u', s'. split; [exact E|]. split; [exact F|].
      rewrite G. by destruct (isSuspended _ u).
    + destruct (unsuspendUser_run env s k why a u Ha Hu) as (s' & E & F).
      eexists _, s'. split; [exact E|]. by split; [exact F|].
    + destruct (unbanUser_run env s k why a u Ha Hu) as (s' & E & F).
      eexists _, s'. split; [exact E|]. by split; [exact F|].
Qed.

End Revisions.

(** ** Enabling login and restoring *)

Section Reinstating.

Implicit Types (s : Store) (u a : User) (k : Z) (env : Env).

(** C8.  For an existing user, [enableLogin] throws the still-banned error
    when [bannedAt] is set; otherwise it throws the still-suspended error
    when the user is suspended at the time of the call; otherwise, for a
    caller that exists, it returns and stores the user with [isActive]
    true and every other column as it was.  In particular, when the store
    was reached by suspending that user, not banned, for seven days, a call
    before those seven days have passed throws the still-suspended error
    and leaves the store, hence [isActive], as it was. *)
Theorem enableLogin_guards env s k why u :
  UserRepository.findById k s = Some u ->
  (getBannedAt u <> None ->
   AdminService.enableLogin k why env s = (Thrown StillBanned, s))
  /\ (getBannedAt u = None -> isSuspended (clockNow env) u = true ->
      AdminService.enableLogin k why env s = (Thrown StillSuspended, s))
  /\ (getBannedAt u = None -> isSuspended (clockNow env) u = false ->
      forall a, UserRepository.findByUsername (authName env) s = Some a ->
      exists u' s',
        AdminService.enableLogin k why env s = (Ok u', s')
        /\ UserRepository.findById k s' = Some u'
        /\ getIsActive u' = true
        /\ u' = setIsActive true u)
  /\ (forall env0 s0 why0,
        AdminService.suspendUser k (plusDays (clockNow env0) 7) why0 env0 s0
          = (Ok u, s) ->
        getBannedAt u = None ->
        clockNow env < plusDays (clockNow env0) 7 ->
        AdminService.enableLogin k why env s = (Thrown StillSuspended, s)
        /\ forall u0, UserRepository.findById k s0 = Some u0 ->
                      getIsActive u = getIsActive u0).
Proof.
  intros Hu.
  assert (forall e, getBannedAt u = None -> isSuspended (clockNow env) u = true ->
          e = StillSuspended ->
          AdminService.enableLogin k why env s = (Thrown e, s)) as Hsusp.
  { intros e Hb Hs ->. eapply Transactional_thrown. tx_unfold. rewrite Hu.
    unfold isBanned. rewrite bool_decide_false by (by intros []).
    rewrite Hs. reflexivity. }
  split; [|split; [|split]].
  - intros Hb. eapply Transactional_thrown. tx_unfold. rewrite Hu.
    unfold isBanned. rewrite bool_decide_true by done. reflexivity.
  - intros Hb Hs. by apply Hsusp.
  - intros Hb Hs a Ha.
    destruct (save_then_log env s a u (setIsActive true u) k "ENABLE_LOGIN"
                why None Ha Hu) as [s' [E F]]; [done..|].
    exists (setIsActive true u), s'. split; [|done].
    apply Transactional_ok. rewrite <- E. tx_unfold. rewrite Hu.
    unfold isBanned. rewrite bool_decide_false by (by intros []).
    by rewrite Hs.
  - intros env0 s0 why0 Hsus Hb Hlt.
    apply suspendUser_inv in Hsus as (u0 & Hu0 & -> & _). split.
    + apply Hsusp; [done| |done].
      unfold isSuspended, isAfter. simpl. by apply bool_decide_true.
    + intros u0' Hu0'. rewrite Hu0 in Hu0'. by simplify_eq.
Qed.

Lemma enableLogin_guards_witness :
  UserRepository.findById 42 suspendedStore = Some suspendedDana
  /\ AdminService.suspendUser 42 (plusDays sampleNow 7) "spam" sampleEnv soleAdminStore
       = (Ok suspendedDana, suspendedStore)
  /\ AdminService.enableLogin 42 "reinstate" sampleEnv suspendedStore
       = (Thrown StillSuspended, suspendedStore)
  /\ getIsActive suspendedDana = getIsActive dana
  /\ AdminService.enableLogin 7 "reinstate" sampleEnv bannedAdminStore
       = (Thrown StillBanned, bannedAdminStore)
  /\ exists u' s',
       AdminService.enableLogin 43 "reinstate" sampleEnv moderationStore
         = (Ok u', s')
       /\ UserRepository.findById 43 s' = Some u'
       /\ getIsActive u' = true
       /\ u' = setIsActive true omar.
Proof.
  assert (UserRepository.findById 42 suspendedStore = Some suspendedDana)
    as Hu by (vm_compute; reflexivity).
  assert (AdminService.suspendUser 42 (plusDays sampleNow 7) "spam" sampleEnv
            soleAdminStore = (Ok suspendedDana, suspendedStore))
    as Hsus by (vm_compute; reflexivity).
  split; [exact Hu|]. split; [exact Hsus|].
  destruct (enableLogin_guards sampleEnv suspendedStore 42 "reinstate"
              suspendedDana Hu) as (_ & _ & _ & Hscen).
  destruct (Hscen sampleEnv soleAdminStore "spam" Hsus) as [Hfail Hsame];
    [reflexivity | vm_compute; reflexivity |].
  split; [exact Hfail|]. split; [apply Hsame; reflexivity|].
  split.
  - assert (UserRepository.findById 7 bannedAdminStore = Some eve)
      as He by reflexivity.
    destruct (enableLogin_guards sampleEnv bannedAdminStore 7 "reinstate" eve He)
      as (Hban & _). apply Hban. discriminate.
  - assert (UserRepository.findById 43 moderationStore = Some omar)
      as Ho by reflexivity.
    destruct (enableLogin_guards sampleEnv moderationStore 43 "reinstate" omar Ho)
      as (_ & _ & Hok & _).
    apply (Hok eq_refl eq_refl root). reflexivity.
Defined.

(** C8, as stated, fails: the ban is tested before the suspension.  The
    administrator suspends the banned user 42 for seven days, which
    [suspendUser] allows; the user is then banned and suspended at once,
    and an immediate [enableLogin] throws the still-banned error, not the
    still-suspended one. *)
Lemma enableLogin_banned_and_suspended_counterexample :
  UserRepository.findById 42 bannedStore = Some bannedDana
  /\ AdminService.suspendUser 42 (plusDays sampleNow 7) "spam" sampleEnv bannedStore
       = (Ok bannedSuspendedDana, bannedSuspendedStore)
  /\ UserRepository.findById 42 bannedSuspendedStore = Some bannedSuspendedDana
  /\ getSuspendedUntil bannedSuspendedDana = Some (plusDays sampleNow 7)
  /\ isSuspended (clockNow sampleEnv) bannedSuspendedDana = true
  /\ getBannedAt bannedSuspendedDana = Some sampleNow
  /\ AdminService.enableLogin 42 "reinstate" sampleEnv bannedSuspendedStore
       = (Thrown StillBanned, bannedSuspendedStore)
  /\ StillBanned <> StillSuspended.
Proof.
  split; [vm_compute; reflexivity|].
  split; [vm_compute; reflexivity|].
  split; [vm_compute; reflexivity|].
  split; [reflexivity|].
  split; [vm_compute; reflexivity|].
  split; [reflexivity|].
  split; [vm_compute; reflexivity|].
  discriminate.
Qed.

(** C9.  For an existing user, [restoreUser] throws the invalid-state error
    when the user is not deleted.  When the user is deleted and the caller
    exists, it returns and stores the user with [isDeleted] false and
    [deletedAt] null, with [isActive] true if the user is neither banned
    nor suspended at the time of the call and [isActive] as it was
    otherwise, and with every other column as it was; a second
    [restoreUser] on the store it leaves throws the invalid-state error. *)
Theorem restoreUser_spec env s k why u :
  UserRepository.findById k s = Some u ->
  (getIsDeleted u = false ->
   AdminService.restoreUser k why env s = (Thrown InvalidState_notDeleted, s))
  /\ (getIsDeleted u = true ->
      forall a, UserRepository.findByUsername (authName env) s = Some a ->
      exists u' s',
        AdminService.restoreUser k why env s = (Ok u', s')
        /\ UserRepository.findById k s' = Some u'
        /\ getIsDeleted u' = false
        /\ getDeletedAt u' = None
        /\ getIsActive u' =
           (if negb (isBanned u) && negb (isSuspended (clockNow env) u)
            then true else getIsActive u)
        /\ getId u' = getId u
        /\ getUsername u' = getUsername u
        /\ getEmail u' = getEmail u
        /\ getRole u' = getRole u
        /\ getSuspendedUntil u' = getSuspendedUntil u
        /\ getSuspensionReason u' = getSuspensionReason u
        /\ getBannedAt u' = getBannedAt u
        /\ getBanReason u' = getBanReason u
        /\ (forall env2 why2,
              AdminService.restoreUser k why2 env2 s'
                = (Thrown InvalidState_notDeleted, s'))).
Proof.
  intros Hu.
  assert (forall env1 s1 why1 u1,
            UserRepository.findById k s1 = Some u1 -> getIsDeleted u1 = false ->
            AdminService.restoreUser k why1 env1 s1
              = (Thrown InvalidState_notDeleted, s1)) as Hnot.
  { intros env1 s1 why1 u1 Hu1 Hd. eapply Transactional_thrown. tx_unfold.
    rewrite Hu1, Hd. reflexivity. }
  split; [by apply Hnot|].
  intros Hd a Ha.
  set (u0 := setDeletedAt None (setIsDeleted false u)).
  set (u' := if negb (isBanned u) && negb (isSuspended (clockNow env) u)
             then setIsActive true u0 else u0).
  destruct (save_then_log env s a u u' k "RESTORE" why None Ha Hu)
    as [s' [E F]];
    [by unfold u'; destruct (negb _ && negb _)..|].
  exists u', s'. split.
  { apply Transactional_ok. rewrite <- E. tx_unfold. rewrite Hu, Hd. simpl.
    reflexivity. }
  split; [exact F|].
  assert (getIsDeleted u' = false) as Hd'
    by (unfold u'; by destruct (negb _ && negb _)).
  split; [exact Hd'|].
  repeat split; try (unfold u'; by destruct (negb _ && negb _)).
  intros env2 why2. by apply (Hnot _ _ _ u').
Qed.

Lemma restoreUser_spec_witness :
  UserRepository.findById 50 moderationStore = Some oldAccount
  /\ getIsDeleted oldAccount = true
  /\ UserRepository.findByUsername (authName sampleEnv) moderationStore = Some root
  /\ exists u' s',
       AdminService.restoreUser 50 "mistake" sampleEnv moderationStore = (Ok u', s')
       /\ UserRepository.findById 50 s' = Some u'
       /\ getIsDeleted u' = false
       /\ getDeletedAt u' = None
       /\ getIsActive u' = true
       /\ AdminService.restoreUser 50 "again" sampleEnv s'
            = (Thrown InvalidState_notDeleted, s').
Proof.
  assert (UserRepository.findById 50 moderationStore = Some oldAccount)
    as Hu by reflexivity.
  assert (UserRepository.findByUsername (authName sampleEnv) moderationStore
          = Some root) as Ha by reflexivity.
  split; [exact Hu|]. split; [reflexivity|]. split; [exact Ha|].
  destruct (restoreUser_spec sampleEnv moderationStore 50 "mistake" oldAccount Hu)
    as (_ & Hok).
  destruct (Hok eq_refl root Ha)
    as (u' & s' & E & F & G1 & G2 & G3 & _ & _ & _ & _ & _ & _ & _ & _ & Hagain).
  exists u', s'. repeat split; try assumption.
  apply Hagain.
Defined.

End Reinstating.

(** ** Permanent deletion *)

Section PermanentDeletion.

Implicit Types (s : Store) (u a : User) (k : Z) (env : Env).

(** The call of an admin other than the target, on a target that the
    last-admin check lets through. *)
Lemma permanentDeleteUser_run env s k why a u :
  UserRepository.findByUsername (authName env) s = Some a ->
  getId a <> k ->
  UserRepository.findById k s = Some u ->
  getRole u <> ADMIN
    \/ (1 < AdminService.adminCount (UserRepository.findAll s))%nat ->
  AdminService.permanentDeleteUser k why env s =
  if negb (getIsDeleted u) then (Thrown InvalidState_notSoftDeleted, s)
  else if match getDeletedAt u with
          | Some deletedAt => isAfter deletedAt (minusDays (clockNow env) 30)
          | None => false
          end
       then (Thrown TooSoon, s)
       else (Ok tt,
             UserRepository.delete u
               (AdminAuditLogRepository.save
                  (auditEntry a "PERMANENT_DELETE" k why None) s)).
Proof.
  intros Ha Hne Hu Hlast.
  assert (bool_decide (getRole u = ADMIN)
          && bool_decide (AdminService.adminCount (UserRepository.findAll s) <= 1)%nat
          = false) as Hguard.
  { destruct Hlast as [Hr|Hc].
    - by rewrite (bool_decide_false (getRole u = ADMIN)).
    - rewrite (bool_decide_false (_ <= 1)%nat) by lia. apply andb_false_r. }
  unfold AdminService.permanentDeleteUser, Transactional. tx_unfold.
  rewrite checkSelfModification_eq, Ha, bool_decide_false by done.
  rewrite checkLastAdmin_eq, Hu, Hguard, Hu.
  destruct (getIsDeleted u); simpl; [|done].
  destruct (match getDeletedAt u with Some _ => _ | None => _ end); [done|].
  by rewrite logAction_eq, Ha.
Qed.

Lemma deleted_is_gone k u s log :
  UserRepository.findById k s = Some u ->
  let s' := UserRepository.delete u (AdminAuditLogRepository.save log s) in
  users s' = delete k (users s) /\ UserRepository.findById k s' = None.
Proof.
  intros Hu. apply findById_getId in Hu. simpl. split.
  - by rewrite Hu.
  - rewrite findById_delete. by rewrite decide_True.
Qed.

(** C5.  For an existing user, an acting admin other than the target, and
    a target that is not the last functional admin: [permanentDeleteUser]
    throws the invalid-state error when the user is not soft-deleted;
    when the user is soft-deleted at [deletedAt], it throws the too-soon
    error and leaves the store as it was if [deletedAt] is later than 30
    days before now, and it returns, with the row removed and the user no
    longer found, if [deletedAt] is at or before 30 days before now. *)
Theorem permanentDeleteUser_grace_period env s k why a u :
  UserRepository.findByUsername (authName env) s = Some a ->
  getId a <> k ->
  UserRepository.findById k s = Some u ->
  getRole u <> ADMIN
    \/ (1 < AdminService.adminCount (UserRepository.findAll s))%nat ->
  (getIsDeleted u = false ->
   AdminService.permanentDeleteUser k why env s
     = (Thrown InvalidState_notSoftDeleted, s))
  /\ (forall deletedAt,
        getIsDeleted u = true -> getDeletedAt u = Some deletedAt ->
        minusDays (clockNow env) 30 < deletedAt ->
        AdminService.permanentDeleteUser k why env s = (Thrown TooSoon, s))
  /\ (forall deletedAt,
        getIsDeleted u = true -> getDeletedAt u = Some deletedAt ->
        deletedAt <= minusDays (clockNow env) 30 ->
        exists s',
          AdminService.permanentDeleteUser k why env s = (Ok tt, s')
          /\ users s' = delete k (users s)
          /\ UserRepository.findById k s' = None).
Proof.
  intros Ha Hne Hu Hlast.
  rewrite (permanentDeleteUser_run env s k why a u Ha Hne Hu Hlast).
  split; [|split].
  - by intros ->.
  - intros d -> -> Hlt. simpl. unfold isAfter. by rewrite bool_decide_true.
  - intros d -> -> Hle. simpl. unfold isAfter.
    rewrite bool_decide_false by lia.
    eexists. split; [reflexivity|]. by apply deleted_is_gone.
Qed.

Lemma permanentDeleteUser_grace_period_witness :
  UserRepository.findByUsername (authName sampleEnv) moderationStore = Some root
  /\ getDeletedAt recentAccount = Some (minusDays (clockNow sampleEnv) 29)
  /\ AdminService.permanentDeleteUser 51 "purge" sampleEnv moderationStore
       = (Thrown TooSoon, moderationStore)
  /\ getDeletedAt oldAccount = Some (minusDays (clockNow sampleEnv) 31)
  /\ (exists s',
        AdminService.permanentDeleteUser 50 "purge" sampleEnv moderationStore
          = (Ok tt, s')
        /\ users s' = delete 50 (users moderationStore)
        /\ UserRepository.findById 50 s' = None)
  /\ AdminService.permanentDeleteUser 42 "purge" sampleEnv moderationStore
       = (Thrown InvalidState_notSoftDeleted, moderationStore).
Proof.
  assert (UserRepository.findByUsername (authName sampleEnv) moderationStore
          = Some root) as Ha by reflexivity.
  split; [exact Ha|]. split; [reflexivity|]. split; [|split; [reflexivity|split]].
  - destruct (permanentDeleteUser_grace_period sampleEnv moderationStore 51 "purge"
                root recentAccount Ha) as (_ & Hsoon & _);
      [simpl; lia | reflexivity | left; discriminate |].
    apply (Hsoon (minusDays sampleNow 29)); [reflexivity | reflexivity |].
    vm_compute. reflexivity.
  - destruct (permanentDeleteUser_grace_period sampleEnv moderationStore 50 "purge"
                root oldAccount Ha) as (_ & _ & Hok);
      [simpl; lia | reflexivity | left; discriminate |].
    apply (Hok (minusDays sampleNow 31)); [reflexivity | reflexivity |].
    vm_compute. discriminate.
  - destruct (permanentDeleteUser_grace_period sampleEnv moderationStore 42 "purge"
                root dana Ha) as (Hnot & _);
      [simpl; lia | reflexivity | left; discriminate |].
    apply Hnot. reflexivity.
Defined.

(** C10.  For an existing user that is marked deleted with no deletion
    time, an acting admin other than the target, and a target that passes
    the last-admin check (its role is not ADMIN, or more than one
    functional admin is stored): [permanentDeleteUser] returns whatever
    the clock reads, with the row removed and the user no longer found.
    The service's own [softDeleteUser] does not produce such a user: the
    user it returns and stores has [deletedAt] set to the time of the
    call. *)
Theorem permanentDeleteUser_without_deletedAt env s k why a u :
  UserRepository.findByUsername (authName env) s = Some a ->
  getId a <> k ->
  UserRepository.findById k s = Some u ->
  getRole u <> ADMIN
    \/ (1 < AdminService.adminCount (UserRepository.findAll s))%nat ->
  getIsDeleted u = true ->
  getDeletedAt u = None ->
  (forall now,
     exists s',
       AdminService.permanentDeleteUser k why (mkEnv (authName env) now) s
         = (Ok tt, s')
       /\ users s' = delete k (users s)
       /\ UserRepository.findById k s' = None)
  /\ (forall env0 s0 k0 why0 u0 s0',
        AdminService.softDeleteUser k0 why0 env0 s0 = (Ok u0, s0') ->
        UserRepository.findById k0 s0' = Some u0
        /\ getIsDeleted u0 = true
        /\ getDeletedAt u0 = Some (clockNow env0)).
Proof.
  intros Ha Hne Hu Hlast Hd Hat. split.
  - intros now.
    rewrite (permanentDeleteUser_run (mkEnv (authName env) now) s k why a u)
      by done.
    rewrite Hd, Hat. simpl.
    eexists. split; [reflexivity|]. by apply deleted_is_gone.
  - intros env0 s0 k0 why0 u0 s0' Hsoft.
    apply softDeleteUser_inv in Hsoft as (u1 & _ & -> & Hu0). by split.
Qed.

Lemma permanentDeleteUser_without_deletedAt_witness :
  UserRepository.findByUsername (authName sampleEnv) moderationStore = Some root
  /\ UserRepository.findById 52 moderationStore = Some oddAccount
  /\ getIsDeleted oddAccount = true
  /\ getDeletedAt oddAccount = None
  /\ exists s',
       AdminService.permanentDeleteUser 52 "purge" sampleEnv moderationStore
         = (Ok tt, s')
       /\ users s' = delete 52 (users moderationStore)
       /\ UserRepository.findById 52 s' = None.
Proof.
  assert (UserRepository.findByUsername (authName sampleEnv) moderationStore
          = Some root) as Ha by reflexivity.
  split; [exact Ha|]. do 3 (split; [reflexivity|]).
  destruct (permanentDeleteUser_without_deletedAt sampleEnv moderationStore 52
              "purge" root oddAccount Ha) as (Hnow & _);
    [simpl; lia | reflexivity | left; discriminate | reflexivity | reflexivity |].
  exact (Hnow sampleNow).
Defined.

(** C10, as stated, fails: the last-admin check looks at the role of the
    target, not at whether the target is itself a functional admin.  The
    former admin 9 is soft-deleted with no deletion time, so it is not a
    functional admin, let alone the last one: the only functional admin is
    the caller, who is another account.  [permanentDeleteUser] throws the
    last-admin error and the record stays. *)
Lemma permanentDeleteUser_former_admin_counterexample :
  UserRepository.findByUsername (authName sampleEnv) formerAdminStore = Some root
  /\ getId root <> 9
  /\ UserRepository.findById 9 formerAdminStore = Some zed
  /\ getIsDeleted zed = true
  /\ getDeletedAt zed = None
  /\ filter (fun u => getRole u = ADMIN /\ getIsDeleted u <> true
                      /\ getBannedAt u = None)
        (UserRepository.findAll formerAdminStore) = [root]
  /\ AdminService.permanentDeleteUser 9 "purge" sampleEnv formerAdminStore
       = (Thrown LastAdmin, formerAdminStore)
  /\ UserRepository.findById 9
       (AdminService.permanentDeleteUser 9 "purge" sampleEnv formerAdminStore).2
     = Some zed.
Proof.
  split; [reflexivity|]. split; [simpl; lia|].
  split; [reflexivity|]. split; [reflexivity|]. split; [reflexivity|].
  split; [vm_compute; reflexivity|].
  split; vm_compute; reflexivity.
Qed.

End PermanentDeletion.

(** ** The audit trail *)

Section AuditTrail.

Implicit Types (s : Store) (u a : User) (k : Z) (env : Env).

Lemma appendsNothing_ret {A : Type} (x : A) : appendsNothing (mret x).
Proof. by intros env s. Qed.

Lemma appendsNothing_throw {A : Type} e : appendsNothing (@throw A e).
Proof. by intros env s. Qed.

Lemma appendsNothing_query {A : Type} (f : Store -> A) : appendsNothing (query f).
Proof. by intros env s. Qed.

Lemma appendsNothing_now : appendsNothing LocalDateTime_now.
Proof. by intros env s. Qed.

Lemma appendsNothing_orElseThrow {A : Type} e (o : option A) :
  appendsNothing (orElseThrow e o).
Proof. intros env s. by destruct o. Qed.

Lemma appendsNothing_delete u : appendsNothing (update (UserRepository.delete u)).
Proof. by intros env s. Qed.

Lemma appendsNothing_saveUser u : appendsNothing (AdminService.saveUser u).
Proof. by intros env s. Qed.

Lemma appendsNothing_getCurrentAdmin : appendsNothing AdminService.getCurrentAdmin.
Proof.
  intros env s. rewrite getCurrentAdmin_eq.
  by destruct (UserRepository.findByUsername _ _).
Qed.

Lemma appendsNothing_checkSelfModification k action :
  appendsNothing (AdminService.checkSelfModification k action).
Proof. intros env s. rewrite checkSelfModification_eq. by repeat case_match. Qed.

Lemma appendsNothing_checkLastAdmin k :
  appendsNothing (AdminService.checkLastAdmin k).
Proof. intros env s. rewrite checkLastAdmin_eq. by repeat case_match. Qed.

Lemma appendsNothing_bind {A B : Type} (m : Tx A) (f : A -> Tx B) :
  appendsNothing m -> (forall x, appendsNothing (f x)) -> appendsNothing (m ≫= f).
Proof.
  intros Hm Hf env s. specialize (Hm env s). tx_unfold.
  destruct (m env s) as [[x|e] s1]; simpl in *; [|done].
  by rewrite Hf.
Qed.

Lemma appendsOne_throw {A : Type} k action e : appendsOne k action (@throw A e).
Proof. by intros env s. Qed.

Lemma appendsOne_logAction k action why md :
  appendsOne k action (AdminService.logAction action "USER" k why md).
Proof.
  intros env s. rewrite logAction_eq.
  destruct (UserRepository.findByUsername _ _); [|done].
  eexists. by split.
Qed.

(** Checks and user-table writes before the entry is written. *)
Lemma appendsOne_after {A B : Type} k action (m : Tx A) (f : A -> Tx B) :
  appendsNothing m -> (forall x, appendsOne k action (f x)) ->
  appendsOne k action (m ≫= f).
Proof.
  intros Hm Hf env s. specialize (Hm env s). tx_unfold.
  destruct (m env s) as [[x|e] s1]; simpl in *; [|done].
  specialize (Hf x env s1). destruct (f x env s1) as [[y|e] s2].
  - destruct Hf as [entry [-> ?]]. exists entry. by rewrite Hm.
  - by rewrite Hf.
Qed.

(** After the entry is written the service only returns or deletes the
    user row; neither throws. *)
Lemma appendsOne_return {A B : Type} k action (m : Tx A) (y : B) :
  appendsOne k action m -> appendsOne k action (m ≫= fun _ => mret y).
Proof.
  intros Hm env s. specialize (Hm env s). tx_unfold.
  by destruct (m env s) as [[x|e] s1].
Qed.

Lemma appendsOne_delete {A : Type} k action (m : Tx A) u :
  appendsOne k action m ->
  appendsOne k action (m ≫= fun _ => update (UserRepository.delete u)).
Proof.
  intros Hm env s. specialize (Hm env s). tx_unfold.
  by destruct (m env s) as [[x|e] s1].
Qed.

Lemma appendsOne_Transactional {A : Type} k action (m : Tx A) :
  appendsOne k action m -> appendsOne k action (Transactional m).
Proof.
  intros Hm env s. specialize (Hm env s). unfold Transactional.
  by destruct (m env s) as [[x|e] s1].
Qed.

Lemma appendsOne_outcome {A : Type} k action (m : Tx A) :
  appendsOne k action m -> appendsOne k action (outcome m).
Proof.
  intros Hm env s. specialize (Hm env s). unfold outcome.
  by destruct (m env s) as [[x|e] s1].
Qed.

End AuditTrail.

Create HintDb audit.

#[global] Hint Resolve appendsNothing_ret appendsNothing_throw appendsNothing_query
  appendsNothing_now appendsNothing_orElseThrow appendsNothing_delete
  appendsNothing_saveUser appendsNothing_getCurrentAdmin
  appendsNothing_checkSelfModification appendsNothing_checkLastAdmin : audit.


(** Discharge a goal that a computation writes no audit entry. *)
Ltac audit_none :=
  repeat first
    [ solve [auto with audit]
    | match goal with
      | |- appendsNothing (if ?c then _ else _) => destruct c
      | |- appendsNothing (mbind _ _) =>
          apply appendsNothing_bind; [| intros; cbv beta zeta]
      end ].

(** Follow a method body down to the one entry it writes. *)
Ltac audit_trace :=
  cbv beta zeta;
  repeat first
    [ apply appendsOne_Transactional
    | apply appendsOne_throw
    | apply appendsOne_return; apply appendsOne_logAction
    | apply appendsOne_delete; apply appendsOne_logAction
    | match goal with
      | |- appendsOne _ _ (if ?c then _ else _) => destruct c
      end
    | apply appendsOne_after; [solve [audit_none] | intros; cbv beta zeta] ].

Section AuditOfOperations.

Implicit Types (s : Store) (u a : User) (k : Z) (env : Env).

Lemma audit_suspendUser k t why :
  appendsOne k "SUSPEND" (AdminService.suspendUser k t why).
Proof. unfold AdminService.suspendUser. audit_trace. Qed.

Lemma audit_banUser k why : appendsOne k "BAN" (AdminService.banUser k why).
Proof. unfold AdminService.banUser. audit_trace. Qed.

Lemma audit_unsuspendUser k why :
  appendsOne k "UNSUSPEND" (AdminService.unsuspendUser k why).
Proof. unfold AdminService.unsuspendUser. audit_trace. Qed.

Lemma audit_unbanUser k why : appendsOne k "UNBAN" (AdminService.unbanUser k why).
Proof. unfold AdminService.unbanUser. audit_trace. Qed.

Lemma audit_softDeleteUser k why :
  appendsOne k "SOFT_DELETE" (AdminService.softDeleteUser k why).
Proof. unfold AdminService.softDeleteUser. audit_trace. Qed.

Lemma audit_restoreUser k why :
  appendsOne k "RESTORE" (AdminService.restoreUser k why).
Proof. unfold AdminService.restoreUser. audit_trace. Qed.

Lemma audit_permanentDeleteUser k why :
  appendsOne k "PERMANENT_DELETE" (AdminService.permanentDeleteUser k why).
Proof. unfold AdminService.permanentDeleteUser. audit_trace. Qed.

Lemma audit_updateUserRole k newRole why :
  appendsOne k "ROLE_CHANGE" (AdminService.updateUserRole k newRole why).
Proof. unfold AdminService.updateUserRole. audit_trace. Qed.

Lemma audit_disableLogin k why :
  appendsOne k "DISABLE_LOGIN" (AdminService.disableLogin k why).
Proof. unfold AdminService.disableLogin. audit_trace. Qed.

Lemma audit_enableLogin k why :
  appendsOne k "ENABLE_LOGIN" (AdminService.enableLogin k why).
Proof. unfold AdminService.enableLogin. audit_trace. Qed.

(** C7.  Whatever the store and the session, a moderation operation that
    returns has appended exactly one audit entry, whose target is the
    operation's target and whose action type is the operation's, and an
    operation that throws has appended none. *)
Theorem audit_exactly_one_on_success (op : Operation) env s :
  match perform op env s with
  | (Ok _, s') =>
      exists e, auditLogs s' = (auditLogs s ++ [e])%list
                /\ targetId e = targetOf op
                /\ actionType e = actionTypeOf op
  | (Thrown _, s') => auditLogs s' = auditLogs s
  end.
Proof.
  revert env s. change (appendsOne (targetOf op) (actionTypeOf op) (perform op)).
  destruct op; simpl; try apply appendsOne_outcome.
  - apply audit_suspendUser.
  - apply audit_banUser.
  - apply audit_unsuspendUser.
  - apply audit_unbanUser.
  - apply audit_softDeleteUser.
  - apply audit_restoreUser.
  - apply audit_permanentDeleteUser.
  - apply audit_updateUserRole.
  - apply audit_disableLogin.
  - apply audit_enableLogin.
Qed.

End AuditOfOperations.

(** ** What a returning call went through *)

(** Split a method body into its paths. *)
Ltac tx_paths := repeat (autorewrite with tx; case_match; try done).

(** Turn the recorded tests of a path into propositions. *)
Ltac tx_facts :=
  repeat match goal with
    | H : bool_decide _ = false |- _ => apply bool_decide_eq_false in H
    | H : bool_decide _ = true |- _ => apply bool_decide_eq_true in H
    | H : _ && _ = false |- _ => apply andb_false_iff in H
    | H : _ && _ = true |- _ => apply andb_true_iff in H as [? ?]
    | H : negb _ = false |- _ => apply negb_false_iff in H
    | H : negb _ = true |- _ => apply negb_true_iff in H
    end.

Ltac tx_invert H :=
  apply Transactional_inv_ok in H; revert H; tx_unfold; tx_paths;
  intros; simplify_eq; tx_facts.

Section Returned.

Implicit Types (s : Store) (u a : User) (k j : Z) (env : Env).

Lemma passesLastAdmin_intro u s :
  bool_decide (getRole u = ADMIN) = false
  \/ bool_decide (AdminService.adminCount (UserRepository.findAll s) <= 1)%nat = false ->
  passesLastAdmin u s.
Proof.
  intros [H|H] Hr.
  - by apply bool_decide_eq_false in H.
  - apply bool_decide_eq_false in H. lia.
Qed.

Lemma suspendUser_returned env s k t why u1 s1 :
  AdminService.suspendUser k t why env s = (Ok u1, s1) ->
  exists a u,
    UserRepository.findByUsername (authName env) s = Some a
    /\ getId a <> k
    /\ UserRepository.findById k s = Some u
    /\ u1 = setSuspensionReason (Some why) (setSuspendedUntil (Some t) u)
    /\ savedAndLogged env s k "SUSPEND" why
         (Some (<["suspendedUntil" := MetaInstant t]> ∅)) u1 s1.
Proof.
  intros H. tx_invert H.
  eexists _, _. repeat split; eauto. by eexists.
Qed.

Lemma banUser_returned env s k why u1 s1 :
  AdminService.banUser k why env s = (Ok u1, s1) ->
  exists a u,
    UserRepository.findByUsername (authName env) s = Some a
    /\ getId a <> k
    /\ UserRepository.findById k s = Some u
    /\ passesLastAdmin u s
    /\ u1 = setIsActive false
              (setBanReason (Some why) (setBannedAt (Some (clockNow env)) u))
    /\ savedAndLogged env s k "BAN" why None u1 s1.
Proof.
  intros H. tx_invert H.
  eexists _, _. repeat split; eauto using passesLastAdmin_intro. by eexists.
Qed.

Lemma unsuspendUser_returned env s k why u1 s1 :
  AdminService.unsuspendUser k why env s = (Ok u1, s1) ->
  exists u,
    UserRepository.findById k s = Some u
    /\ u1 = setSuspensionReason None (setSuspendedUntil None u)
    /\ savedAndLogged env s k "UNSUSPEND" why None u1 s1.
Proof.
  intros H. tx_invert H. eexists. repeat split; eauto. by eexists.
Qed.

Lemma unbanUser_returned env s k why u1 s1 :
  AdminService.unbanUser k why env s = (Ok u1, s1) ->
  exists u,
    UserRepository.findById k s = Some u
    /\ u1 = setBanReason None (setBannedAt None u)
    /\ savedAndLogged env s k "UNBAN" why None u1 s1.
Proof.
  intros H. tx_invert H. eexists. repeat split; eauto. by eexists.
Qed.

Lemma softDeleteUser_returned env s k why u1 s1 :
  AdminService.softDeleteUser k why env s = (Ok u1, s1) ->
  exists a u,
    UserRepository.findByUsername (authName env) s = Some a
    /\ getId a <> k
    /\ UserRepository.findById k s = Some u
    /\ passesLastAdmin u s
    /\ u1 = setIsActive false
              (setDeletedAt (Some (clockNow env)) (setIsDeleted true u))
    /\ savedAndLogged env s k "SOFT_DELETE" why None u1 s1.
Proof.
  intros H. tx_invert H.
  eexists _, _. repeat split; eauto using passesLastAdmin_intro. by eexists.
Qed.

Lemma restoreUser_returned env s k why u1 s1 :
  AdminService.restoreUser k why env s = (Ok u1, s1) ->
  exists u,
    UserRepository.findById k s = Some u
    /\ getIsDeleted u = true
    /\ u1 = (if negb (isBanned u) && negb (isSuspended (clockNow env) u)
             then setIsActive true (setDeletedAt None (setIsDeleted false u))
             else setDeletedAt None (setIsDeleted false u))
    /\ savedAndLogged env s k "RESTORE" why None u1 s1.
Proof.
  intros H. apply Transactional_inv_ok in H. revert H. tx_unfold. tx_paths.
  all: intros; simplify_eq.
  all: match goal with
       | H : negb _ = false |- _ => apply negb_false_iff in H
       end.
  all: eexists; split; [done|]; split; [done|]; split; [|by eexists].
  all: match goal with
       | H : negb (isBanned ?x) && negb (isSuspended ?n ?x) = _
         |- context [isBanned ?y] =>
           change (negb (isBanned y) && negb (isSuspended n y))
             with (negb (isBanned x) && negb (isSuspended n x));
           by rewrite H
       end.
Qed.

Lemma permanentDeleteUser_returned env s k why s1 :
  AdminService.permanentDeleteUser k why env s = (Ok tt, s1) ->
  exists a u,
    UserRepository.findByUsername (authName env) s = Some a
    /\ getId a <> k
    /\ UserRepository.findById k s = Some u
    /\ passesLastAdmin u s
    /\ getIsDeleted u = true
    /\ (forall deletedAt, getDeletedAt u = Some deletedAt ->
                          deletedAt <= minusDays (clockNow env) 30)
    /\ s1 = UserRepository.delete u
              (AdminAuditLogRepository.save
                 (auditEntry a "PERMANENT_DELETE" k why None) s).
Proof.
  intros H. tx_invert H.
  all: eexists _, _; repeat split; eauto using passesLastAdmin_intro.
  all: intros d Hd; simplify_eq.
  match goal with
  | H : isAfter _ _ = false |- _ =>
      unfold isAfter in H; apply bool_decide_eq_false in H; lia
  end.
Qed.

Lemma updateUserRole_returned env s k newRole why u1 s1 :
  AdminService.updateUserRole k newRole why env s = (Ok u1, s1) ->
  exists a u,
    UserRepository.findByUsername (authName env) s = Some a
    /\ UserRepository.findById k s = Some u
    /\ (getRole u = ADMIN -> newRole <> ADMIN ->
        getId a <> k /\ passesLastAdmin u s)
    /\ u1 = setRole newRole u
    /\ savedAndLogged env s k "ROLE_CHANGE" why
         (Some (<["newRole" := MetaText (Role_name newRole)]>
                  (<["oldRole" := MetaText (Role_name (getRole u))]> ∅))) u1 s1.
Proof.
  intros H. apply Transactional_inv_ok in H. revert H. tx_unfold.
  destruct (UserRepository.findById k s) as [u|] eqn:Hu; [|done].
  rewrite getCurrentAdmin_eq.
  destruct (UserRepository.findByUsername (authName env) s) as [a|] eqn:Ha; [|done].
  destruct (bool_decide (getId a = k)) eqn:Hself;
    destruct (bool_decide (getRole u = ADMIN)) eqn:Hrole;
    destruct (bool_decide (newRole <> ADMIN)) eqn:Hnew; simpl; try done.
  all: rewrite ?checkLastAdmin_eq, ?Hu, ?Hrole; simpl.
  all: try (destruct (bool_decide (_ <= 1)%nat) eqn:Hcount; [done|]).
  all: rewrite ?saveUser_eq, logAction_eq.
  all: destruct (UserRepository.findByUsername _ (UserRepository.save _ _))
         as [a'|] eqn:Ha'; [|done].
  all: intros [= <- <-]; exists a, u.
  all: split; [done|]; split; [done|]; split; [|split; [done|by exists a']].
  all: tx_facts; intros Hr Hn; try done.
  split; [done|]. intros _. lia.
Qed.

Lemma disableLogin_returned env s k why u1 s1 :
  AdminService.disableLogin k why env s = (Ok u1, s1) ->
  exists a u,
    UserRepository.findByUsername (authName env) s = Some a
    /\ getId a <> k
    /\ UserRepository.findById k s = Some u
    /\ u1 = setIsActive false u
    /\ savedAndLogged env s k "DISABLE_LOGIN" why None u1 s1.
Proof.
  intros H. tx_invert H.
  eexists _, _. repeat split; eauto. by eexists.
Qed.

Lemma enableLogin_returned env s k why u1 s1 :
  AdminService.enableLogin k why env s = (Ok u1, s1) ->
  exists u,
    UserRepository.findById k s = Some u
    /\ getBannedAt u = None
    /\ isSuspended (clockNow env) u = false
    /\ u1 = setIsActive true u
    /\ savedAndLogged env s k "ENABLE_LOGIN" why None u1 s1.
Proof.
  intros H. tx_invert H.
  eexists. repeat split; eauto; [|by eexists].
  match goal with
  | H : isBanned _ = false |- _ =>
      unfold isBanned in H; apply bool_decide_eq_false in H;
      by destruct (getBannedAt _); [exfalso; apply H|]
  end.
Qed.

End Returned.

(** ** When an operation returns *)

Section Permitted.

Implicit Types (s : Store) (u a : User) (k j : Z) (env : Env).

Lemma outcome_inv_ok {A : Type} (m : Tx A) env s s' :
  outcome m env s = (Ok tt, s') -> exists x, m env s = (Ok x, s').
Proof.
  unfold outcome. destruct (m env s) as [[x|e] s1]; intros [= <-]; eauto.
Qed.

Lemma outcome_ok {A : Type} (m : Tx A) env s x s' :
  m env s = (Ok x, s') -> outcome m env s = (Ok tt, s').
Proof. unfold outcome. by intros ->. Qed.

(** Saving a user under the name it was loaded with makes no new caller
    findable. *)
Lemma findByUsername_save_None name s u u' :
  UserRepository.findByUsername name s = None ->
  UserRepository.findById (getId u') s = Some u ->
  getUsername u' = getUsername u ->
  UserRepository.findByUsername name (UserRepository.save u' s) = None.
Proof.
  intros Hnone Hu Hn.
  destruct (UserRepository.findByUsername name (UserRepository.save u' s))
    as [a'|] eqn:E; [|done].
  apply findByUsername_Some in E as [Hin Hname]. simpl in Hin.
  apply findById_Some in Hu as [_ Hu].
  assert (is_Some (UserRepository.findByUsername name s)) as [x Hx]; [|congruence].
  destruct (decide (getId u' = getId a')) as [E|E].
  - rewrite E, lookup_insert_eq in Hin. injection Hin as Hc.
    apply (findByUsername_is_Some _ _ (mkUser (getId u') (columns u))); [done|].
    rewrite <- Hname. unfold getUsername in *. simpl. by rewrite <- Hc, Hn.
  - rewrite lookup_insert_ne in Hin by done.
    by apply (findByUsername_is_Some _ _ a').
Qed.

Lemma savedAndLogged_caller env s k action why md u u' s' :
  savedAndLogged env s k action why md u' s' ->
  UserRepository.findById k s = Some u ->
  getId u' = getId u -> getUsername u' = getUsername u ->
  is_Some (UserRepository.findByUsername (authName env) s).
Proof.
  intros (a' & Ha' & _) Hu Hid Hn.
  destruct (UserRepository.findByUsername (authName env) s) eqn:E; [done|].
  pose proof (findById_getId _ _ _ Hu) as Hk. rewrite <- Hid in Hk.
  rewrite <- Hk in Hu.
  by rewrite (findByUsername_save_None _ _ u u' E Hu Hn) in Ha'.
Qed.

Lemma passesLastAdmin_guard u s :
  passesLastAdmin u s ->
  bool_decide (getRole u = ADMIN)
  && bool_decide (AdminService.adminCount (UserRepository.findAll s) <= 1)%nat
  = false.
Proof.
  intros H. destruct (decide (getRole u = ADMIN)) as [Hr|Hr].
  - rewrite (bool_decide_false (_ <= 1)%nat) by (specialize (H Hr); lia).
    apply andb_false_r.
  - by rewrite (bool_decide_false (getRole u = ADMIN)).
Qed.

Lemma not_banned_isBanned u : getBannedAt u = None -> isBanned u = false.
Proof.
  intros H. unfold isBanned. rewrite H. apply bool_decide_false.
  intros Hc. by apply Hc.
Qed.

Lemma save_then_logged env s a u u' k action why md :
  UserRepository.findByUsername (authName env) s = Some a ->
  UserRepository.findById k s = Some u ->
  getId u' = getId u ->
  getUsername u' = getUsername u ->
  exists s',
    (AdminService.saveUser u' ≫= fun savedUser =>
     AdminService.logAction action "USER" k why md ≫= fun _ =>
     mret savedUser) env s = (Ok u', s')
    /\ savedAndLogged env s k action why md u' s'.
Proof.
  intros Ha Hu Hid Hn.
  pose proof (findById_getId _ _ _ Hu) as Hk. rewrite <- Hid in Hk.
  rewrite <- Hk in Hu.
  destruct (findByUsername_save _ _ _ _ _ Ha Hu Hn) as [a' Ha'].
  eexists. split.
  - tx_unfold. rewrite saveUser_eq, logAction_eq, Ha'. done.
  - by exists a'.
Qed.

Lemma suspendUser_run env s k t why a u :
  UserRepository.findByUsername (authName env) s = Some a ->
  getId a <> k ->
  UserRepository.findById k s = Some u ->
  let u' := setSuspensionReason (Some why) (setSuspendedUntil (Some t) u) in
  exists s',
    AdminService.suspendUser k t why env s = (Ok u', s')
    /\ savedAndLogged env s k "SUSPEND" why
         (Some (<["suspendedUntil" := MetaInstant t]> ∅)) u' s'.
Proof.
  intros Ha Hne Hu u'.
  destruct (save_then_logged env s a u u' k "SUSPEND" why
              (Some (<["suspendedUntil" := MetaInstant t]> ∅)) Ha Hu)
    as [s' [E F]]; [done..|].
  exists s'. split; [|done].
  apply Transactional_ok. rewrite <- E. tx_unfold.
  by rewrite checkSelfModification_eq, Ha, bool_decide_false, Hu.
Qed.

Lemma banUser_run env s k why a u :
  UserRepository.findByUsername (authName env) s = Some a ->
  getId a <> k ->
  UserRepository.findById k s = Some u ->
  passesLastAdmin u s ->
  let u' := setIsActive false
              (setBanReason (Some why) (setBannedAt (Some (clockNow env)) u)) in
  exists s',
    AdminService.banUser k why env s = (Ok u', s')
    /\ savedAndLogged env s k "BAN" why None u' s'.
Proof.
  intros Ha Hne Hu Hlast u'.
  destruct (save_then_logged env s a u u' k "BAN" why None Ha Hu)
    as [s' [E F]]; [done..|].
  exists s'. split; [|done].
  apply Transactional_ok. rewrite <- E. tx_unfold.
  rewrite checkSelfModification_eq, Ha, bool_decide_false by done.
  by rewrite checkLastAdmin_eq, Hu, passesLastAdmin_guard, Hu.
Qed.

Lemma softDeleteUser_run env s k why a u :
  UserRepository.findByUsername (authName env) s = Some a ->
  getId a <> k ->
  UserRepository.findById k s = Some u ->
  passesLastAdmin u s ->
  let u' := setIsActive false
              (setDeletedAt (Some (clockNow env)) (setIsDeleted true u)) in
  exists s',
    AdminService.softDeleteUser k why env s = (Ok u', s')
    /\ savedAndLogged env s k "SOFT_DELETE" why None u' s'.
Proof.
  intros Ha Hne Hu Hlast u'.
  destruct (save_then_logged env s a u u' k "SOFT_DELETE" why None Ha Hu)
    as [s' [E F]]; [done..|].
  exists s'. split; [|done].
  apply Transactional_ok. rewrite <- E. tx_unfold.
  rewrite checkSelfModification_eq, Ha, bool_decide_false by done.
  by rewrite checkLastAdmin_eq, Hu, passesLastAdmin_guard, Hu.
Qed.

Lemma restoreUser_run env s k why a u :
  UserRepository.findByUsername (authName env) s = Some a ->
  UserRepository.findById k s = Some u ->
  getIsDeleted u = true ->
  let u' := if negb (isBanned u) && negb (isSuspended (clockNow env) u)
            then setIsActive true (setDeletedAt None (setIsDeleted false u))
            else setDeletedAt None (setIsDeleted false u) in
  exists s',
    AdminService.restoreUser k why env s = (Ok u', s')
    /\ savedAndLogged env s k "RESTORE" why None u' s'.
Proof.
  intros Ha Hu Hd u'.
  destruct (save_then_logged env s a u u' k "RESTORE" why None Ha Hu)
    as [s' [E F]];
    [by unfold u';
        destruct (negb (isBanned u) && negb (isSuspended (clockNow env) u))..|].
  exists s'. split; [|done].
  apply Transactional_ok. rewrite <- E. tx_unfold. rewrite Hu, Hd. simpl.
  reflexivity.
Qed.

Lemma updateUserRole_run env s k newRole why a u :
  UserRepository.findByUsername (authName env) s = Some a ->
  UserRepository.findById k s = Some u ->
  (getRole u = ADMIN -> newRole <> ADMIN -> getId a <> k /\ passesLastAdmin u s) ->
  exists s',
    AdminService.updateUserRole k newRole why env s = (Ok (setRole newRole u), s')
    /\ savedAndLogged env s k "ROLE_CHANGE" why
         (Some (<["newRole" := MetaText (Role_name newRole)]>
                  (<["oldRole" := MetaText (Role_name (getRole u))]> ∅)))
         (setRole newRole u) s'.
Proof.
  intros Ha Hu Hguard.
  destruct (save_then_logged env s a u (setRole newRole u) k "ROLE_CHANGE" why
              (Some (<["newRole" := MetaText (Role_name newRole)]>
                       (<["oldRole" := MetaText (Role_name (getRole u))]> ∅)))
              Ha Hu) as [s' [E F]]; [done..|].
  exists s'. split; [|done].
  apply Transactional_ok. rewrite <- E. tx_unfold.
  rewrite Hu, getCurrentAdmin_eq, Ha.
  destruct (bool_decide (getRole u = ADMIN)) eqn:Hr;
    destruct (bool_decide (newRole <> ADMIN)) eqn:Hn;
    rewrite ?andb_false_r, ?andb_true_r; simpl; try done.
  apply bool_decide_eq_true in Hr, Hn. destruct (Hguard Hr Hn) as [Hne Hlast].
  rewrite bool_decide_false by done.
  rewrite checkLastAdmin_eq, Hu, (bool_decide_true (getRole u = ADMIN)) by done.
  simpl. specialize (Hlast Hr).
  by rewrite bool_decide_false by lia.
Qed.

Lemma disableLogin_run env s k why a u :
  UserRepository.findByUsername (authName env) s = Some a ->
  getId a <> k ->
  UserRepository.findById k s = Some u ->
  exists s',
    AdminService.disableLogin k why env s = (Ok (setIsActive false u), s')
    /\ savedAndLogged env s k "DISABLE_LOGIN" why None (setIsActive false u) s'.
Proof.
  intros Ha Hne Hu.
  destruct (save_then_logged env s a u (setIsActive false u) k "DISABLE_LOGIN"
              why None Ha Hu) as [s' [E F]]; [done..|].
  exists s'. split; [|done].
  apply Transactional_ok. rewrite <- E. tx_unfold.
  by rewrite checkSelfModification_eq, Ha, bool_decide_false, Hu.
Qed.

Lemma enableLogin_run env s k why a u :
  UserRepository.findByUsername (authName env) s = Some a ->
  UserRepository.findById k s = Some u ->
  getBannedAt u = None ->
  isSuspended (clockNow env) u = false ->
  exists s',
    AdminService.enableLogin k why env s = (Ok (setIsActive true u), s')
    /\ savedAndLogged env s k "ENABLE_LOGIN" why None (setIsActive true u) s'.
Proof.
  intros Ha Hu Hb Hs.
  destruct (save_then_logged env s a u (setIsActive true u) k "ENABLE_LOGIN"
              why None Ha Hu) as [s' [E F]]; [done..|].
  exists s'. split; [|done].
  apply Transactional_ok. rewrite <- E. tx_unfold.
  by rewrite Hu, not_banned_isBanned, Hs.
Qed.

(** What a returning call shows of its guards. *)
Lemma perform_ok_permitted op env s s' :
  perform op env s = (Ok tt, s') -> permitted op env s.
Proof.
  intros H. destruct op; simpl in H;
    try (apply outcome_inv_ok in H as [x H]).
  - apply suspendUser_returned in H as (a & u & ? & ? & ? & _). by exists a, u.
  - apply banUser_returned in H as (a & u & ? & ? & ? & ? & _). by exists a, u.
  - apply unsuspendUser_returned in H as (u & Hu & -> & Hlog).
    destruct (savedAndLogged_caller _ _ _ _ _ _ u _ _ Hlog Hu) as [a Ha]; [done..|].
    by exists a, u.
  - apply unbanUser_returned in H as (u & Hu & -> & Hlog).
    destruct (savedAndLogged_caller _ _ _ _ _ _ u _ _ Hlog Hu) as [a Ha]; [done..|].
    by exists a, u.
  - apply softDeleteUser_returned in H as (a & u & ? & ? & ? & ? & _).
    by exists a, u.
  - apply restoreUser_returned in H as (u & Hu & Hd & -> & Hlog).
    destruct (savedAndLogged_caller _ _ _ _ _ _ u _ _ Hlog Hu) as [a Ha];
      [by destruct (negb (isBanned u) && negb (isSuspended (clockNow env) u))..|].
    by exists a, u.
  - apply permanentDeleteUser_returned in H as (a & u & ? & ? & ? & ? & ? & ? & _).
    by exists a, u.
  - apply updateUserRole_returned in H as (a & u & ? & ? & ? & _). by exists a, u.
  - apply disableLogin_returned in H as (a & u & ? & ? & ? & _). by exists a, u.
  - apply enableLogin_returned in H as (u & Hu & Hb & Hs & -> & Hlog).
    destruct (savedAndLogged_caller _ _ _ _ _ _ u _ _ Hlog Hu) as [a Ha]; [done..|].
    by exists a, u.
Qed.

(** The ten operations return exactly when their guards hold: the caller
    and the target are stored and the tests of the method pass. *)
Theorem returns_iff_permitted op env s :
  (exists s', perform op env s = (Ok tt, s')) <-> permitted op env s.
Proof.
  split.
  - intros [s' H]. by eapply perform_ok_permitted.
  - intros (a & u & Ha & Hu & Hop).
    destruct op; simpl in *.
    + destruct (suspendUser_run env s userId suspendedUntil reason0 a u)
        as (s' & E & _); [done..|]. eauto using outcome_ok.
    + destruct Hop. destruct (banUser_run env s userId reason0 a u)
        as (s' & E & _); [done..|]. eauto using outcome_ok.
    + destruct (unsuspendUser_run env s userId reason0 a u)
        as (s' & E & _); [done..|]. eauto using outcome_ok.
    + destruct (unbanUser_run env s userId reason0 a u)
        as (s' & E & _); [done..|]. eauto using outcome_ok.
    + destruct Hop. destruct (softDeleteUser_run env s userId reason0 a u)
        as (s' & E & _); [done..|]. eauto using outcome_ok.
    + destruct (restoreUser_run env s userId reason0 a u)
        as (s' & E & _); [done..|]. eauto using outcome_ok.
    + destruct Hop as (Hne & Hlast & Hd & Hat).
      rewrite (permanentDeleteUser_run env s userId reason0 a u) by
        (first [done | destruct (decide (getRole u = ADMIN)); [right; by apply Hlast|by left]]).
      rewrite Hd. simpl.
      destruct (getDeletedAt u) as [d|] eqn:Hda; [|eauto].
      unfold isAfter. rewrite bool_decide_false by (specialize (Hat d eq_refl); lia).
      eauto.
    + destruct (updateUserRole_run env s userId newRole reason0 a u)
        as (s' & E & _); [done..|]. eauto using outcome_ok.
    + destruct (disableLogin_run env s userId reason0 a u)
        as (s' & E & _); [done..|]. eauto using outcome_ok.
    + destruct Hop. destruct (enableLogin_run env s userId reason0 a u)
        as (s' & E & _); [done..|]. eauto using outcome_ok.
Qed.

End Permitted.

(** ** The effect of an operation that returns *)

Section Effects.

Implicit Types (s : Store) (u a : User) (k j : Z) (env : Env).

Lemma outcome_inv_thrown {A : Type} (m : Tx A) env s e s' :
  outcome m env s = (Thrown e, s') -> m env s = (Thrown e, s').
Proof.
  unfold outcome. by destruct (m env s) as [[x|e'] s1]; intros [= <- <-].
Qed.

Lemma perform_thrown op env s e s' :
  perform op env s = (Thrown e, s') -> s' = s.
Proof.
  intros H. destruct op; simpl in H; try apply outcome_inv_thrown in H;
    by eapply Transactional_rollback.
Qed.

Lemma savedAndLogged_effect env s k action why md u u' s' :
  savedAndLogged env s k action why md u' s' ->
  UserRepository.findById k s = Some u ->
  getId u' = getId u ->
  exists a',
    users s' = <[k := columns u']> (users s)
    /\ auditLogs s' = (auditLogs s ++ [auditEntry a' action k why md])%list
    /\ getUsername a' = authName env
    /\ UserRepository.findById (getId a') s' = Some a'.
Proof.
  intros (a' & Ha' & ->) Hu Hid. exists a'.
  apply findById_getId in Hu. rewrite <- Hid in Hu.
  split; [by rewrite <- Hu|]. split; [done|].
  apply findByUsername_Some in Ha' as [Hin Hn]. split; [done|].
  by apply findById_Some.
Qed.

Lemma perform_effect op env s s' :
  perform op env s = (Ok tt, s') ->
  exists u a',
    UserRepository.findById (targetOf op) s = Some u
    /\ users s' = usersAfter op env u (users s)
    /\ auditLogs s'
       = (auditLogs s
          ++ [auditEntry a' (actionTypeOf op) (targetOf op) (reasonOf op)
                (metadataOf op u)])%list
    /\ getUsername a' = authName env
    /\ UserRepository.findById (getId a') s' = Some a'.
Proof.
  intros H. destruct op; simpl in H;
    try (apply outcome_inv_ok in H as [x H]).
  - apply suspendUser_returned in H as (a & u & _ & _ & Hu & -> & Hlog).
    destruct (savedAndLogged_effect _ _ _ _ _ _ u _ _ Hlog Hu) as (a' & ?);
      [done|]. by exists u, a'.
  - apply banUser_returned in H as (a & u & _ & _ & Hu & _ & -> & Hlog).
    destruct (savedAndLogged_effect _ _ _ _ _ _ u _ _ Hlog Hu) as (a' & ?);
      [done|]. by exists u, a'.
  - apply unsuspendUser_returned in H as (u & Hu & -> & Hlog).
    destruct (savedAndLogged_effect _ _ _ _ _ _ u _ _ Hlog Hu) as (a' & ?);
      [done|]. by exists u, a'.
  - apply unbanUser_returned in H as (u & Hu & -> & Hlog).
    destruct (savedAndLogged_effect _ _ _ _ _ _ u _ _ Hlog Hu) as (a' & ?);
      [done|]. by exists u, a'.
  - apply softDeleteUser_returned in H as (a & u & _ & _ & Hu & _ & -> & Hlog).
    destruct (savedAndLogged_effect _ _ _ _ _ _ u _ _ Hlog Hu) as (a' & ?);
      [done|]. by exists u, a'.
  - apply restoreUser_returned in H as (u & Hu & _ & -> & Hlog).
    destruct (savedAndLogged_effect _ _ _ _ _ _ u _ _ Hlog Hu) as (a' & ?);
      [by destruct (negb (isBanned u) && negb (isSuspended (clockNow env) u))|].
    by exists u, a'.
  - apply permanentDeleteUser_returned in H
      as (a & u & Ha & Hne & Hu & _ & _ & _ & ->).
    exists u, a. split; [done|].
    pose proof (findById_getId _ _ _ Hu) as Hk.
    apply findByUsername_Some in Ha as [Hin Hn].
    unfold usersAfter. simpl. rewrite Hk. do 3 (split; [done|]).
    rewrite findById_delete, decide_False by congruence.
    by apply findById_Some.
  - apply updateUserRole_returned in H as (a & u & _ & Hu & _ & -> & Hlog).
    destruct (savedAndLogged_effect _ _ _ _ _ _ u _ _ Hlog Hu) as (a' & ?);
      [done|]. by exists u, a'.
  - apply disableLogin_returned in H as (a & u & _ & _ & Hu & -> & Hlog).
    destruct (savedAndLogged_effect _ _ _ _ _ _ u _ _ Hlog Hu) as (a' & ?);
      [done|]. by exists u, a'.
  - apply enableLogin_returned in H as (u & Hu & _ & _ & -> & Hlog).
    destruct (savedAndLogged_effect _ _ _ _ _ _ u _ _ Hlog Hu) as (a' & ?);
      [done|]. by exists u, a'.
Qed.

Lemma resultOf_identity op env u u' :
  resultOf op env u = Some u' ->
  getId u' = getId u /\ getUsername u' = getUsername u /\ getEmail u' = getEmail u.
Proof.
  destruct op; simpl; intros [= <-]; try done.
  by destruct (negb (isBanned u) && negb (isSuspended (clockNow env) u)).
Qed.

(** An operation that returns has found its target stored, has left the
    user table as [usersAfter] says, so that the target is then found as
    the record [resultOf] gives (or not found, after a permanent delete),
    and has appended the one entry for its action, target, reason and
    metadata, written in the name of a stored user who carries the
    authenticated name. *)
Theorem perform_ok_effect op env s s' :
  perform op env s = (Ok tt, s') ->
  exists u a',
    UserRepository.findById (targetOf op) s = Some u
    /\ users s' = usersAfter op env u (users s)
    /\ UserRepository.findById (targetOf op) s' = resultOf op env u
    /\ auditLogs s'
       = (auditLogs s
          ++ [auditEntry a' (actionTypeOf op) (targetOf op) (reasonOf op)
                (metadataOf op u)])%list
    /\ getUsername a' = authName env
    /\ UserRepository.findById (getId a') s' = Some a'.
Proof.
  intros H. apply perform_effect in H as (u & a' & Hu & Hus & Hlog & Hn & Ha').
  exists u, a'. do 2 (split; [done|]). split; [|done].
  unfold UserRepository.findById. rewrite Hus. unfold usersAfter.
  destruct (resultOf op env u) as [u'|] eqn:Hr.
  - rewrite lookup_insert_eq. simpl.
    apply resultOf_identity in Hr as (Hid & _).
    rewrite <- (findById_getId _ _ _ Hu), <- Hid. by rewrite entity_eta.
  - by rewrite lookup_delete_eq.
Qed.

Lemma perform_ok_effect_witness :
  exists s' a',
    perform (UpdateUserRole 42 EXPERT "tutor") sampleEnv moderationStore = (Ok tt, s')
    /\ UserRepository.findById 42 s' = Some (setRole EXPERT dana)
    /\ auditLogs s'
       = [auditEntry a' "ROLE_CHANGE" 42 "tutor"
            (Some (<["newRole" := MetaText "EXPERT"]>
                     (<["oldRole" := MetaText "USER"]> ∅)))]
    /\ getUsername a' = "root".
Proof.
  destruct (perform (UpdateUserRole 42 EXPERT "tutor") sampleEnv moderationStore)
    as [r s'] eqn:E.
  assert (r = Ok tt) as -> by (vm_compute in E; by injection E as <- _).
  destruct (perform_ok_effect _ _ _ _ E) as (u & a' & Hu & _ & Hres & Hlog & Hn & _).
  vm_compute in Hu. injection Hu as <-.
  exists s', a'. split; [reflexivity|]. split; [exact Hres|].
  split; [exact Hlog|exact Hn].
Defined.

End Effects.

(** ** Missing targets and missing callers *)

(** Expose the transaction of a public method. *)
Ltac unfold_service :=
  unfold AdminService.suspendUser, AdminService.banUser,
    AdminService.unsuspendUser, AdminService.unbanUser,
    AdminService.softDeleteUser, AdminService.restoreUser,
    AdminService.permanentDeleteUser, AdminService.updateUserRole,
    AdminService.disableLogin, AdminService.enableLogin.

Section Missing.

Implicit Types (s : Store) (u a : User) (k j : Z) (env : Env).

(** For a caller that is stored, every operation on an id that is not
    stored throws the not-found error and leaves the store as it was. *)
Theorem missing_target_not_found op env s a :
  UserRepository.findByUsername (authName env) s = Some a ->
  UserRepository.findById (targetOf op) s = None ->
  perform op env s = (Thrown NotFound, s).
Proof.
  intros Ha Hu.
  assert (getId a <> targetOf op) as Hne.
  { intros E. apply findByUsername_findById in Ha. congruence. }
  destruct op; simpl in *; unfold outcome; unfold_service;
    try (erewrite Transactional_thrown; [reflexivity|]);
    try (eapply Transactional_thrown);
    tx_unfold;
    rewrite ?checkSelfModification_eq, ?Ha, ?bool_decide_false by done;
    rewrite ?checkLastAdmin_eq, ?Hu; reflexivity.
Qed.

Lemma missing_target_not_found_witness :
  UserRepository.findByUsername (authName sampleEnv) moderationStore = Some root
  /\ UserRepository.findById 99 moderationStore = None
  /\ perform (BanUser 99 "x") sampleEnv moderationStore
     = (Thrown NotFound, moderationStore)
  /\ perform (EnableLogin 99 "x") sampleEnv moderationStore
     = (Thrown NotFound, moderationStore).
Proof.
  assert (UserRepository.findByUsername (authName sampleEnv) moderationStore
          = Some root) as Ha by reflexivity.
  assert (UserRepository.findById 99 moderationStore = None) as Hu by reflexivity.
  split; [exact Ha|]. split; [exact Hu|]. split.
  - exact (missing_target_not_found (BanUser 99 "x") _ _ _ Ha Hu).
  - exact (missing_target_not_found (EnableLogin 99 "x") _ _ _ Ha Hu).
Defined.

(** When the authenticated name is not the name of a stored user, no
    operation returns and the store is left as it was.  The methods that
    look the caller up first throw the admin-not-found error whatever the
    target; [unsuspendUser] and [unbanUser] on a stored target save it,
    fail to find the caller for the audit entry, and the save is rolled
    back. *)
Theorem missing_caller_never_returns op env s :
  UserRepository.findByUsername (authName env) s = None ->
  (exists e, perform op env s = (Thrown e, s))
  /\ (checksCallerFirst op = true ->
      perform op env s = (Thrown AdminNotFound, s))
  /\ (savesBeforeCallerLookup op = true ->
      is_Some (UserRepository.findById (targetOf op) s) ->
      perform op env s = (Thrown AdminNotFound, s)).
Proof.
  intros Ha. split; [|split].
  - destruct (perform op env s) as [[[]|e] s'] eqn:E.
    + assert (permitted op env s) as (a & _ & Ha' & _)
        by (by eapply perform_ok_permitted).
      congruence.
    + apply perform_thrown in E as E'. subst s'. eauto.
  - destruct op; simpl; try done; intros _; unfold outcome; unfold_service;
      try (erewrite Transactional_thrown; [reflexivity|]);
      try (eapply Transactional_thrown);
      tx_unfold; rewrite checkSelfModification_eq, Ha; reflexivity.
  - destruct op; simpl; try done; intros _ [u Hu]; unfold outcome; unfold_service;
      (erewrite Transactional_thrown; [reflexivity|]);
      tx_unfold; rewrite Hu, saveUser_eq, logAction_eq;
      (rewrite (findByUsername_save_None _ _ u); [reflexivity|done| |done]);
      simpl; by rewrite (findById_getId _ _ _ Hu).
Qed.

Lemma missing_caller_never_returns_witness :
  UserRepository.findByUsername "ghost" moderationStore = None
  /\ perform (UnbanUser 42 "x") (mkEnv "ghost" sampleNow) moderationStore
     = (Thrown AdminNotFound, moderationStore)
  /\ perform (SuspendUser 42 sampleNow "x") (mkEnv "ghost" sampleNow) moderationStore
     = (Thrown AdminNotFound, moderationStore).
Proof.
  assert (UserRepository.findByUsername (authName (mkEnv "ghost" sampleNow))
            moderationStore = None) as Ha by reflexivity.
  split; [exact Ha|]. split.
  - destruct (missing_caller_never_returns (UnbanUser 42 "x") _ _ Ha)
      as (_ & _ & H). apply H; [reflexivity|]. by exists dana.
  - destruct (missing_caller_never_returns (SuspendUser 42 sampleNow "x") _ _ Ha)
      as (_ & H & _). by apply H.
Defined.

End Missing.

(** ** What no operation does *)

Section Invariants.

Implicit Types (s : Store) (u a : User) (k j : Z) (env : Env).

(** Whatever an operation does, the row of every user other than its
    target is what it was. *)
Theorem other_users_untouched op env s r s' j :
  perform op env s = (r, s') ->
  j <> targetOf op ->
  UserRepository.findById j s' = UserRepository.findById j s.
Proof.
  intros H Hj. destruct r as [[]|e].
  - apply perform_effect in H as (u & a' & _ & Hus & _).
    unfold UserRepository.findById. rewrite Hus. unfold usersAfter.
    destruct (resultOf op env u).
    + by rewrite lookup_insert_ne.
    + by rewrite lookup_delete_ne.
  - by apply perform_thrown in H as ->.
Qed.

Lemma other_users_untouched_witness :
  exists s',
    perform (BanUser 42 "abuse") sampleEnv moderationStore = (Ok tt, s')
    /\ UserRepository.findById 43 s' = Some omar
    /\ UserRepository.findById 1 s' = Some root.
Proof.
  destruct (perform (BanUser 42 "abuse") sampleEnv moderationStore)
    as [r s'] eqn:E.
  assert (r = Ok tt) as -> by (vm_compute in E; by injection E as <- _).
  exists s'. split; [reflexivity|]. split.
  - rewrite (other_users_untouched _ _ _ _ _ 43 E); [reflexivity|simpl; lia].
  - rewrite (other_users_untouched _ _ _ _ _ 1 E); [reflexivity|simpl; lia].
Defined.

(** No operation creates a user or changes a name or an email: a user
    stored afterwards was stored before, with the same name and email.
    And no operation other than a permanent delete of that very user
    removes a user. *)
Theorem users_keep_identity op env s r s' :
  perform op env s = (r, s') ->
  (forall j u', UserRepository.findById j s' = Some u' ->
     exists u, UserRepository.findById j s = Some u
               /\ getUsername u' = getUsername u /\ getEmail u' = getEmail u)
  /\ (forall j u, UserRepository.findById j s = Some u ->
        (forall why, op <> PermanentDeleteUser j why) ->
        is_Some (UserRepository.findById j s')).
Proof.
  intros H. destruct r as [[]|e]; [|apply perform_thrown in H as ->; by eauto].
  apply perform_effect in H as (u & a' & Hu & Hus & _).
  unfold usersAfter in Hus. split.
  - intros j u' Hu'. destruct (decide (j = targetOf op)) as [->|Hj].
    + exists u. split; [done|].
      apply findById_Some in Hu' as [Hid Hc]. rewrite Hus in Hc.
      destruct (resultOf op env u) as [u1|] eqn:Hr.
      * rewrite lookup_insert_eq in Hc. injection Hc as Hc.
        apply resultOf_identity in Hr as (_ & Hn & He).
        unfold getUsername, getEmail in *. by rewrite <- Hc.
      * by rewrite lookup_delete_eq in Hc.
    + exists u'. split; [|done]. rewrite <- Hu'.
      unfold UserRepository.findById. rewrite Hus.
      destruct (resultOf op env u).
      * by rewrite lookup_insert_ne.
      * by rewrite lookup_delete_ne.
  - intros j u0 Hu0 Hop. unfold UserRepository.findById. rewrite Hus.
    destruct (decide (j = targetOf op)) as [->|Hj].
    + destruct (resultOf op env u) as [u1|] eqn:Hr.
      * rewrite lookup_insert_eq. by eexists.
      * destruct op; simpl in Hr; try done.
        by destruct (Hop reason0).
    + unfold UserRepository.findById in Hu0.
      destruct (resultOf op env u);
        rewrite ?lookup_insert_ne, ?lookup_delete_ne by done;
        destruct (users s !! j); by eexists.
Qed.

Lemma users_keep_identity_witness :
  exists s',
    perform (SoftDeleteUser 42 "left") sampleEnv moderationStore = (Ok tt, s')
    /\ is_Some (UserRepository.findById 42 s')
    /\ (forall u', UserRepository.findById 42 s' = Some u' ->
                   getUsername u' = "dana").
Proof.
  destruct (perform (SoftDeleteUser 42 "left") sampleEnv moderationStore)
    as [r s'] eqn:E.
  assert (r = Ok tt) as -> by (vm_compute in E; by injection E as <- _).
  destruct (users_keep_identity _ _ _ _ _ E) as [Hkeep Hstay].
  exists s'. split; [reflexivity|]. split.
  - apply (Hstay 42 dana); [reflexivity|discriminate].
  - intros u' Hu'. destruct (Hkeep 42 u' Hu') as (u & Hu & Hn & _).
    rewrite Hn. vm_compute in Hu. by injection Hu as <-.
Defined.

End Invariants.

(** ** The pool of functional admins *)

Section AdminPool.

Implicit Types (s : Store) (u a : User) (k j : Z) (env : Env).

Lemma adminCount_cons u l :
  AdminService.adminCount (u :: l)
  = (AdminService.adminCount [u] + AdminService.adminCount l)%nat.
Proof.
  unfold AdminService.adminCount. rewrite !filter_cons.
  case_decide; simpl; by rewrite ?filter_nil.
Qed.

Lemma adminCount_one u :
  AdminService.adminCount [u] = if decide (functionalAdmin u) then 1%nat else 0%nat.
Proof.
  unfold AdminService.adminCount, functionalAdmin. rewrite filter_cons, filter_nil.
  by repeat case_decide.
Qed.

Lemma adminCount_Permutation l1 l2 :
  l1 ≡ₚ l2 -> AdminService.adminCount l1 = AdminService.adminCount l2.
Proof. intros H. unfold AdminService.adminCount. by rewrite H. Qed.

Lemma findAll_stored k s u :
  UserRepository.findById k s = Some u ->
  UserRepository.findAll s
  ≡ₚ u :: UserRepository.findAll (mkStore (delete k (users s)) (auditLogs s)).
Proof.
  intros Hu. apply findById_Some in Hu as [Hid Hc].
  unfold UserRepository.findAll. simpl.
  rewrite <- (map_to_list_delete (users s) k (columns u)) by done.
  rewrite fmap_cons. unfold UserRepository.entity at 1. simpl.
  by rewrite <- Hid, entity_eta.
Qed.

Lemma findAll_users s1 s2 :
  users s1 = users s2 -> UserRepository.findAll s1 = UserRepository.findAll s2.
Proof. unfold UserRepository.findAll. by intros ->. Qed.

(** Replacing the stored row of [u] by the row of [u'] moves the count
    by what the two rows count. *)
Lemma adminCount_replace k s s' u u' :
  UserRepository.findById k s = Some u ->
  getId u' = k ->
  users s' = <[k := columns u']> (users s) ->
  (AdminService.adminCount (UserRepository.findAll s')
   + AdminService.adminCount [u]
   = AdminService.adminCount (UserRepository.findAll s)
     + AdminService.adminCount [u'])%nat.
Proof.
  intros Hu Hid Hus.
  assert (UserRepository.findById k s' = Some u') as Hu'.
  { apply findById_Some. split; [done|]. by rewrite Hus, lookup_insert_eq. }
  rewrite (adminCount_Permutation _ _ (findAll_stored k s u Hu)).
  rewrite (adminCount_Permutation _ _ (findAll_stored k s' u' Hu')).
  rewrite !(adminCount_cons _ (UserRepository.findAll _)).
  rewrite (findAll_users (mkStore (delete k (users s')) _)
             (mkStore (delete k (users s)) (auditLogs s)))
    by (simpl; by rewrite Hus, delete_insert_eq).
  lia.
Qed.

Lemma adminCount_remove k s s' u :
  UserRepository.findById k s = Some u ->
  users s' = delete k (users s) ->
  (AdminService.adminCount (UserRepository.findAll s')
   + AdminService.adminCount [u]
   = AdminService.adminCount (UserRepository.findAll s))%nat.
Proof.
  intros Hu Hus.
  rewrite (adminCount_Permutation _ _ (findAll_stored k s u Hu)).
  rewrite (adminCount_cons _ (UserRepository.findAll _)).
  rewrite (findAll_users s' (mkStore (delete k (users s)) (auditLogs s))) by done.
  lia.
Qed.

(** The guards of an operation keep a functional admin functional unless
    there is another one. *)
Lemma permitted_keeps_admin op env s a u :
  UserRepository.findByUsername (authName env) s = Some a ->
  UserRepository.findById (targetOf op) s = Some u ->
  permitted op env s ->
  functionalAdmin u ->
  (1 < AdminService.adminCount (UserRepository.findAll s))%nat
  \/ exists u', resultOf op env u = Some u' /\ functionalAdmin u'.
Proof.
  intros Ha Hu (a0 & u0 & Ha0 & Hu0 & Hop) (Hr & Hd & Hb).
  rewrite Ha in Ha0. rewrite Hu in Hu0. simplify_eq.
  destruct op; simpl in *.
  - right. eexists. by split.
  - left. destruct Hop as [_ H]. by apply H.
  - right. eexists. by split.
  - right. eexists. by split.
  - left. destruct Hop as [_ H]. by apply H.
  - by destruct (getIsDeleted u0).
  - left. destruct Hop as (_ & H & _). by apply H.
  - destruct (decide (newRole = ADMIN)) as [->|Hn].
    + right. eexists. by split.
    + left. destruct (Hop Hr Hn) as [_ H]. by apply H.
  - right. eexists. by split.
  - right. eexists. by split.
Qed.

(** If some functional admin (role ADMIN, not deleted, not banned) is
    stored before an operation, one is stored after it. *)
Theorem functional_admin_survives op env s r s' :
  perform op env s = (r, s') ->
  (1 <= AdminService.adminCount (UserRepository.findAll s))%nat ->
  (1 <= AdminService.adminCount (UserRepository.findAll s'))%nat.
Proof.
  intros H Hcount. destruct r as [[]|e];
    [|by apply perform_thrown in H as ->].
  assert (permitted op env s) as Hperm by (by eapply perform_ok_permitted).
  pose proof Hperm as (a & u0 & Ha & Hu0 & _).
  apply perform_effect in H as (u & a' & Hu & Hus & _).
  rewrite Hu in Hu0. injection Hu0 as <-.
  pose proof (permitted_keeps_admin op env s a u Ha Hu Hperm) as Hkeep.
  unfold usersAfter in Hus.
  destruct (resultOf op env u) as [u'|] eqn:Hres.
  - pose proof (resultOf_identity _ _ _ _ Hres) as (Hid & _).
    rewrite (findById_getId _ _ _ Hu) in Hid.
    pose proof (adminCount_replace _ _ _ _ _ Hu Hid Hus) as Hc.
    rewrite !adminCount_one in Hc.
    destruct (decide (functionalAdmin u)) as [Hf|Hf].
    + destruct (Hkeep Hf) as [Hmore|(u1 & [= <-] & Hf1)]; [lia|].
      rewrite decide_True in Hc by done. lia.
    + destruct (decide (functionalAdmin u')); lia.
  - pose proof (adminCount_remove _ _ _ _ Hu Hus) as Hc.
    rewrite adminCount_one in Hc.
    destruct (decide (functionalAdmin u)) as [Hf|Hf]; [|lia].
    destruct (Hkeep Hf) as [Hmore|(u1 & [=] & _)]. lia.
Qed.

Lemma functional_admin_survives_witness :
  (1 <= AdminService.adminCount (UserRepository.findAll moderationStore))%nat
  /\ (1 <= AdminService.adminCount
             (UserRepository.findAll
                (perform (BanUser 2 "abuse") sampleEnv moderationStore).2))%nat
  /\ (1 <= AdminService.adminCount
             (UserRepository.findAll
                (perform (BanUser 1 "abuse") (mkEnv "ruth" sampleNow)
                   (perform (BanUser 2 "abuse") sampleEnv moderationStore).2).2))%nat.
Proof.
  assert (1 <= AdminService.adminCount (UserRepository.findAll moderationStore))%nat
    as H0 by (vm_compute; lia).
  split; [exact H0|].
  assert (1 <= AdminService.adminCount
            (UserRepository.findAll
               (perform (BanUser 2 "abuse") sampleEnv moderationStore).2))%nat as H1.
  { eapply functional_admin_survives; [|exact H0]. apply surjective_pairing. }
  split; [exact H1|].
  eapply functional_admin_survives; [|exact H1]. apply surjective_pairing.
Defined.

End AdminPool.

(** ** How the operations compose *)

Section Composition.

Implicit Types (s : Store) (u a : User) (k j : Z) (env : Env).

Lemma enableLogin_banned env s k why u :
  UserRepository.findById k s = Some u ->
  getBannedAt u <> None ->
  AdminService.enableLogin k why env s = (Thrown StillBanned, s).
Proof.
  intros Hu Hb. eapply Transactional_thrown. tx_unfold. rewrite Hu.
  unfold isBanned. by rewrite bool_decide_true.
Qed.

Lemma savedAndLogged_findById env s k action why md u u' s' :
  savedAndLogged env s k action why md u' s' ->
  UserRepository.findById k s = Some u ->
  getId u' = getId u ->
  UserRepository.findById k s' = Some u'.
Proof.
  intros (a' & _ & ->) Hu Hid. rewrite findById_audit, findById_save.
  apply decide_True. rewrite Hid. by eapply findById_getId.
Qed.

(** A ban blocks login until it is lifted and login is enabled again:
    after [banUser] returned, [enableLogin] throws the still-banned error
    whoever calls and whenever; [unbanUser] then returns the user still
    inactive; and on the store that leaves, [enableLogin] by a stored
    caller returns the user active unless the user is suspended then. *)
Theorem ban_blocks_login_until_reenabled env s k why u1 s1 :
  AdminService.banUser k why env s = (Ok u1, s1) ->
  (forall env' why',
     AdminService.enableLogin k why' env' s1 = (Thrown StillBanned, s1))
  /\ (forall env2 why2 u2 s2,
        AdminService.unbanUser k why2 env2 s1 = (Ok u2, s2) ->
        getIsActive u2 = false
        /\ forall env3 why3 a3,
             UserRepository.findByUsername (authName env3) s2 = Some a3 ->
             isSuspended (clockNow env3) u2 = false ->
             exists s3,
               AdminService.enableLogin k why3 env3 s2
                 = (Ok (setIsActive true u2), s3)).
Proof.
  intros Hban. apply banUser_returned in Hban
    as (a & u & _ & _ & Hu & _ & -> & Hlog).
  pose proof (savedAndLogged_findById _ _ _ _ _ _ _ _ _ Hlog Hu eq_refl) as Hu1.
  split.
  - intros env' why'. by apply (enableLogin_banned _ _ _ _ _ Hu1).
  - intros env2 why2 u2 s2 Hunban.
    apply unbanUser_returned in Hunban as (u1' & Hu1' & -> & Hlog2).
    rewrite Hu1 in Hu1'. injection Hu1' as <-. split; [done|].
    intros env3 why3 a3 Ha3 Hs.
    pose proof (savedAndLogged_findById _ _ _ _ _ _ _ _ _ Hlog2 Hu1 eq_refl) as Hu2.
    destruct (enableLogin_run env3 s2 k why3 a3 _ Ha3 Hu2) as (s3 & E & _);
      [done..|]. eauto.
Qed.

Lemma ban_blocks_login_until_reenabled_witness :
  AdminService.banUser 42 "abuse" sampleEnv soleAdminStore
    = (Ok bannedDana, bannedStore)
  /\ AdminService.enableLogin 42 "please" sampleEnv bannedStore
     = (Thrown StillBanned, bannedStore).
Proof.
  assert (AdminService.banUser 42 "abuse" sampleEnv soleAdminStore
          = (Ok bannedDana, bannedStore)) as Hban by (vm_compute; reflexivity).
  split; [exact Hban|].
  destruct (ban_blocks_login_until_reenabled _ _ _ _ _ _ Hban) as [H _].
  apply H.
Defined.

(** Soft delete followed by restore does not give the record back as it
    was: the restored user is the user from before the soft delete with
    [isDeleted] false and [deletedAt] null, and with [isActive] true when
    neither banned nor suspended at the time of the restore and false
    otherwise, whatever [isActive] was before. *)
Theorem softDelete_then_restore env s k why u1 s1 env2 why2 u2 s2 :
  AdminService.softDeleteUser k why env s = (Ok u1, s1) ->
  AdminService.restoreUser k why2 env2 s1 = (Ok u2, s2) ->
  exists u,
    UserRepository.findById k s = Some u
    /\ UserRepository.findById k s2 = Some u2
    /\ u2 = setIsActive (negb (isBanned u) && negb (isSuspended (clockNow env2) u))
              (setDeletedAt None (setIsDeleted false u)).
Proof.
  intros Hdel Hres.
  apply softDeleteUser_returned in Hdel as (a & u & _ & _ & Hu & _ & -> & Hlog).
  pose proof (savedAndLogged_findById _ _ _ _ _ _ _ _ _ Hlog Hu eq_refl) as Hu1.
  apply restoreUser_returned in Hres as (u1' & Hu1' & _ & -> & Hlog2).
  rewrite Hu1 in Hu1'. injection Hu1' as <-.
  exists u. split; [done|]. split.
  - apply (savedAndLogged_findById _ _ _ _ _ _ _ _ _ Hlog2 Hu1).
    by destruct (negb _ && negb _).
  - change (isBanned (setIsActive false
              (setDeletedAt (Some (clockNow env)) (setIsDeleted true u))))
      with (isBanned u).
    change (isSuspended (clockNow env2) (setIsActive false
              (setDeletedAt (Some (clockNow env)) (setIsDeleted true u))))
      with (isSuspended (clockNow env2) u).
    by destruct (negb (isBanned u) && negb (isSuspended (clockNow env2) u)).
Qed.

Lemma softDelete_then_restore_witness :
  exists u1 s1 u2 s2,
    AdminService.softDeleteUser 43 "left" sampleEnv moderationStore = (Ok u1, s1)
    /\ AdminService.restoreUser 43 "back" sampleEnv s1 = (Ok u2, s2)
    /\ getIsActive omar = false
    /\ getIsActive u2 = true.
Proof.
  destruct (AdminService.softDeleteUser 43 "left" sampleEnv moderationStore)
    as [r1 s1] eqn:E1.
  destruct r1 as [u1|e]; [|by vm_compute in E1].
  destruct (AdminService.restoreUser 43 "back" sampleEnv s1) as [r2 s2] eqn:E2.
  destruct r2 as [u2|e].
  2: { exfalso. revert E2. vm_compute in E1. injection E1 as <- <-.
       by vm_compute. }
  exists u1, s1, u2, s2. split; [done|]. split; [done|]. split; [done|].
  destruct (softDelete_then_restore _ _ _ _ _ _ _ _ _ _ E1 E2) as (u & Hu & _ & ->).
  vm_compute in Hu. by injection Hu as <-.
Defined.

(** The grace period runs from the soft delete: on the store that
    [softDeleteUser] leaves, a permanent delete by a stored caller other
    than the target, on a target the last-admin check lets through,
    throws the too-soon error while fewer than 30 days have passed on the
    clock, and removes the user from then on. *)
Theorem softDelete_then_permanentDelete env s k why u1 s1 env2 why2 a2 :
  AdminService.softDeleteUser k why env s = (Ok u1, s1) ->
  UserRepository.findByUsername (authName env2) s1 = Some a2 ->
  getId a2 <> k ->
  getRole u1 <> ADMIN
    \/ (1 < AdminService.adminCount (UserRepository.findAll s1))%nat ->
  (clockNow env2 < plusDays (clockNow env) 30 ->
   AdminService.permanentDeleteUser k why2 env2 s1 = (Thrown TooSoon, s1))
  /\ (plusDays (clockNow env) 30 <= clockNow env2 ->
      exists s2,
        AdminService.permanentDeleteUser k why2 env2 s1 = (Ok tt, s2)
        /\ UserRepository.findById k s2 = None).
Proof.
  intros Hdel Ha2 Hne Hlast.
  apply softDeleteUser_returned in Hdel as (a & u & _ & _ & Hu & _ & -> & Hlog).
  pose proof (savedAndLogged_findById _ _ _ _ _ _ _ _ _ Hlog Hu eq_refl) as Hu1.
  rewrite (permanentDeleteUser_run env2 s1 k why2 a2 _ Ha2 Hne Hu1 Hlast).
  simpl. unfold isAfter, minusDays, plusDays. split; intros Ht.
  - by rewrite bool_decide_true by lia.
  - rewrite bool_decide_false by lia. eexists. split; [done|].
    by apply deleted_is_gone.
Qed.

Lemma softDelete_then_permanentDelete_witness :
  exists u1 s1,
    AdminService.softDeleteUser 42 "left" sampleEnv moderationStore = (Ok u1, s1)
    /\ AdminService.permanentDeleteUser 42 "purge"
         (mkEnv "root" (plusDays sampleNow 29)) s1 = (Thrown TooSoon, s1)
    /\ exists s2,
         AdminService.permanentDeleteUser 42 "purge"
           (mkEnv "root" (plusDays sampleNow 30)) s1 = (Ok tt, s2)
         /\ UserRepository.findById 42 s2 = None.
Proof.
  destruct (AdminService.softDeleteUser 42 "left" sampleEnv moderationStore)
    as [r1 s1] eqn:E1.
  destruct r1 as [u1|e]; [|by vm_compute in E1].
  exists u1, s1. split; [done|].
  assert (UserRepository.findByUsername "root" s1 = Some root) as Ha.
  { vm_compute in E1. injection E1 as <- <-. by vm_compute. }
  assert (getRole u1 <> ADMIN) as Hr.
  { vm_compute in E1. injection E1 as <- <-. discriminate. }
  split.
  - destruct (softDelete_then_permanentDelete _ _ _ _ _ _
                (mkEnv "root" (plusDays sampleNow 29)) "purge" root E1 Ha)
      as [H _]; [simpl; lia | by left |].
    apply H. vm_compute. reflexivity.
  - destruct (softDelete_then_permanentDelete _ _ _ _ _ _
                (mkEnv "root" (plusDays sampleNow 30)) "purge" root E1 Ha)
      as [_ H]; [simpl; lia | by left |].
    apply H. vm_compute. discriminate.
Defined.

End Composition.

(** ** Round trips and no-ops *)

Section RoundTrips.

Implicit Types (s : Store) (u a : User) (k j : Z) (env : Env).

Lemma savedAndLogged_users env s k action why md u' s' :
  savedAndLogged env s k action why md u' s' ->
  users s' = <[getId u' := columns u']> (users s).
Proof. by intros (a' & _ & ->). Qed.

Lemma unsuspended_eta u :
  getSuspendedUntil u = None -> getSuspensionReason u = None ->
  setSuspensionReason None (setSuspendedUntil None u) = u.
Proof.
  destruct u as [i []]. unfold getSuspendedUntil, getSuspensionReason. simpl.
  by intros -> ->.
Qed.

Lemma unbanned_eta u :
  getBannedAt u = None -> getBanReason u = None ->
  setBanReason None (setBannedAt None u) = u.
Proof.
  destruct u as [i []]. unfold getBannedAt, getBanReason. simpl.
  by intros -> ->.
Qed.

(** In the later revision a suspension that is lifted leaves no trace on
    the record: after [suspendUser] and then [unsuspendUser], a user who
    was not suspended before is stored exactly as before. *)
Theorem suspend_then_unsuspend env s k t why u1 s1 env2 why2 u2 s2 :
  AdminService.suspendUser k t why env s = (Ok u1, s1) ->
  AdminService.unsuspendUser k why2 env2 s1 = (Ok u2, s2) ->
  exists u,
    UserRepository.findById k s = Some u
    /\ UserRepository.findById k s2 = Some u2
    /\ u2 = setSuspensionReason None (setSuspendedUntil None u)
    /\ (getSuspendedUntil u = None -> getSuspensionReason u = None ->
        u2 = u /\ users s2 = users s).
Proof.
  intros Hsus Hun.
  apply suspendUser_returned in Hsus as (a & u & _ & _ & Hu & -> & Hlog).
  pose proof (savedAndLogged_findById _ _ _ _ _ _ _ _ _ Hlog Hu eq_refl) as Hu1.
  apply unsuspendUser_returned in Hun as (u1' & Hu1' & -> & Hlog2).
  rewrite Hu1 in Hu1'. injection Hu1' as <-.
  exists u. split; [done|].
  split; [by apply (savedAndLogged_findById _ _ _ _ _ _ _ _ _ Hlog2 Hu1)|].
  split; [done|]. intros H1 H2.
  change (setSuspensionReason None (setSuspendedUntil None
            (setSuspensionReason (Some why) (setSuspendedUntil (Some t) u))))
    with (setSuspensionReason None (setSuspendedUntil None u)).
  rewrite (unsuspended_eta u H1 H2). split; [done|].
  rewrite (savedAndLogged_users _ _ _ _ _ _ _ _ Hlog2),
    (savedAndLogged_users _ _ _ _ _ _ _ _ Hlog). simpl.
  rewrite insert_insert_eq. apply insert_id.
  apply findById_Some in Hu as [Hid Hc]. rewrite Hid, Hc.
  destruct u as [i []]. unfold getSuspendedUntil, getSuspensionReason in *.
  simpl in *. by subst.
Qed.

Lemma suspend_then_unsuspend_witness :
  AdminService.suspendUser 42 (plusDays sampleNow 7) "spam" sampleEnv soleAdminStore
    = (Ok suspendedDana, suspendedStore)
  /\ exists s2,
       AdminService.unsuspendUser 42 "lift" sampleEnv suspendedStore = (Ok dana, s2)
       /\ users s2 = users soleAdminStore.
Proof.
  assert (AdminService.suspendUser 42 (plusDays sampleNow 7) "spam" sampleEnv
            soleAdminStore = (Ok suspendedDana, suspendedStore))
    as H1 by (vm_compute; reflexivity).
  split; [exact H1|].
  destruct (AdminService.unsuspendUser 42 "lift" sampleEnv suspendedStore)
    as [r2 s2] eqn:H2.
  destruct r2 as [u2|e]; [|by vm_compute in H2].
  destruct (suspend_then_unsuspend _ _ _ _ _ _ _ _ _ _ _ H1 H2)
    as (u & Hu & _ & _ & Hsame).
  vm_compute in Hu. injection Hu as <-.
  destruct Hsame as [-> Hus]; [reflexivity..|].
  exists s2. by split.
Defined.

(** Lifting a ban or a suspension that is not there changes no row and is
    still logged: for a stored caller and a stored user with no ban (no
    suspension), [unbanUser] ([unsuspendUser]) returns the user as stored,
    leaves the user table as it was, and appends one audit entry. *)
Theorem lifting_nothing_is_logged env s k why a u :
  UserRepository.findByUsername (authName env) s = Some a ->
  UserRepository.findById k s = Some u ->
  (getBannedAt u = None -> getBanReason u = None ->
   exists s' e,
     AdminService.unbanUser k why env s = (Ok u, s')
     /\ users s' = users s
     /\ auditLogs s' = (auditLogs s ++ [e])%list
     /\ actionType e = "UNBAN")
  /\ (getSuspendedUntil u = None -> getSuspensionReason u = None ->
      exists s' e,
        AdminService.unsuspendUser k why env s = (Ok u, s')
        /\ users s' = users s
        /\ auditLogs s' = (auditLogs s ++ [e])%list
        /\ actionType e = "UNSUSPEND").
Proof.
  intros Ha Hu. pose proof (proj1 (findById_Some _ _ _) Hu) as [Hid Hc]. split.
  - intros H1 H2. destruct (unbanUser_run env s k why a u Ha Hu) as (s' & E & _).
    rewrite (unbanned_eta u H1 H2) in E.
    pose proof E as E'.
    apply unbanUser_returned in E' as (u0 & Hu0 & _ & (a' & _ & Hs')).
    exists s', (auditEntry a' "UNBAN" k why None). split; [done|]. subst s'.
    simpl. split; [|done]. rewrite Hid. by apply insert_id.
  - intros H1 H2.
    destruct (unsuspendUser_run env s k why a u Ha Hu) as (s' & E & _).
    rewrite (unsuspended_eta u H1 H2) in E.
    pose proof E as E'.
    apply unsuspendUser_returned in E' as (u0 & Hu0 & _ & (a' & _ & Hs')).
    exists s', (auditEntry a' "UNSUSPEND" k why None). split; [done|]. subst s'.
    simpl. split; [|done]. rewrite Hid. by apply insert_id.
Qed.

Lemma lifting_nothing_is_logged_witness :
  exists s' e,
    AdminService.unbanUser 42 "again" sampleEnv moderationStore = (Ok dana, s')
    /\ users s' = users moderationStore
    /\ auditLogs s' = (auditLogs moderationStore ++ [e])%list
    /\ actionType e = "UNBAN".
Proof.
  destruct (lifting_nothing_is_logged sampleEnv moderationStore 42 "again" root dana)
    as [H _]; [reflexivity..|].
  by apply H.
Defined.

(** Only a change that takes ADMIN away is guarded: for a stored caller
    and a stored target whose role is not ADMIN, or a new role that is
    ADMIN, [updateUserRole] returns and stores the target with the new
    role and every other column as it was, also on the caller's own
    account and on the last admin. *)
Theorem updateUserRole_unguarded env s k newRole why a u :
  UserRepository.findByUsername (authName env) s = Some a ->
  UserRepository.findById k s = Some u ->
  getRole u <> ADMIN \/ newRole = ADMIN ->
  exists s',
    AdminService.updateUserRole k newRole why env s = (Ok (setRole newRole u), s')
    /\ UserRepository.findById k s' = Some (setRole newRole u)
    /\ columns (setRole newRole u)
       = mkColumns (getUsername u) (getEmail u) newRole (getIsActive u)
           (getSuspendedUntil u) (getSuspensionReason u) (getBannedAt u)
           (getBanReason u) (getIsDeleted u) (getDeletedAt u).
Proof.
  intros Ha Hu Hfree.
  destruct (updateUserRole_run env s k newRole why a u Ha Hu) as (s' & E & Hlog).
  { intros Hr Hn. by destruct Hfree. }
  exists s'. split; [done|]. split; [|done].
  by apply (savedAndLogged_findById _ _ _ _ _ _ _ _ _ Hlog Hu).
Qed.

Lemma updateUserRole_unguarded_witness :
  exists s',
    AdminService.updateUserRole 1 ADMIN "keep" sampleEnv soleAdminStore
      = (Ok root, s')
    /\ UserRepository.findById 1 s' = Some root.
Proof.
  destruct (updateUserRole_unguarded sampleEnv soleAdminStore 1 ADMIN "keep" root root)
    as (s' & E & F & _); [reflexivity | reflexivity | by right |].
  exists s'. by split.
Defined.

End RoundTrips.

(** ** The earlier revision *)

Section Earlier.

Implicit Types (s : Store) (u a : User) (k j : Z) (env : Env).

Lemma earlier_checkLastAdmin_eq env s k :
  EarlierAdminService.checkLastAdmin k env s =
  match UserRepository.findById k s with
  | Some u =>
      if bool_decide (getRole u = ADMIN)
         && bool_decide
              (EarlierAdminService.adminCount (UserRepository.findAll s) <= 1)%nat
      then (Thrown LastAdmin, s) else (Ok tt, s)
  | None => (Thrown NotFound, s)
  end.
Proof.
  unfold EarlierAdminService.checkLastAdmin. tx_unfold.
  destruct (UserRepository.findById k s); [|done].
  case_bool_decide; [|done]. by case_bool_decide.
Qed.

(** The later count is the earlier count without the banned admins. *)
Lemma adminCount_le_earlier (l : list User) :
  (AdminService.adminCount l <= EarlierAdminService.adminCount l)%nat.
Proof.
  unfold AdminService.adminCount, EarlierAdminService.adminCount.
  induction l as [|u l IH]; [done|].
  rewrite !filter_cons. repeat case_decide; simpl; try lia. tauto.
Qed.

(** The last-admin check of the later revision is strictly stricter than
    that of the earlier one: whenever the earlier check throws the
    last-admin error the later check throws it too, and there is a store
    on which the later check throws and the earlier one lets the target
    through. *)
Theorem later_last_admin_check_is_stricter :
  (forall env s k s',
     EarlierAdminService.checkLastAdmin k env s = (Thrown LastAdmin, s') ->
     AdminService.checkLastAdmin k env s = (Thrown LastAdmin, s))
  /\ exists env s k,
       AdminService.checkLastAdmin k env s = (Thrown LastAdmin, s)
       /\ EarlierAdminService.checkLastAdmin k env s = (Ok tt, s).
Proof.
  split.
  - intros env s k s'. rewrite earlier_checkLastAdmin_eq, checkLastAdmin_eq.
    destruct (UserRepository.findById k s) as [u|]; [|done].
    destruct (bool_decide (getRole u = ADMIN)); simpl; [|done].
    case_bool_decide as He; [|done]. intros _.
    rewrite bool_decide_true; [done|].
    pose proof (adminCount_le_earlier (UserRepository.findAll s)). lia.
  - exists sampleEnv, bannedAdminStore, 1. by vm_compute.
Qed.

(** In the earlier revision [banUser] runs no last-admin check: it
    returns for every stored target other than the stored caller, however
    many admins there are, with the target banned and inactive. *)
Theorem earlier_banUser_unguarded env s k why a u :
  UserRepository.findByUsername (authName env) s = Some a ->
  getId a <> k ->
  UserRepository.findById k s = Some u ->
  exists s',
    EarlierAdminService.banUser k why env s
      = (Ok (setIsActive false
               (setBanReason (Some why) (setBannedAt (Some (clockNow env)) u))), s')
    /\ UserRepository.findById k s'
       = Some (setIsActive false
                 (setBanReason (Some why) (setBannedAt (Some (clockNow env)) u))).
Proof.
  intros Ha Hne Hu.
  destruct (save_then_log env s a u
              (setIsActive false
                 (setBanReason (Some why) (setBannedAt (Some (clockNow env)) u)))
              k "BAN" why None Ha Hu) as [s' [E F]]; [done..|].
  exists s'. split; [|done].
  apply Transactional_ok. rewrite <- E.
  unfold EarlierAdminService.checkSelfModification, EarlierAdminService.saveUser,
    EarlierAdminService.logAction. tx_unfold.
  by rewrite checkSelfModification_eq, Ha, bool_decide_false, Hu.
Qed.

Lemma earlier_banUser_unguarded_witness :
  UserRepository.findByUsername "eve" bannedAdminStore = Some eve
  /\ (AdminService.adminCount (UserRepository.findAll bannedAdminStore) <= 1)%nat
  /\ AdminService.banUser 1 "coup" (mkEnv "eve" sampleNow) bannedAdminStore
     = (Thrown LastAdmin, bannedAdminStore)
  /\ exists u' s',
       EarlierAdminService.banUser 1 "coup" (mkEnv "eve" sampleNow) bannedAdminStore
         = (Ok u', s')
       /\ getBannedAt u' = Some sampleNow
       /\ UserRepository.findById 1 s' = Some u'.
Proof.
  assert (UserRepository.findByUsername (authName (mkEnv "eve" sampleNow))
            bannedAdminStore = Some eve) as Ha by reflexivity.
  split; [exact Ha|]. split; [vm_compute; lia|]. split; [by vm_compute|].
  destruct (earlier_banUser_unguarded (mkEnv "eve" sampleNow) bannedAdminStore 1
              "coup" eve root Ha) as (s' & E & F); [simpl; lia | reflexivity |].
  eexists _, s'. split; [exact E|]. by split.
Defined.

End Earlier.

Section EarlierSuspension.

Implicit Types (s : Store) (u a : User) (k j : Z) (env : Env).

Lemma earlier_suspendUser_returned env s k t why u1 s1 :
  EarlierAdminService.suspendUser k t why env s = (Ok u1, s1) ->
  exists u,
    UserRepository.findById k s = Some u
    /\ u1 = setIsActive false
              (setSuspensionReason (Some why) (setSuspendedUntil (Some t) u))
    /\ UserRepository.findById k s1 = Some u1.
Proof.
  intros H. apply Transactional_inv_ok in H. revert H.
  unfold EarlierAdminService.checkSelfModification, EarlierAdminService.saveUser,
    EarlierAdminService.logAction.
  tx_unfold. tx_paths. intros. simplify_eq.
  eexists. split; [done|]. split; [done|].
  rewrite findById_audit, findById_save. apply decide_True.
  simpl. by eapply findById_getId.
Qed.

Lemma earlier_unsuspendUser_returned env s k why u1 s1 :
  EarlierAdminService.unsuspendUser k why env s = (Ok u1, s1) ->
  exists u,
    UserRepository.findById k s = Some u
    /\ u1 = (if isBanned u
             then setSuspensionReason None (setSuspendedUntil None u)
             else setIsActive true
                    (setSuspensionReason None (setSuspendedUntil None u)))
    /\ UserRepository.findById k s1 = Some u1.
Proof.
  intros H. apply Transactional_inv_ok in H. revert H.
  unfold EarlierAdminService.saveUser, EarlierAdminService.logAction.
  tx_unfold.
  destruct (UserRepository.findById k s) as [u|] eqn:Hu; [|done].
  change (isBanned (setSuspensionReason None (setSuspendedUntil None u)))
    with (isBanned u).
  rewrite saveUser_eq, logAction_eq.
  destruct (UserRepository.findByUsername _ _); [|done].
  intros [= <- <-]. exists u. split; [done|].
  split; [by destruct (isBanned u)|].
  rewrite findById_audit, findById_save. apply decide_True.
  apply findById_getId in Hu. by destruct (isBanned u).
Qed.

(** In the earlier revision a suspension cycle rewrites [isActive]:
    [suspendUser] returns the user inactive, and [unsuspendUser] after it
    returns the user active unless banned, whatever [isActive] was before
    the suspension. *)
Theorem earlier_suspend_then_unsuspend env s k t why u1 s1 env2 why2 u2 s2 :
  EarlierAdminService.suspendUser k t why env s = (Ok u1, s1) ->
  EarlierAdminService.unsuspendUser k why2 env2 s1 = (Ok u2, s2) ->
  exists u,
    UserRepository.findById k s = Some u
    /\ getIsActive u1 = false
    /\ UserRepository.findById k s2 = Some u2
    /\ getIsActive u2 = negb (isBanned u)
    /\ getSuspendedUntil u2 = None
    /\ getSuspensionReason u2 = None.
Proof.
  intros H1 H2.
  apply earlier_suspendUser_returned in H1 as (u & Hu & -> & Hu1).
  apply earlier_unsuspendUser_returned in H2 as (u1' & Hu1' & -> & Hu2).
  rewrite Hu1 in Hu1'. injection Hu1' as <-.
  exists u. split; [done|]. split; [done|]. split; [done|].
  change (isBanned (setIsActive false
            (setSuspensionReason (Some why) (setSuspendedUntil (Some t) u))))
    with (isBanned u).
  by destruct (isBanned u).
Qed.

Lemma earlier_suspend_then_unsuspend_witness :
  exists u1 s1 u2 s2,
    EarlierAdminService.suspendUser 43 (plusDays sampleNow 7) "spam"
      sampleEnv moderationStore = (Ok u1, s1)
    /\ EarlierAdminService.unsuspendUser 43 "lift" sampleEnv s1 = (Ok u2, s2)
    /\ getIsActive omar = false
    /\ getIsActive u2 = true.
Proof.
  destruct (EarlierAdminService.suspendUser 43 (plusDays sampleNow 7) "spam"
              sampleEnv moderationStore) as [r1 s1] eqn:E1.
  destruct r1 as [u1|e]; [|by vm_compute in E1].
  destruct (EarlierAdminService.unsuspendUser 43 "lift" sampleEnv s1)
    as [r2 s2] eqn:E2.
  destruct r2 as [u2|e].
  2: { exfalso. revert E2. vm_compute in E1. injection E1 as <- <-.
       by vm_compute. }
  exists u1, s1, u2, s2. split; [done|]. split; [done|]. split; [done|].
  destruct (earlier_suspend_then_unsuspend _ _ _ _ _ _ _ _ _ _ _ E1 E2)
    as (u & Hu & _ & _ & -> & _).
  vm_compute in Hu. by injection Hu as <-.
Defined.

End EarlierSuspension.

(** ** Courses and groups *)

Ltac wtx_unfold :=
  cbv beta iota zeta delta
    [mbind mret WTx_bind WTx_ret wquery wupdate wthrow worElseThrow wnow
     wdelete WTransactional liftTx AdminServiceCourses.logAction
     AdminServiceCourses.saveCourse CourseRepository.delete
     StudyGroupRepository.delete].

Section Courses.

Implicit Types (w : World) (c : Course) (g : StudyGroup) (a : User) (k : Z).
Implicit Types (env : Env) (P : Persistence).

Lemma logAction_eq_any env s action targetType k why md :
  AdminService.logAction action targetType k why md env s =
  match UserRepository.findByUsername (authName env) s with
  | Some a =>
      (Ok tt,
       AdminAuditLogRepository.save
         (mkAuditLog (getId a) action targetType k why
            (match md with
             | Some m => if bool_decide (m = ∅) then None else Some m
             | None => None
             end)) s)
  | None => (Thrown AdminNotFound, s)
  end.
Proof.
  unfold AdminService.logAction. tx_unfold. rewrite getCurrentAdmin_eq.
  by destruct (UserRepository.findByUsername _ _).
Qed.

Lemma course_findById_Some k w c :
  CourseRepository.findById k w = Some c <->
  getCourseId c = k /\ courses w !! k = Some (courseColumns c)
  /\ getGroups c = StudyGroupRepository.findByCourse k w.
Proof.
  unfold CourseRepository.findById. destruct c as [i row gs]; simpl.
  destruct (courses w !! k) as [row'|]; simpl; split.
  - by intros [= <- <- <-].
  - by intros (-> & [= ->] & ->).
  - done.
  - by intros (_ & ? & _).
Qed.

Lemma course_findById_getId k w c :
  CourseRepository.findById k w = Some c -> getCourseId c = k.
Proof. intros H. by apply course_findById_Some in H as [? _]. Qed.

(** Saving the row of a course that was loaded from the state: the
    course is found again as saved, its groups being read from the group
    table, which a save does not write. *)
Lemma course_findById_saved k w c c1 :
  CourseRepository.findById k w = Some c ->
  getCourseId c1 = k -> getGroups c1 = getGroups c ->
  forall s',
    CourseRepository.findById k
      (mkWorld s' (<[k := courseColumns c1]> (courses w)) (studyGroups w))
    = Some c1.
Proof.
  intros Hc Hk Hg s'. apply course_findById_Some in Hc as (_ & _ & Hgs).
  apply course_findById_Some. simpl. rewrite lookup_insert_eq.
  split; [done|]. split; [done|]. by rewrite Hg, Hgs.
Qed.

(** The groups of a loaded course are the stored groups that refer to
    it. *)
Lemma course_groups k w c g :
  CourseRepository.findById k w = Some c ->
  g ∈ getGroups c <->
  studyGroups w !! getGroupId g = Some (groupColumns g)
  /\ getGroupCourse g = Some k.
Proof.
  intros Hc. apply course_findById_Some in Hc as (_ & _ & ->).
  unfold StudyGroupRepository.findByCourse, StudyGroupRepository.findAll.
  rewrite list_elem_of_filter, list_elem_of_fmap. split.
  - intros [Hown ([i row] & -> & Hin)]. apply elem_of_map_to_list in Hin.
    by split.
  - intros [Hrow Hown]. split; [done|].
    exists (getGroupId g, groupColumns g). split; [by destruct g|].
    by apply elem_of_map_to_list.
Qed.

Lemma archive_refusals env w k why c :
  CourseRepository.findById k w = Some c ->
  (getIsArchived c = Some true ->
   AdminServiceCourses.archiveCourse k why env w = (Thrown AlreadyArchived, w))
  /\ (getIsArchived c <> Some true ->
      AdminServiceCourses.unarchiveCourse k why env w = (Thrown NotArchived, w)).
Proof.
  intros Hc. split; intros Hflag.
  - unfold AdminServiceCourses.archiveCourse. wtx_unfold. by rewrite Hc, Hflag.
  - unfold AdminServiceCourses.unarchiveCourse. wtx_unfold. rewrite Hc.
    by destruct (getIsArchived c) as [[]|].
Qed.

Lemma archiveCourse_run env w k why a c :
  UserRepository.findByUsername (authName env) (base w) = Some a ->
  CourseRepository.findById k w = Some c ->
  getIsArchived c <> Some true ->
  let c1 := setArchivedAt (Some (clockNow env)) (setIsArchived (Some true) c) in
  AdminServiceCourses.archiveCourse k why env w
  = (Ok c1,
     mkWorld (AdminAuditLogRepository.save
                (auditEntryFor a "COURSE_ARCHIVE" "COURSE" k why) (base w))
       (<[k := courseColumns c1]> (courses w)) (studyGroups w)).
Proof.
  intros Ha Hc Hflag c1. pose proof (course_findById_getId _ _ _ Hc) as Hk.
  unfold AdminServiceCourses.archiveCourse. wtx_unfold. rewrite Hc.
  replace (match getIsArchived c with Some b => b | None => false end) with false
    by (by destruct (getIsArchived c) as [[]|]).
  simpl. rewrite logAction_eq_any, Ha. simpl. by rewrite Hk.
Qed.

Lemma unarchiveCourse_run env w k why a c :
  UserRepository.findByUsername (authName env) (base w) = Some a ->
  CourseRepository.findById k w = Some c ->
  getIsArchived c = Some true ->
  let c1 := setArchivedAt None (setIsArchived (Some false) c) in
  AdminServiceCourses.unarchiveCourse k why env w
  = (Ok c1,
     mkWorld (AdminAuditLogRepository.save
                (auditEntryFor a "COURSE_UNARCHIVE" "COURSE" k why) (base w))
       (<[k := courseColumns c1]> (courses w)) (studyGroups w)).
Proof.
  intros Ha Hc Hflag c1. pose proof (course_findById_getId _ _ _ Hc) as Hk.
  unfold AdminServiceCourses.unarchiveCourse. wtx_unfold. rewrite Hc, Hflag.
  simpl. rewrite logAction_eq_any, Ha. simpl. by rewrite Hk.
Qed.

(** Archiving and unarchiving.  A stored course whose archive flag is
    null or false counts as not archived: [unarchiveCourse] on it throws
    the not-archived error and writes nothing, and, for a stored caller,
    [archiveCourse] returns and stores the course with the flag true and
    the time of the call.  A second [archiveCourse] then throws the
    already-archived error; [unarchiveCourse] by the same caller then
    returns and stores the course with the flag false (not null) and no
    archive time, its groups as they were, and has appended a second
    audit entry. *)
Theorem archive_then_unarchive env w k why a c :
  UserRepository.findByUsername (authName env) (base w) = Some a ->
  CourseRepository.findById k w = Some c ->
  getIsArchived c <> Some true ->
  (forall env0 why0,
     AdminServiceCourses.unarchiveCourse k why0 env0 w = (Thrown NotArchived, w))
  /\ exists c1 w1,
    AdminServiceCourses.archiveCourse k why env w = (Ok c1, w1)
    /\ CourseRepository.findById k w1 = Some c1
    /\ getIsArchived c1 = Some true
    /\ getArchivedAt c1 = Some (clockNow env)
    /\ (forall env2 why2,
          AdminServiceCourses.archiveCourse k why2 env2 w1
            = (Thrown AlreadyArchived, w1))
    /\ forall now2 why2,
         exists c2 w2,
           AdminServiceCourses.unarchiveCourse k why2 (mkEnv (authName env) now2) w1
             = (Ok c2, w2)
           /\ CourseRepository.findById k w2 = Some c2
           /\ getIsArchived c2 = Some false
           /\ getArchivedAt c2 = None
           /\ getGroups c2 = getGroups c
           /\ length (auditLogs (base w2)) = S (S (length (auditLogs (base w)))).
Proof.
  intros Ha Hc Hflag.
  pose proof (course_findById_getId _ _ _ Hc) as Hk.
  split; [intros env0 why0; by apply (archive_refusals env0 w k why0 c)|].
  eexists _, _. split; [by apply (archiveCourse_run env w k why a c)|].
  set (c1 := setArchivedAt (Some (clockNow env)) (setIsArchived (Some true) c)).
  set (w1 := mkWorld _ _ _).
  assert (CourseRepository.findById k w1 = Some c1) as Hc1.
  { by apply (course_findById_saved k w c c1 Hc). }
  split; [done|]. split; [done|]. split; [done|]. split.
  - intros env2 why2. by apply (archive_refusals env2 w1 k why2 c1).
  - intros now2 why2. eexists _, _.
    split; [by apply (unarchiveCourse_run _ w1 k why2 a c1)|].
    split; [|split; [done|split; [done|split; [done|]]]].
    + by apply (course_findById_saved k w1 c1 _ Hc1).
    + simpl. rewrite !length_app. simpl. lia.
Qed.

Lemma archive_then_unarchive_witness :
  exists c1 w1 c2 w2,
    AdminServiceCourses.archiveCourse 20 "term over" sampleEnv sampleWorld
      = (Ok c1, w1)
    /\ AdminServiceCourses.unarchiveCourse 20 "new term" sampleEnv w1 = (Ok c2, w2)
    /\ getIsArchived c2 = Some false
    /\ CourseRepository.findById 20 w2 = Some c2.
Proof.
  destruct (archive_then_unarchive sampleEnv sampleWorld 20 "term over" root
              sampleCourse)
    as (_ & c1 & w1 & E1 & _ & _ & _ & _ & Hun);
    [reflexivity | vm_compute; reflexivity | done |].
  destruct (Hun sampleNow "new term") as (c2 & w2 & E2 & F & G & _).
  exists c1, w1, c2, w2. by repeat split.
Defined.

Lemma activeGroups_zero (gs : list StudyGroup) :
  AdminServiceCourses.activeGroups gs = 0%nat
  <-> forall g, g ∈ gs -> getGroupIsActive g <> Some true.
Proof.
  unfold AdminServiceCourses.activeGroups. induction gs as [|g gs IH].
  - split; [|done]. intros _ g Hg. by apply not_elem_of_nil in Hg.
  - rewrite filter_cons. case_decide as Hg; simpl.
    + split; [done|]. intros H. exfalso. apply (H g); [left|done].
    + rewrite IH. split.
      * intros H g' Hg'. apply elem_of_cons in Hg' as [->|Hg']; [done|by apply H].
      * intros H g' Hg'. apply H. by right.
Qed.

Lemma deleteCourse_past_guard c :
  (forall g, g ∈ getGroups c -> getGroupIsActive g <> Some true) ->
  negb (bool_decide (getGroups c = []))
  && bool_decide (0 < AdminServiceCourses.activeGroups (getGroups c))%nat = false.
Proof.
  intros Hnone. rewrite (bool_decide_false (0 < _)%nat); [apply andb_false_r|].
  rewrite (proj2 (activeGroups_zero _) Hnone). lia.
Qed.

Lemma deleteCourse_at_guard c :
  (exists g, g ∈ getGroups c /\ getGroupIsActive g = Some true) ->
  negb (bool_decide (getGroups c = []))
  && bool_decide (0 < AdminServiceCourses.activeGroups (getGroups c))%nat = true.
Proof.
  intros (g & Hg & Hact).
  rewrite bool_decide_false
    by (intros E; rewrite E in Hg; by apply not_elem_of_nil in Hg).
  rewrite bool_decide_true; [done|].
  destruct (AdminServiceCourses.activeGroups (getGroups c)) eqn:E; [|lia].
  exfalso. by apply (proj1 (activeGroups_zero _) E g).
Qed.

(** [deleteCourse], whatever the persistence layer does on a delete.  On
    an id that is not stored it throws the course-not-found error.  On a
    stored course it throws the active-groups error, and writes nothing,
    when a stored group that refers to the course has the active flag set
    and true; when no such group has (a null flag counts as inactive) and
    the caller is not stored, it throws the admin-not-found error and
    writes nothing.  It returns only for a stored course none of whose
    groups is active and a stored caller, and then the course and group
    tables are those the delete of the persistence layer has left. *)
Theorem deleteCourse_guard P env w k why :
  (courses w !! k = None ->
   AdminServiceCourses.deleteCourse P k why env w = (Thrown CourseNotFound, w))
  /\ (is_Some (courses w !! k) ->
      ((exists i row, studyGroups w !! i = Some row
                      /\ col_groupCourse row = Some k
                      /\ col_groupIsActive row = Some true) ->
       AdminServiceCourses.deleteCourse P k why env w = (Thrown HasActiveGroups, w))
      /\ ((forall i row, studyGroups w !! i = Some row ->
                         col_groupCourse row = Some k ->
                         col_groupIsActive row <> Some true) ->
          UserRepository.findByUsername (authName env) (base w) = None ->
          AdminServiceCourses.deleteCourse P k why env w = (Thrown AdminNotFound, w)))
  /\ (forall w',
        AdminServiceCourses.deleteCourse P k why env w = (Ok tt, w') ->
        exists c a,
          CourseRepository.findById k w = Some c
          /\ (forall i row, studyGroups w !! i = Some row ->
                            col_groupCourse row = Some k ->
                            col_groupIsActive row <> Some true)
          /\ UserRepository.findByUsername (authName env) (base w) = Some a
          /\ deleteCourseRows P c (tables w) = Ok (tables w')).
Proof.
  split; [|split].
  - intros Hk. unfold AdminServiceCourses.deleteCourse. wtx_unfold.
    unfold CourseRepository.findById. by rewrite Hk.
  - intros [row Hrow].
    set (c := mkCourse k row (StudyGroupRepository.findByCourse k w)).
    assert (CourseRepository.findById k w = Some c) as Hc
      by (unfold CourseRepository.findById; by rewrite Hrow).
    split.
    + intros (i & grow & Hg & Hown & Hact).
      unfold AdminServiceCourses.deleteCourse. wtx_unfold. rewrite Hc.
      rewrite deleteCourse_at_guard; [done|].
      exists (mkStudyGroup i grow). split; [|done].
      by apply (course_groups k w c).
    + intros Hnone Ha.
      unfold AdminServiceCourses.deleteCourse. wtx_unfold. rewrite Hc.
      rewrite deleteCourse_past_guard.
      * by rewrite logAction_eq_any, Ha.
      * intros g Hg. apply (course_groups k w c) in Hg as [Hg Hown]; [|done].
        by apply (Hnone _ _ Hg).
  - intros w'. unfold AdminServiceCourses.deleteCourse. wtx_unfold.
    destruct (CourseRepository.findById k w) as [c|] eqn:Hc; [|done].
    destruct (negb _ && _) eqn:Hguard; [done|].
    rewrite logAction_eq_any.
    destruct (UserRepository.findByUsername _ _) as [a|]; [|done]. simpl.
    destruct (deleteCourseRows P c _) as [[cs gs]|e] eqn:Hdel; [|done].
    intros [= <-]. exists c, a. split; [done|]. split; [|done].
    intros i grow Hg Hown Hact.
    rewrite deleteCourse_at_guard in Hguard; [done|].
    exists (mkStudyGroup i grow). split; [|done].
    by apply (course_groups k w c).
Qed.

Lemma deleteCourse_guard_witness :
  AdminServiceCourses.deleteCourse cascadingDelete 30 "old" sampleEnv sampleWorld
    = (Thrown CourseNotFound, sampleWorld)
  /\ AdminServiceCourses.deleteCourse cascadingDelete 10 "old" sampleEnv sampleWorld
     = (Thrown HasActiveGroups, sampleWorld)
  /\ AdminServiceCourses.deleteCourse cascadingDelete 20 "old"
       (mkEnv "ghost" sampleNow) sampleWorld
     = (Thrown AdminNotFound, sampleWorld)
  /\ (exists w',
       AdminServiceCourses.deleteCourse cascadingDelete 20 "old" sampleEnv sampleWorld
         = (Ok tt, w')
       /\ CourseRepository.findById 20 sampleWorld = Some sampleCourse
       /\ deleteCourseRows cascadingDelete sampleCourse (tables sampleWorld)
          = Ok (tables w'))
  /\ exists w1 w2,
       AdminServiceCourses.deleteGroup cascadingDelete 100 "x" sampleEnv sampleWorld
         = (Ok tt, w1)
       /\ AdminServiceCourses.deleteCourse cascadingDelete 10 "old" sampleEnv w1
          = (Ok tt, w2).
Proof.
  destruct (deleteCourse_guard cascadingDelete sampleEnv sampleWorld 30 "old")
    as (Hmissing & _).
  destruct (deleteCourse_guard cascadingDelete sampleEnv sampleWorld 10 "old")
    as (_ & Hactive & _).
  destruct (deleteCourse_guard cascadingDelete (mkEnv "ghost" sampleNow)
              sampleWorld 20 "old") as (_ & Hghost & _).
  destruct (deleteCourse_guard cascadingDelete sampleEnv sampleWorld 20 "old")
    as (_ & _ & Hret).
  split; [apply Hmissing; reflexivity|].
  split.
  { destruct Hactive as [H _]; [by eexists|]. apply H.
    exists 100, (mkStudyGroupColumns (Some 10) (Some true)). by vm_compute. }
  split.
  { destruct Hghost as [_ H]; [by eexists|]. apply H; [|reflexivity].
    intros i row Hrow Hown.
    destruct (decide (i = 201)) as [->|]; [by vm_compute in Hrow; simplify_eq|].
    destruct (decide (i = 200)) as [->|]; [by vm_compute in Hrow; simplify_eq|].
    destruct (decide (i = 100)) as [->|].
    - vm_compute in Hrow. by simplify_eq.
    - unfold sampleWorld in Hrow. simpl in Hrow.
      by rewrite !lookup_insert_ne in Hrow. }
  split.
  { eexists. split; [vm_compute; reflexivity|].
    edestruct Hret as (c & a & Hc & _ & _ & Hdel); [vm_compute; reflexivity|].
    assert (c = sampleCourse) as -> by (vm_compute in Hc; by simplify_eq).
    split; [vm_compute; reflexivity|]. exact Hdel. }
  eexists _, _. split; vm_compute; reflexivity.
Defined.

(** [deleteGroup], whatever the persistence layer does on a delete.  On
    an id that is not stored it throws the group-not-found error; on a
    stored group, when the caller is not stored, it throws the
    admin-not-found error and the group stays.  It returns only for a
    stored group and a stored caller, with one audit entry appended, and
    then the course and group tables are those the delete of the
    persistence layer has left. *)
Theorem deleteGroup_spec P env w k why :
  (studyGroups w !! k = None ->
   AdminServiceCourses.deleteGroup P k why env w = (Thrown GroupNotFound, w))
  /\ (is_Some (studyGroups w !! k) ->
      UserRepository.findByUsername (authName env) (base w) = None ->
      AdminServiceCourses.deleteGroup P k why env w = (Thrown AdminNotFound, w))
  /\ (forall w',
        AdminServiceCourses.deleteGroup P k why env w = (Ok tt, w') ->
        exists g a,
          StudyGroupRepository.findById k w = Some g
          /\ UserRepository.findByUsername (authName env) (base w) = Some a
          /\ deleteGroupRows P g (tables w) = Ok (tables w')
          /\ users (base w') = users (base w)
          /\ auditLogs (base w')
             = (auditLogs (base w)
                ++ [auditEntryFor a "GROUP_DELETE" "GROUP" k why])%list).
Proof.
  split; [|split].
  - intros Hg. unfold AdminServiceCourses.deleteGroup. wtx_unfold.
    unfold StudyGroupRepository.findById. by rewrite Hg.
  - intros [row Hg] Ha. unfold AdminServiceCourses.deleteGroup. wtx_unfold.
    unfold StudyGroupRepository.findById. rewrite Hg. simpl.
    by rewrite logAction_eq_any, Ha.
  - intros w'. unfold AdminServiceCourses.deleteGroup. wtx_unfold.
    destruct (StudyGroupRepository.findById k w) as [g|] eqn:Hg; [|done].
    rewrite logAction_eq_any.
    destruct (UserRepository.findByUsername _ _) as [a|]; [|done]. simpl.
    destruct (deleteGroupRows P g _) as [[cs gs]|e] eqn:Hdel; [|done].
    intros [= <-]. by exists g, a.
Qed.

Lemma deleteGroup_spec_witness :
  AdminServiceCourses.deleteGroup cascadingDelete 999 "x" sampleEnv sampleWorld
    = (Thrown GroupNotFound, sampleWorld)
  /\ AdminServiceCourses.deleteGroup cascadingDelete 100 "x"
       (mkEnv "ghost" sampleNow) sampleWorld
     = (Thrown AdminNotFound, sampleWorld)
  /\ exists w',
       AdminServiceCourses.deleteGroup cascadingDelete 100 "x" sampleEnv sampleWorld
         = (Ok tt, w')
       /\ UserRepository.findByUsername (authName sampleEnv) (base sampleWorld)
          = Some root
       /\ auditLogs (base w') = [auditEntryFor root "GROUP_DELETE" "GROUP" 100 "x"].
Proof.
  destruct (deleteGroup_spec cascadingDelete sampleEnv sampleWorld 999 "x")
    as (H1 & _).
  destruct (deleteGroup_spec cascadingDelete (mkEnv "ghost" sampleNow)
              sampleWorld 100 "x") as (_ & H2 & _).
  destruct (deleteGroup_spec cascadingDelete sampleEnv sampleWorld 100 "x")
    as (_ & _ & H3).
  split; [by apply H1|]. split; [apply H2; [by eexists|reflexivity]|].
  eexists. split; [vm_compute; reflexivity|].
  edestruct H3 as (g & a & _ & Ha & _ & _ & Hlog); [vm_compute; reflexivity|].
  assert (a = root) as -> by (vm_compute in Ha; by simplify_eq).
  split; [reflexivity|]. exact Hlog.
Defined.

(** Each course and group method, whatever the state and the session,
    leaves the user table as it was; when it returns it has appended
    exactly one audit entry, for its action and target and in the name of
    the stored caller; when it throws it has written nothing. *)
Theorem course_methods_log_once P k why :
  logsOnWorld "COURSE_ARCHIVE" "COURSE" k why (AdminServiceCourses.archiveCourse k why)
  /\ logsOnWorld "COURSE_UNARCHIVE" "COURSE" k why
       (AdminServiceCourses.unarchiveCourse k why)
  /\ logsOnWorld "COURSE_DELETE" "COURSE" k why
       (AdminServiceCourses.deleteCourse P k why)
  /\ logsOnWorld "GROUP_DELETE" "GROUP" k why
       (AdminServiceCourses.deleteGroup P k why).
Proof.
  split; [|split; [|split]]; intros env w;
    unfold AdminServiceCourses.archiveCourse, AdminServiceCourses.unarchiveCourse,
      AdminServiceCourses.deleteCourse, AdminServiceCourses.deleteGroup;
    wtx_unfold; rewrite ?logAction_eq_any;
    repeat (case_match; simplify_eq; rewrite ?logAction_eq_any in * );
    simpl; try done.
  all: split; [done|]; eexists; split; [eassumption|done].
Qed.

End Courses.

(** ** The controller *)

Section Controller.

Implicit Types (s : Store) (u a : User) (k : Z) (env : Env) (req : Request).

Variable plusYears : LocalDateTime -> Z -> LocalDateTime.

(** An endpoint answers according to what its service operation did. *)
Lemma dispatch_perform req env s :
  match perform (operationOf plusYears (clockNow env) req) env s with
  | (Ok _, s') => exists r, dispatch plusYears req env s = (r, s') /\ is200 r = true
  | (Thrown (RuntimeException _), s') => dispatch plusYears req env s = (notFound, s')
  | (Thrown (IllegalArgumentException message), s') =>
      dispatch plusYears req env s
      = (if catchesOnlyRuntime req then notFound else badRequest message, s')
  end.
Proof.
  destruct req as [k [] r|k days r|k r|k r|k r|k r|k r|k r]; simpl;
    unfold AdminController.updateUserStatus, AdminController.suspendUser,
      AdminController.banUser, AdminController.unsuspendUser,
      AdminController.unbanUser, AdminController.softDeleteUser,
      AdminController.restoreUser, AdminController.permanentDeleteUser,
      tryCatch, tryCatchRuntime, outcome.
  all: repeat case_match; simplify_eq; eauto 10.
Qed.

Lemma targetOf_operationOf now req :
  targetOf (operationOf plusYears now req) = pathId req.
Proof. by destruct req as [k [] r|k [d|] r|k r|k r|k r|k r|k r|k r]. Qed.

(** The answer tells what was written: a 200 answer means that exactly
    one audit entry was appended, for the user of the path; any other
    answer means that both tables are as they were. *)
Theorem answer_reflects_store req env s r s' :
  dispatch plusYears req env s = (r, s') ->
  if is200 r
  then exists e, auditLogs s' = (auditLogs s ++ [e])%list
                 /\ targetId e = pathId req /\ targetType e = "USER"
  else s' = s.
Proof.
  intros H. pose proof (dispatch_perform req env s) as D.
  destruct (perform _ env s) as [[[]|[m|m]] s1] eqn:E.
  - destruct D as (r1 & D & H200). rewrite H in D. injection D as <- <-.
    rewrite H200.
    apply perform_effect in E as (u & a' & _ & _ & Hlog & _).
    eexists. split; [exact Hlog|]. split; [|done].
    apply targetOf_operationOf.
  - rewrite H in D. injection D as -> ->. apply perform_thrown in E.
    by destruct (catchesOnlyRuntime req).
  - rewrite H in D. injection D as -> ->. by apply perform_thrown in E.
Qed.






End Controller.

Lemma answer_reflects_store_witness :
  exists s',
    dispatch samplePlusYears (PostBan 42 "abuse") sampleEnv moderationStore
    = (ok "User banned successfully", s')
    /\ exists e, auditLogs s' = [e] /\ targetId e = 42.
Proof.
  destruct (dispatch samplePlusYears (PostBan 42 "abuse") sampleEnv moderationStore)
    as [r s'] eqn:E.
  assert (r = ok "User banned successfully") as ->
    by (vm_compute in E; by injection E as <- _).
  pose proof (answer_reflects_store _ _ _ _ _ _ E) as (e & He & Ht & _).
  exists s'. split; [reflexivity|]. by exists e.
Defined.


